(** * Moon Highlighter: a shallow embedding of the highlight pipeline

    The development follows [moon_highlighter.py] (class [MoonHighlighter]
    and [main]) and [moon_highlighter_simple.py] (class
    [MoonHighlighterSimple] and [main]).

    Conventions of the embedding:
    - Python integers are [Z]; [%] with a positive modulus is [Z.modulo],
      [>>] is [Z.shiftr] (both round towards minus infinity, as in Python).
    - Python floats that only arise as [n / 255.0] or as page coordinates
      are exact rationals [Q]; a Python [str] is a [string], one character
      per code point.
    - PyMuPDF, fuzzywuzzy and [str.lower] are library boundaries: a page is
      a record of the answers the library gives for it, an answer [None]
      standing for a raised exception; the similarity scorer is a class
      parameter.  So are PyPDF2, [pathlib] and [argparse], whose
      [parse_args] answers a command line with the exit of [-h], the exit
      of a usage error or the namespace.
    - [self.text_cache], the annotations of the open document and the log of
      extraction calls form the mutable state, threaded by a small
      state-and-exception monad. *)

From Stdlib Require Import ZArith QArith String Ascii List Bool Lia Sorted.
From stdpp Require Import base option list gmap strings.

Local Open Scope Z_scope.
Local Open Scope string_scope.

(** ** Geometry and page data (PyMuPDF boundary) *)

Record Point := mkPoint { px : Q; py : Q }.

(** [fitz.Quad(ul, ur, ll, lr)]: four corner points, in the argument
    order of the constructor. *)
Record Quad := mkQuad { ul : Point; ur : Point; ll : Point; lr : Point }.

Definition point_eqb (a b : Point) : bool :=
  Qeq_bool (px a) (px b) && Qeq_bool (py a) (py b).

(** [Quad.__eq__]: corner-wise comparison. *)
Definition quad_eqb (a b : Quad) : bool :=
  point_eqb (ul a) (ul b) && point_eqb (ur a) (ur b) &&
  point_eqb (ll a) (ll b) && point_eqb (lr a) (lr b).

(** One entry of [page.get_text("words")]:
    [(x0, y0, x1, y1, text, block_no, line_no, word_no)]. *)
Record Word := mkWord {
  x0 : Q; y0 : Q; x1 : Q; y1 : Q;
  word_text : string;
  block_no : nat; line_no : nat; word_no : nat
}.

Definition RGB : Type := Q * Q * Q.

(** A highlight annotation as left on a page by [add_highlight_annot],
    [set_colors] and [set_info]. *)
Record Annot := mkAnnot {
  annot_quads : list Quad;
  annot_stroke : RGB;
  annot_content : string
}.

(** What the library answers for one page.  [None] is a raised exception.
    The answers do not depend on the highlight annotations already added:
    annotations are not part of the page text. *)
Record PageData := mkPageData {
  search_for : string -> option (list Quad);   (* page.search_for(text, quads=True) *)
  get_text : option string;                    (* page.get_text() *)
  get_text_words : option (list Word);         (* page.get_text("words") *)
  highlight_fails : list Quad -> bool          (* add_highlight_annot .. update() raises *)
}.

Record Page := mkPage { number : nat; page_data : PageData }.

Definition Document : Type := list PageData.

(** [for page in doc]: the pages in document order; [page.number] is the
    index of the page. *)
Definition doc_pages (doc : Document) : list Page :=
  imap (fun i d => mkPage i d) doc.

(** ** Files *)

(** [pathlib.Path]: the anchor (drive and root, possibly empty) and the
    parts below it. *)
Record Path := mkPath { anchor : string; parts : list string }.

#[global] Instance Path_eq_dec : EqDecision Path.
Proof. solve_decision. Defined.

#[global] Instance Path_countable : Countable Path.
Proof.
  refine (inj_countable' (fun p => (anchor p, parts p)) (fun ap => mkPath ap.1 ap.2) _).
  intros []. reflexivity.
Defined.

(** A row of the table [notes]. *)
Record Note := mkNote {
  book : string;
  bookmark : string;
  highlightColor : Z;
  highlightLength : Z;
  original : string
}.

Inductive File :=
| PdfFile (doc : Document) (annots : list (nat * Annot))
| SqliteFile (notes : list Note)
| OtherFile.

(** The file system, and whether [doc.save] raises for a target path; a
    save that raises is taken to leave the file system as it was. *)
Record World := mkWorld {
  fs : gmap Path File;
  save_fails : Path -> bool
}.

(** ** String helpers ([str] slicing and [rfind]) *)

Fixpoint str_take (n : nat) (s : string) : string :=
  match n, s with
  | S n', String a s' => String a (str_take n' s')
  | _, _ => EmptyString
  end.

Fixpoint str_drop (n : nat) (s : string) : string :=
  match n, s with
  | S n', String _ s' => str_drop n' s'
  | _, _ => s
  end.

(** [s.rfind(c)]: index of the last occurrence, [None] for -1. *)
Fixpoint rfind (c : ascii) (s : string) : option nat :=
  match s with
  | EmptyString => None
  | String a s' =>
      match rfind c s' with
      | Some i => Some (S i)
      | None => if Ascii.eqb a c then Some 0%nat else None
      end
  end.

(** ** pathlib properties *)

(** [PurePath.name]: the last part, empty for a bare anchor. *)
Definition path_name (p : Path) : string := List.last (parts p) "".

(** [PurePath.parent]: the parent of a bare anchor is itself. *)
Definition path_parent (p : Path) : Path := mkPath (anchor p) (removelast (parts p)).

(** [parent / name], for a name that is a single relative part. *)
Definition path_join (parent : Path) (name : string) : Path :=
  mkPath (anchor parent) (parts parent ++ [name]).

(** [PurePath.suffix]: [name[i:]] when [0 < i < len(name) - 1] for
    [i = name.rfind('.')], else the empty string. *)
Definition path_suffix (p : Path) : string :=
  let name := path_name p in
  match rfind "." name with
  | Some i =>
      if (0 <? i)%nat && (i <? String.length name - 1)%nat
      then str_drop i name else ""
  | None => ""
  end.

(** [PurePath.stem] *)
Definition path_stem (p : Path) : string :=
  let name := path_name p in
  match rfind "." name with
  | Some i =>
      if (0 <? i)%nat && (i <? String.length name - 1)%nat
      then str_take i name else name
  | None => name
  end.

(** ** The colour mapper *)

Definition highlight_record : Type := Z * Z * string.

Module MoonHighlighterSimple.

(** [color_map] of [MoonHighlighterSimple.map_color]. *)
Definition color_map : gmap Z string :=
  list_to_map
    [ (1996532479, "#FFFF00");
      (-1996554240, "#00FF00");
      (2013265664, "#0000FF");
      (-256, "#FF0000");
      (16711680, "#FF00FF") ].

Definition hex_digit (n : Z) : ascii :=
  match n with
  | 0 => "0" | 1 => "1" | 2 => "2" | 3 => "3" | 4 => "4"
  | 5 => "5" | 6 => "6" | 7 => "7" | 8 => "8" | 9 => "9"
  | 10 => "a" | 11 => "b" | 12 => "c" | 13 => "d" | 14 => "e"
  | _ => "f"
  end%char.

(** [f"{n:02x}"] for [0 <= n < 256]. *)
Definition hex02 (n : Z) : string :=
  String (hex_digit (n / 16)) (String (hex_digit (n mod 16)) EmptyString).

Definition map_color (color_value : Z) : string :=
  match color_map !! color_value with
  | Some c => c
  | None =>
      let r := Z.abs (color_value mod 256) in
      let g := Z.abs (Z.shiftr color_value 8 mod 256) in
      let b := Z.abs (Z.shiftr color_value 16 mod 256) in
      "#" ++ hex02 r ++ hex02 g ++ hex02 b
  end.

(** Default output path of [process_sample_highlights]:
    [parent / f"{stem}_test_highlighted{suffix}"]. *)
Definition default_output_path (pdf_path : Path) : Path :=
  path_join (path_parent pdf_path)
    (path_stem pdf_path ++ "_test_highlighted" ++ path_suffix pdf_path).

End MoonHighlighterSimple.

(** [color_map] of [MoonHighlighter.map_color]. *)
Definition color_map : gmap Z RGB :=
  list_to_map
    [ (1996532479, (1, 1, 0)%Q);
      (-1996554240, (0, 1, 0)%Q);
      (2013265664, (0, 0, 1)%Q);
      (-256, (1, 0, 0)%Q);
      (16711680, (1, 0, 1)%Q) ].

(** [n / 255.0] *)
Definition over255 (n : Z) : Q := (inject_Z n / 255)%Q.

Definition map_color (color_value : Z) : RGB :=
  match color_map !! color_value with
  | Some c => c
  | None =>
      let r := over255 (Z.abs (color_value mod 256)) in
      let g := over255 (Z.abs (Z.shiftr color_value 8 mod 256)) in
      let b := over255 (Z.abs (Z.shiftr color_value 16 mod 256)) in
      (r, g, b)
  end.

(** ** External text libraries *)

(** [str.lower] and [fuzzywuzzy.fuzz.partial_ratio] (a score in 0..100). *)
Class Library := {
  lower : string -> string;
  partial_ratio : string -> string -> Z
}.

(** ** Mutable state and the state-and-exception monad *)

(** Extraction calls made on the library, by page number. *)
Inductive Call :=
| CallGetText (n : nat)      (* page.get_text() *)
| CallGetWords (n : nat).    (* page.get_text("words") *)

Record State := mkState {
  text_cache : gmap nat string;        (* self.text_cache *)
  doc_annots : list (nat * Annot);     (* annotations of the open document, oldest first *)
  calls : list Call                    (* extraction calls so far, oldest first *)
}.

(** A computation returns a value or raises ([None]); the state changes
    made before a raise persist. *)
Definition M (A : Type) : Type := State -> option A * State.

#[global] Instance M_ret : MRet M := fun A a st => (Some a, st).

#[global] Instance M_bind : MBind M := fun A B f m st =>
  match m st with
  | (Some a, st') => f a st'
  | (None, st') => (None, st')
  end.

Definition raise {A} : M A := fun st => (None, st).

(** [try: body except Exception: return dflt] *)
Definition try_except {A} (body : M A) (dflt : A) : M A := fun st =>
  match body st with
  | (Some a, st') => (Some a, st')
  | (None, st') => (Some dflt, st')
  end.

Definition get_cache : M (gmap nat string) := fun st => (Some (text_cache st), st).

Definition cache_store (n : nat) (t : string) : M unit := fun st =>
  (Some tt, mkState (<[n := t]> (text_cache st)) (doc_annots st) (calls st)).

Definition log_call (c : Call) : M unit := fun st =>
  (Some tt, mkState (text_cache st) (doc_annots st) (calls st ++ [c])).

Definition with_annot (st : State) (n : nat) (a : Annot) : State :=
  mkState (text_cache st) (doc_annots st ++ [(n, a)]) (calls st).

Definition add_annot (n : nat) (a : Annot) : M unit := fun st =>
  (Some tt, with_annot st n a).

(** The answer of a library call: its value, or the exception. *)
Definition lib {A} (answer : option A) : M A :=
  match answer with
  | Some a => mret a
  | None => raise
  end.

(** ** MoonHighlighter *)

Record MoonHighlighter := mkMoonHighlighter {
  pdf_path : Path;
  book_name : string;
  db_path : Path;
  fuzzy_threshold : Z;
  max_fuzzy_results : nat
}.

(** [__init__]: both files must exist ([None] is [FileNotFoundError]);
    the thresholds are fixed and the cache starts empty. *)
Definition init (w : World) (pdf_path : Path) (book_name : string) (db_path : Path)
    : option (MoonHighlighter * gmap nat string) :=
  match fs w !! pdf_path, fs w !! db_path with
  | Some _, Some _ =>
      Some (mkMoonHighlighter pdf_path book_name db_path 80 5, ∅)
  | _, _ => None
  end.

(** Truth value of a Python list. *)
Definition truthy {A} (l : list A) : bool :=
  match l with
  | [] => false
  | _ :: _ => true
  end.

(** [get_highlights_from_db]: the rows of [notes] for this book that are
    not bookmarks; any [sqlite3.Error] gives the empty list. *)
Definition get_highlights_from_db (w : World) (self : MoonHighlighter)
    : list highlight_record :=
  match fs w !! db_path self with
  | Some (SqliteFile notes) =>
      map (fun n => (highlightColor n, highlightLength n, original n))
        (List.filter
           (fun n => String.eqb (book n) (book_name self) && String.eqb (bookmark n) "")
           notes)
  | _ => []
  end.

Definition extract_page_text (page : Page) : M string :=
  let page_num := number page in
  cache ← get_cache;
  match cache !! page_num with
  | Some t => mret t
  | None =>
      log_call (CallGetText page_num);;
      t ← lib (get_text (page_data page));
      cache_store page_num t;;
      mret t
  end.

Definition find_text_exact (page : Page) (text : string) : M (list Quad) :=
  try_except
    (quads ← lib (search_for (page_data page) text);
     mret quads)
    [].

(** [similar_words.sort(key=lambda x: x[1], reverse=True)]: a stable sort,
    highest score first, equal scores in their original order. *)
Fixpoint insert_by_score {A} (x : A * Z) (l : list (A * Z)) : list (A * Z) :=
  match l with
  | [] => [x]
  | y :: l' => if (x.2 <? y.2)%Z then y :: insert_by_score x l' else x :: y :: l'
  end.

Fixpoint sort_by_score {A} (l : list (A * Z)) : list (A * Z) :=
  match l with
  | [] => []
  | x :: l' => insert_by_score x (sort_by_score l')
  end.

(** [f"Highlight: {text[:100]}..."] *)
Definition note_content (text : string) : string :=
  "Highlight: " ++ str_take 100 text ++ "...".

(** The quad built from a word's bounding box:
    [fitz.Quad(Point(x0, y0), Point(x1, y0), Point(x1, y1), Point(x0, y1))]. *)
Definition word_quad (word : Word) : Quad :=
  mkQuad (mkPoint (x0 word) (y0 word)) (mkPoint (x1 word) (y0 word))
         (mkPoint (x1 word) (y1 word)) (mkPoint (x0 word) (y1 word)).

(** The counters of the final report. *)
Record Report := mkReport {
  total_highlights : nat;
  found_highlights : nat;
  fuzzy_highlights : nat;
  not_found_highlights : nat
}.

(** [found_highlights += 1], and [fuzzy_highlights += 1] if [fuzzy_used]. *)
Definition count_found (fuzzy_used : bool) (r : Report) : Report :=
  mkReport (total_highlights r) (S (found_highlights r))
    (if fuzzy_used then S (fuzzy_highlights r) else fuzzy_highlights r)
    (not_found_highlights r).

(** [not_found_highlights += 1] *)
Definition count_not_found (r : Report) : Report :=
  mkReport (total_highlights r) (found_highlights r) (fuzzy_highlights r)
    (S (not_found_highlights r)).

(** How a call of [process_highlights] ends: it returns the output path
    ([None] for the empty string) and prints the report, or an exception
    leaves it. *)
Inductive Outcome :=
| Returned (output_file : option Path) (report : option Report) (w : World) (st : State)
| Uncaught (w : World) (st : State).

Section Pipeline.
Context `{Lib : Library}.

(** The loop of [find_text_fuzzy] that collects [similar_words]. *)
Fixpoint collect_similar (self : MoonHighlighter) (text : string) (words : list Word)
    : list (Word * Z) :=
  match words with
  | [] => []
  | word :: rest =>
      if (3 <? String.length (word_text word))%nat then
        let score := partial_ratio (lower text) (lower (word_text word)) in
        if (fuzzy_threshold self <=? score)%Z
        then (word, score) :: collect_similar self text rest
        else collect_similar self text rest
      else collect_similar self text rest
  end.

Definition find_text_fuzzy (self : MoonHighlighter) (page : Page) (text : string)
    : M (list (Quad * Z)) :=
  try_except
    (page_text ← extract_page_text page;
     log_call (CallGetWords (number page));;
     words ← lib (get_text_words (page_data page));
     let similar_words := sort_by_score (collect_similar self text words) in
     let best_matches := take (max_fuzzy_results self) similar_words in
     mret (map (fun ws : Word * Z => (word_quad ws.1, ws.2)) best_matches))
    [].

(** The four library calls that create, colour, label and update the
    annotation are one step: it raises, leaving no annotation, or it
    leaves the finished annotation on the page. *)
Definition add_highlight_annotation (page : Page) (quads : list Quad)
    (color : RGB) (text : string) : M bool :=
  try_except
    (if truthy quads then
       (if highlight_fails (page_data page) quads then raise else mret tt);;
       add_annot (number page)
         (mkAnnot quads color (note_content text));;
       mret true
     else mret false)
    false.

(** Exact pass (lines 285-290): the quads of the first page that has any. *)
Fixpoint exact_loop (pages : list Page) (text : string) (found_quads : list Quad)
    : M (list Quad) :=
  match pages with
  | [] => mret found_quads
  | page :: rest =>
      quads ← find_text_exact page text;
      if truthy quads then mret (found_quads ++ quads)%list
      else exact_loop rest text found_quads
  end.

(** Fuzzy pass (lines 294-302): the best match of the first page that
    has any. *)
Fixpoint fuzzy_loop (self : MoonHighlighter) (pages : list Page) (text : string)
    (found_quads : list Quad) (fuzzy_used : bool) : M (list Quad * bool) :=
  match pages with
  | [] => mret (found_quads, fuzzy_used)
  | page :: rest =>
      fuzzy_results ← find_text_fuzzy self page text;
      match fuzzy_results with
      | (best_quad, score) :: _ => mret ([best_quad], true)
      | [] => fuzzy_loop self rest text found_quads fuzzy_used
      end
  end.

(** The locate step of [process_highlights] (lines 281-302): the quads
    found and whether the fuzzy search supplied them. *)
Definition locate (self : MoonHighlighter) (doc : Document) (text : string)
    (use_fuzzy : bool) : M (list Quad * bool) :=
  found_quads ← exact_loop (doc_pages doc) text [];
  if negb (truthy found_quads) && use_fuzzy
  then fuzzy_loop self (doc_pages doc) text found_quads false
  else mret (found_quads, false).

(** The annotation step (lines 304-324).  With no quads the record is
    counted as not found.  Otherwise the pages are searched again for
    the text and the found quads that occur among the hits of a page are
    annotated on the first page where any does; the [else] of the [for]
    counts the record as not found.  The search of line 307 is outside
    every [try]: its exception leaves [process_highlights]. *)
Fixpoint annotate_loop (pages : list Page) (found_quads : list Quad)
    (fuzzy_used : bool) (color : RGB) (text : string) (r : Report) : M Report :=
  match pages with
  | [] => mret (count_not_found r)
  | page :: rest =>
      hits ← lib (search_for (page_data page) text);
      let page_quads :=
        List.filter (fun q => existsb (fun h => quad_eqb h q) hits) found_quads in
      if truthy page_quads then
        success ← add_highlight_annotation page page_quads color text;
        mret (if success : bool then count_found fuzzy_used r
              else count_not_found r)
      else annotate_loop rest found_quads fuzzy_used color text r
  end.

(** One iteration of the loop over the highlights (lines 272-324). *)
Definition process_highlight (self : MoonHighlighter) (doc : Document)
    (use_fuzzy : bool) (h : highlight_record) (r : Report) : M Report :=
  let '(color_value, length, original_text) := h in
  let color := map_color color_value in
  '(found_quads, fuzzy_used) ← locate self doc original_text use_fuzzy;
  if truthy found_quads
  then annotate_loop (doc_pages doc) found_quads fuzzy_used color original_text r
  else mret (count_not_found r).

Fixpoint highlights_loop (self : MoonHighlighter) (doc : Document)
    (use_fuzzy : bool) (highlights : list highlight_record) (r : Report) : M Report :=
  match highlights with
  | [] => mret r
  | h :: rest =>
      r' ← process_highlight self doc use_fuzzy h r;
      highlights_loop self doc use_fuzzy rest r'
  end.

(** Lines 326-330. *)
Definition default_output_path (self : MoonHighlighter) : Path :=
  path_join (path_parent (pdf_path self))
    (path_stem (pdf_path self) ++ "_highlighted" ++ path_suffix (pdf_path self)).

(** [process_highlights], run on an instance whose cache is [cache], with
    no [progress_callback] (its default).  The returned [""] is [None];
    the report is present when it is printed. *)
Definition process_highlights (self : MoonHighlighter) (cache : gmap nat string)
    (w : World) (output_path : option Path) (use_fuzzy : bool) : Outcome :=
  let highlights := get_highlights_from_db w self in
  if truthy highlights then
    match fs w !! pdf_path self with
    | Some (PdfFile doc annots) =>
        let r0 := mkReport (List.length highlights) 0 0 0 in
        match highlights_loop self doc use_fuzzy highlights r0
                (mkState cache annots []) with
        | (Some r, st) =>
            let output_path :=
              match output_path with
              | None => default_output_path self
              | Some p => p
              end in
            if save_fails w output_path then Returned None None w st
            else
              Returned (Some output_path) (Some r)
                (mkWorld (<[output_path := PdfFile doc (doc_annots st)]> (fs w))
                   (save_fails w))
                st
        | (None, st) => Uncaught w st
        end
    | _ => Returned None None w (mkState cache [] [])
    end
  else Returned None None w (mkState cache [] []).

End Pipeline.

(** ** The claim of the specification about the fallback colour, in its words *)

(** [r = abs(code) mod 256 / 255], [g = abs(code >> 8) mod 256 / 255],
    [b = abs(code >> 16) mod 256 / 255]. *)
Definition claimed_fallback (code : Z) : RGB :=
  (over255 (Z.abs code mod 256),
   over255 (Z.abs (Z.shiftr code 8) mod 256),
   over255 (Z.abs (Z.shiftr code 16) mod 256)).

(** Equality of colours as numbers. *)
Definition rgb_eq (a b : RGB) : Prop :=
  (a.1.1 == b.1.1)%Q /\ (a.1.2 == b.1.2)%Q /\ (a.2 == b.2)%Q.

(** Arithmetic right shift of a 32-bit two's complement word: the
    unsigned pattern is shifted, the sign bit is copied into the vacated
    positions and the pattern is read back as a signed number. *)
Definition asr32 (code : Z) (k : Z) : Z :=
  let u := code mod 2 ^ 32 in
  let shifted := Z.shiftr u k in
  let filled :=
    if Z.testbit u 31 then Z.lor shifted (2 ^ 32 - 2 ^ (32 - k)) else shifted in
  if Z.testbit filled 31 then filled - 2 ^ 32 else filled.

(** ** Observations on states and documents *)

(** The page has no exact hit for the text ([find_text_exact] is empty). *)
Definition no_hits (d : PageData) (text : string) : Prop :=
  default [] (search_for d text) = [].

(** How often [page.get_text()] was called on page [n]. *)
Definition count_get_text (n : nat) (l : list Call) : nat :=
  List.length
    (List.filter
       (fun c => match c with CallGetText m => Nat.eqb m n | _ => false end) l).

(** How often [page.get_text("words")] was called on page [n]. *)
Definition count_get_words (n : nat) (l : list Call) : nat :=
  List.length
    (List.filter
       (fun c => match c with CallGetWords m => Nat.eqb m n | _ => false end) l).

(** The text has an exact hit on some page of the document. *)
Definition has_exact_hit (doc : Document) (text : string) : bool :=
  existsb (fun d => truthy (default [] (search_for d text))) doc.

(** The records of a batch that the exact search locates nowhere. *)
Definition unlocated_exact (doc : Document) (highlights : list highlight_record) : nat :=
  List.length
    (List.filter (fun h : highlight_record => negb (has_exact_hit doc h.2)) highlights).

(** Every search of the text on the document returns. *)
Definition searches_return (doc : Document) (text : string) : Prop :=
  Forall (fun d => is_Some (search_for d text)) doc.

(** The text extraction of page [n] of the document does not raise. *)
Definition text_returns (doc : Document) (n : nat) : Prop :=
  ∀ d, doc !! n = Some d → is_Some (get_text d).

(** The first page with an exact hit, and its hits. *)
Fixpoint first_hit (pages : list Page) (text : string) : option (Page * list Quad) :=
  match pages with
  | [] => None
  | p :: rest =>
      match search_for (page_data p) text with
      | Some (q :: quads) => Some (p, q :: quads)
      | _ => first_hit rest text
      end
  end.

(** The annotation of the exact hits of the text raises. *)
Definition annotation_raises (doc : Document) (text : string) : bool :=
  match first_hit (doc_pages doc) text with
  | Some (p, quads) => highlight_fails (page_data p) quads
  | None => false
  end.

(** The located records of a batch whose annotation raises. *)
Definition failed_annotations (doc : Document) (highlights : list highlight_record) : nat :=
  List.length
    (List.filter (fun h : highlight_record => annotation_raises doc h.2) highlights).

Definition outcome_world (o : Outcome) : World :=
  match o with
  | Returned _ _ w _ => w
  | Uncaught w _ => w
  end.

Definition outcome_state (o : Outcome) : State :=
  match o with
  | Returned _ _ _ st => st
  | Uncaught _ st => st
  end.

Definition outcome_report (o : Outcome) : option Report :=
  match o with
  | Returned _ report _ _ => report
  | Uncaught _ _ => None
  end.

Definition outcome_file (o : Outcome) : option Path :=
  match o with
  | Returned output_file _ _ _ => output_file
  | Uncaught _ _ => None
  end.

(** The records of a batch for which the locate step, run on an instance
    whose cache is [cache], finds no quads: the K of the specification. *)
Definition unlocated `{Lib : Library} (self : MoonHighlighter) (doc : Document)
    (use_fuzzy : bool) (cache : gmap nat string) (highlights : list highlight_record) : nat :=
  List.length
    (List.filter
       (fun h : highlight_record =>
          match (locate self doc h.2 use_fuzzy (mkState cache [] [])).1 with
          | Some (quads, _) => negb (truthy quads)
          | None => true
          end)
       highlights).

(** ** Relations between the state before and after a computation *)

Definition preserves {A} (R : State → State → Prop) (m : M A) : Prop :=
  ∀ st, R st (m st).2.

Definition same_annots (st st' : State) : Prop := doc_annots st' = doc_annots st.

(** Between [st] and [st'] the cache only grew and the text of page [n]
    was requested at most once: not at all if it was cached in [st], and
    if once then it is cached in [st']. *)
Definition text_once (n : nat) (st st' : State) : Prop :=
  ∃ l, calls st' = (calls st ++ l)%list ∧
       (∀ k, is_Some (text_cache st !! k) → is_Some (text_cache st' !! k)) ∧
       (is_Some (text_cache st !! n) → count_get_text n l = 0%nat) ∧
       (count_get_text n l = 0%nat ∨
        count_get_text n l = 1%nat ∧ is_Some (text_cache st' !! n)).

(** ** Example data *)

Module Examples.

Definition ascii_lower (c : ascii) : ascii :=
  let n := nat_of_ascii c in
  if (65 <=? n)%nat && (n <=? 90)%nat then ascii_of_nat (n + 32) else c.

Fixpoint str_lower (s : string) : string :=
  match s with
  | EmptyString => EmptyString
  | String c s' => String (ascii_lower c) (str_lower s')
  end.

Definition is_substring (a b : string) : bool :=
  match String.index 0 a b with
  | Some _ => true
  | None => false
  end.

(** A scorer with the values of [fuzz.partial_ratio] on the strings used
    below: 0 for an empty string, 100 when the shorter string occurs in
    the longer one, 83 between "foobaz" and "foobar". *)
Definition ratio (a b : string) : Z :=
  if String.eqb a "" || String.eqb b "" then 0
  else if is_substring a b || is_substring b a then 100
  else if String.eqb a "foobaz" && String.eqb b "foobar" then 83
  else if String.eqb a "foobar" && String.eqb b "foobaz" then 83
  else 0.

Definition example_lib : Library := {| lower := str_lower; partial_ratio := ratio |}.

Definition word_at (x y : Z) (t : string) (k : nat) : Word :=
  mkWord (inject_Z x) (inject_Z y) (inject_Z (x + 40)) (inject_Z (y + 10)) t 0 0 k.

(** The quad the search reports for a word: its rectangle. *)
Definition hit_of (w : Word) : Quad :=
  mkQuad (mkPoint (x0 w) (y0 w)) (mkPoint (x1 w) (y0 w))
         (mkPoint (x0 w) (y1 w)) (mkPoint (x1 w) (y1 w)).

(** A page made of words; the search finds the words that contain the
    (non-empty) text. *)
Definition page_of (words : list Word) : PageData :=
  mkPageData
    (fun text =>
       Some (if String.eqb text "" then []
             else map hit_of (List.filter (fun w => is_substring text (word_text w)) words)))
    (Some (String.concat " " (map word_text words)))
    (Some words)
    (fun _ => false).

Definition w_hello := word_at 10 20 "hello" 0.
Definition w_world := word_at 60 20 "world" 1.
Definition w_foobar := word_at 10 40 "foobar" 0.
Definition w_foobaz := word_at 10 60 "foobaz" 0.

Definition page_hello : PageData := page_of [w_hello; w_world].
Definition page_foobar : PageData := page_of [w_foobar].
Definition page_foobaz : PageData := page_of [w_foobaz].

(** A page like [page_hello] on which every annotation raises. *)
Definition page_sealed : PageData :=
  mkPageData (search_for page_hello) (get_text page_hello) (get_text_words page_hello)
    (fun _ => true).

(** A page like [page_hello] whose search raises. *)
Definition page_broken : PageData :=
  mkPageData (fun _ => None) (get_text page_hello) (get_text_words page_hello)
    (fun _ => false).

Definition pdf : Path := mkPath "/" ["books"; "novel.pdf"].
Definition db : Path := mkPath "/" ["books"; "pdfmarks.sqlite"].

Definition self : MoonHighlighter := mkMoonHighlighter pdf "novel.pdf" db 80 5.

Definition st0 : State := mkState ∅ [] [].

Definition world_of (doc : Document) (notes : list Note) : World :=
  mkWorld (<[pdf := PdfFile doc []]> (<[db := SqliteFile notes]> ∅)) (fun _ => false).

Definition note (color : Z) (text : string) : Note :=
  mkNote "novel.pdf" "" color (Z.of_nat (String.length text)) text.

End Examples.

(** * Further parts of the code *)

(** ** Reading a hexadecimal colour string *)

(** The value of a hexadecimal digit, by its character code: [0]-[9],
    [a]-[f] or [A]-[F]. *)
Definition hex_value (c : ascii) : option Z :=
  let n := Z.of_nat (nat_of_ascii c) in
  if ((48 <=? n) && (n <=? 57))%Z then Some (n - 48)
  else if ((97 <=? n) && (n <=? 102))%Z then Some (n - 87)
  else if ((65 <=? n) && (n <=? 70))%Z then Some (n - 55)
  else None.

(** The byte written by two hexadecimal digits. *)
Definition hex_byte (hi lo : ascii) : option Z :=
  match hex_value hi, hex_value lo with
  | Some h, Some l => Some (16 * h + l)
  | _, _ => None
  end.

(** The three bytes of a string [#rrggbb]. *)
Definition decode_hex_color (s : string) : option (Z * Z * Z) :=
  match s with
  | String "#" (String r1 (String r2 (String g1 (String g2 (String b1 (String b2 "")))))) =>
      match hex_byte r1 r2, hex_byte g1 g2, hex_byte b1 b2 with
      | Some r, Some g, Some b => Some (r, g, b)
      | _, _, _ => None
      end
  | _ => None
  end.

(** ** Further observations *)

(** The channels of a colour lie between 0 and 1. *)
Definition unit_rgb (c : RGB) : Prop :=
  (0 <= c.1.1 <= 1)%Q ∧ (0 <= c.1.2 <= 1)%Q ∧ (0 <= c.2 <= 1)%Q.

(** Every cached text is the text the library gives for that page of the
    document. *)
Definition cache_consistent (doc : Document) (cache : gmap nat string) : Prop :=
  ∀ n t, cache !! n = Some t → ∃ d, doc !! n = Some d ∧ get_text d = Some t.

Definition cache_kept (doc : Document) (st st' : State) : Prop :=
  cache_consistent doc (text_cache st) → cache_consistent doc (text_cache st').

(** The cache and the log of calls are the same. *)
Definition same_reads (st st' : State) : Prop :=
  text_cache st' = text_cache st ∧ calls st' = calls st.

(** The scores do not increase along the list. *)
Fixpoint descending {A} (l : list (A * Z)) : Prop :=
  match l with
  | [] => True
  | x :: rest => (∀ y, y ∈ rest → y.2 <= x.2) ∧ descending rest
  end.

(** The score of a word against a text, as [find_text_fuzzy] computes it. *)
Definition word_score `{Lib : Library} (text : string) (word : Word) : Z :=
  partial_ratio (lower text) (lower (word_text word)).

(** The annotation that a record leaves when searches return: all the
    exact hits of its text on the first page that has any, unless the
    annotation raises. *)
Definition record_annots (doc : Document) (h : highlight_record) : list (nat * Annot) :=
  match first_hit (doc_pages doc) h.2 with
  | Some (p, quads) =>
      if highlight_fails (page_data p) quads then []
      else [(number p, mkAnnot quads (map_color h.1.1) (note_content h.2))]
  | None => []
  end.

Definition batch_annots (doc : Document) (highlights : list highlight_record)
    : list (nat * Annot) :=
  flat_map (record_annots doc) highlights.

(** An annotation that stems from a record of the batch: exact hits of
    the record's text on a page of the document, in the record's colour
    and with its note. *)
Definition annot_of_batch (doc : Document) (highlights : list highlight_record)
    (na : nat * Annot) : Prop :=
  ∃ h d hits,
    h ∈ highlights ∧ doc !! na.1 = Some d ∧ search_for d h.2 = Some hits ∧
    annot_quads na.2 ≠ [] ∧
    (∀ q, In q (annot_quads na.2) → existsb (fun hit => quad_eqb hit q) hits = true) ∧
    annot_stroke na.2 = map_color h.1.1 ∧
    annot_content na.2 = note_content h.2.

(** ** The command line of [moon_highlighter.py] *)

(** [Path(s)]: the parsing of a path string by [pathlib]. *)
Class Pathlib := { to_path : string -> Path }.

(** What [parser.parse_args()] does with the command line [sys.argv[1:]]:
    on [-h] it prints the help and exits with 0; on a command line that
    the parser rejects (an unknown option, an option without its value, a
    required option that is missing, a value that is not of the declared
    type) it prints the usage and exits with 2; otherwise it returns the
    namespace. *)
Inductive ParseResult (A : Type) :=
| HelpExit
| UsageError
| Parsed (args : A).

Arguments HelpExit {A}.
Arguments UsageError {A}.
Arguments Parsed {A} args.

(** [argparse], for the parser whose namespace is [A]. *)
Class Argparse (A : Type) := { parse_args : list string -> ParseResult A }.

(** The namespace that [parser.parse_args()] returns. *)
Record Args := mkArgs {
  arg_pdf : option string;
  arg_book : option string;
  arg_database : option string;
  arg_output : option string;
  arg_gui : bool;
  arg_no_fuzzy : bool
}.

(** Truth value of an optional string: [None] and [""] are false. *)
Definition given (o : option string) : bool :=
  match o with
  | Some (String _ _) => true
  | _ => false
  end.

(** How [main] ends: the graphical interface was opened (and [main]
    returns when it closes), or the process exits with a code. *)
Inductive MainResult :=
| GuiOpened
| Exit (code : Z) (w : World).

(** [main], on the command line [argv]. *)
Definition main `{Lib : Library} `{PL : Pathlib} `{AP : Argparse Args}
    (argv : list string) (w : World) : MainResult :=
  match parse_args argv with
  | HelpExit => Exit 0 w
  | UsageError => Exit 2 w
  | Parsed args =>
      if arg_gui args then GuiOpened
      else if negb (given (arg_pdf args)) || negb (given (arg_book args))
              || negb (given (arg_database args))
      then Exit 1 w
      else
        match arg_pdf args, arg_book args, arg_database args with
        | Some pdf, Some book, Some database =>
            match init w (to_path pdf) book (to_path database) with
            | None => Exit 1 w                       (* FileNotFoundError *)
            | Some (highlighter, cache) =>
                match process_highlights highlighter cache w
                        (to_path <$> arg_output args) (negb (arg_no_fuzzy args)) with
                | Returned (Some _) _ w' _ => Exit 0 w'
                | Returned None _ w' _ => Exit 1 w'
                | Uncaught w' _ => Exit 1 w'          (* except Exception *)
                end
            end
        | _, _, _ => Exit 1 w
        end
  end.

(** ** [moon_highlighter_simple.py]: the test run *)

(** [sub in s] and [s.find(sub)]: the index of the first occurrence. *)
Fixpoint str_find (sub s : string) : option nat :=
  if String.prefix sub s then Some 0%nat
  else
    match s with
    | EmptyString => None
    | String _ s' => S <$> str_find sub s'
    end.

(** [s.count('\n')] *)
Fixpoint count_newlines (s : string) : nat :=
  match s with
  | EmptyString => 0%nat
  | String c s' =>
      if Ascii.eqb c "010"%char then S (count_newlines s') else count_newlines s'
  end.

Module SimpleRun.

(** How writing the output ends: [open(output_path, 'wb')] raises, or
    [writer.write] raises after the file was created, or the file is
    written. *)
Inductive WriteResult := OpenRaises | WriteRaises | Written.

(** PyPDF2 and the file system, as the test run meets them:
    [page.extract_text()] of a page ([None] when it raises) and the end of
    the write to a path. *)
Class Env := {
  extract_text : PageData -> option string;
  write_result : Path -> WriteResult
}.

Record MoonHighlighterSimple := mkSimple {
  pdf_path : Path;
  book_name : string;
  db_path : Path
}.

(** [__init__] *)
Definition init (fs : gmap Path File) (pdf_path : Path) (book_name : string)
    (db_path : Path) : option MoonHighlighterSimple :=
  match fs !! pdf_path, fs !! db_path with
  | Some _, Some _ => Some (mkSimple pdf_path book_name db_path)
  | _, _ => None
  end.

(** [LIMIT ?] of SQLite: a negative limit is no limit. *)
Definition sql_limit {A} (limit : Z) (rows : list A) : list A :=
  if (limit <? 0)%Z then rows else take (Z.to_nat limit) rows.

(** [get_sample_highlights].  [None] is the [OverflowError] that binding a
    limit outside the 64-bit integers of SQLite raises, which the
    [except sqlite3.Error] does not catch. *)
Definition get_sample_highlights (fs : gmap Path File) (self : MoonHighlighterSimple)
    (limit : Z) : option (list highlight_record) :=
  match fs !! db_path self with
  | Some (SqliteFile notes) =>
      if (- 2 ^ 63 <=? limit)%Z && (limit <? 2 ^ 63)%Z then
        Some (sql_limit limit
                (map (fun n => (highlightColor n, highlightLength n, original n))
                   (List.filter
                      (fun n => String.eqb (book n) (book_name self)
                                && String.eqb (bookmark n) "")
                      notes)))
      else None
  | _ => Some []
  end.

Definition location : Type := nat * Z * Z.

Section Run.
Context `{E : Env}.

(** The loop of [find_text_in_pdf] from page [page_num] on; [None] when an
    extraction raises. *)
Fixpoint find_text_loop (page_num : nat) (pages : list PageData) (text : string)
    (locations : list location) : option (list location) :=
  match pages with
  | [] => Some locations
  | page :: rest =>
      match extract_text page with
      | None => None
      | Some page_text =>
          match str_find text page_text with
          | Some start_pos =>
              let lines_before := count_newlines (str_take start_pos page_text) in
              let x := 50 in
              let y := 800 - Z.of_nat lines_before * 12 in
              find_text_loop (S page_num) rest text (locations ++ [(page_num, x, y)])
          | None => find_text_loop (S page_num) rest text locations
          end
      end
  end.

Definition find_text_in_pdf (reader : Document) (text : string) : option (list location) :=
  find_text_loop 0 reader text [].

Record Report := mkReport {
  total_highlights : nat;
  found_highlights : nat;
  not_found_highlights : nat
}.

(** [(found_highlights/total_highlights)*100] *)
Definition success_rate (r : Report) : Q :=
  (inject_Z (Z.of_nat (found_highlights r)) / inject_Z (Z.of_nat (total_highlights r))
   * 100)%Q.

(** The loop over the highlights (lines 119-130). *)
Fixpoint highlights_loop (reader : Document) (highlights : list highlight_record)
    (r : Report) : option Report :=
  match highlights with
  | [] => Some r
  | (color_value, length, original_text) :: rest =>
      let color := MoonHighlighterSimple.map_color color_value in
      match find_text_in_pdf reader original_text with
      | None => None
      | Some locations =>
          if truthy locations
          then highlights_loop reader rest
                 (mkReport (total_highlights r) (S (found_highlights r))
                    (not_found_highlights r))
          else highlights_loop reader rest
                 (mkReport (total_highlights r) (found_highlights r)
                    (S (not_found_highlights r)))
      end
  end.

Inductive Outcome :=
| Returned (output_file : option Path) (report : option Report) (fs : gmap Path File)
| Uncaught (fs : gmap Path File).

(** [process_sample_highlights]; the written file holds the pages that
    were added to the writer. *)
Definition process_sample_highlights (fs : gmap Path File) (self : MoonHighlighterSimple)
    (output_path : option Path) (limit : Z) : Outcome :=
  match get_sample_highlights fs self limit with
  | None => Uncaught fs
  | Some highlights =>
      if truthy highlights then
        match fs !! pdf_path self with
        | Some (PdfFile reader annots) =>
            match highlights_loop reader highlights
                    (mkReport (List.length highlights) 0 0) with
            | None => Uncaught fs
            | Some r =>
                let output_path :=
                  match output_path with
                  | None => MoonHighlighterSimple.default_output_path (pdf_path self)
                  | Some p => p
                  end in
                match write_result output_path with
                | OpenRaises => Returned None None fs
                | WriteRaises => Returned None None (<[output_path := OtherFile]> fs)
                | Written =>
                    Returned (Some output_path) (Some r)
                      (<[output_path := PdfFile reader annots]> fs)
                end
            end
        | _ => Returned None None fs
        end
      else Returned None None fs
  end.

(** The namespace of the test script; [argparse] requires the first
    three options, reads the limit as an integer and gives it the default
    10. *)
Record Args := mkArgs {
  arg_pdf : string;
  arg_book : string;
  arg_database : string;
  arg_output : option string;
  arg_limit : Z
}.

(** [main], on the command line [argv]: the exit code and the file
    system it leaves. *)
Definition main `{PL : Pathlib} `{AP : Argparse Args} (argv : list string)
    (fs : gmap Path File) : Z * gmap Path File :=
  match parse_args argv with
  | HelpExit => (0, fs)
  | UsageError => (2, fs)
  | Parsed args =>
      match init fs (to_path (arg_pdf args)) (arg_book args)
              (to_path (arg_database args)) with
      | None => (1, fs)                             (* FileNotFoundError *)
      | Some highlighter =>
          match process_sample_highlights fs highlighter (to_path <$> arg_output args)
                  (arg_limit args) with
          | Returned (Some _) _ fs' => (0, fs')
          | Returned None _ fs' => (1, fs')
          | Uncaught fs' => (1, fs')                (* except Exception *)
          end
      end
  end.

End Run.

End SimpleRun.

(** ** Observations on the test run *)

(** The text occurs in [s] first after [pre]. *)
Definition first_occurrence (sub s pre : string) : Prop :=
  (∃ post, s = pre ++ sub ++ post) ∧
  ∀ pre' post', s = pre' ++ sub ++ post' → (String.length pre <= String.length pre')%nat.

Section SimpleObservations.
Context `{E : SimpleRun.Env}.

(** The location that a page gives for a text, if its text holds it. *)
Definition page_location (text : string) (n : nat) (d : PageData) : option SimpleRun.location :=
  match SimpleRun.extract_text d with
  | Some page_text =>
      match str_find text page_text with
      | Some start_pos =>
          Some (n, 50, 800 - Z.of_nat (count_newlines (str_take start_pos page_text)) * 12)
      | None => None
      end
  | None => None
  end.

Fixpoint page_locations (text : string) (k : nat) (pages : list PageData)
    : list SimpleRun.location :=
  match pages with
  | [] => []
  | d :: rest =>
      match page_location text k d with
      | Some l => l :: page_locations text (S k) rest
      | None => page_locations text (S k) rest
      end
  end.

(** The text is in the extracted text of some page. *)
Definition occurs_in (reader : Document) (text : string) : bool :=
  existsb (fun d => match SimpleRun.extract_text d with
                    | Some page_text => bool_decide (is_Some (str_find text page_text))
                    | None => false
                    end) reader.

End SimpleObservations.

(** ** Further example data *)

Module MoreExamples.

(** A page like [Examples.page_foobar] whose plain text extraction
    raises. *)
Definition page_textless : PageData :=
  mkPageData (search_for Examples.page_foobar) None
    (get_text_words Examples.page_foobar) (fun _ => false).


(** A page on which two words score the same against "foobaz": "hello",
    "foobar" and, further to the right, "foobar" again. *)
Definition w_foobar_again : Word := Examples.word_at 60 40 "foobar" 1.

Definition page_tie : PageData :=
  Examples.page_of [Examples.w_hello; Examples.w_foobar; w_foobar_again].


(** The parsing of the path strings of the examples. *)
Definition example_paths : Pathlib :=
  {| to_path := fun s =>
       if String.eqb s "/books/novel.pdf" then Examples.pdf
       else if String.eqb s "/books/pdfmarks.sqlite" then Examples.db
       else mkPath "" [s] |}.

Definition args : Args :=
  mkArgs (Some "/books/novel.pdf") (Some "novel.pdf") (Some "/books/pdfmarks.sqlite")
    None false false.

(** The command line of the examples. *)
Definition argv : list string :=
  ["-p"; "/books/novel.pdf"; "-b"; "novel.pdf"; "-d"; "/books/pdfmarks.sqlite"].

(** What the parser of [moon_highlighter.py] answers on the command lines
    of the examples: the namespace on [argv], on the empty command line
    (every option has the default [None] or [False]) and on [--gui], the
    exit of the help on [-h], and a usage error on [--bogus], an unknown
    option. *)
Definition example_argparse : Argparse Args :=
  {| parse_args := fun l =>
       if decide (l = argv) then Parsed args
       else if decide (l = []) then Parsed (mkArgs None None None None false false)
       else if decide (l = ["--gui"]) then Parsed (mkArgs None None None None true false)
       else if decide (l = ["-h"]) then HelpExit
       else UsageError |}.

(** PyPDF2 extracts the words of a page on lines of their own and writes
    every path. *)
Definition example_env : SimpleRun.Env :=
  {| SimpleRun.extract_text := fun d =>
       match get_text_words d with
       | Some words => Some (String.concat (String "010"%char "") (map word_text words))
       | None => None
       end;
     SimpleRun.write_result := fun _ => SimpleRun.Written |}.

Definition simple : SimpleRun.MoonHighlighterSimple :=
  SimpleRun.mkSimple Examples.pdf "novel.pdf" Examples.db.

Definition simple_args : SimpleRun.Args :=
  SimpleRun.mkArgs "/books/novel.pdf" "novel.pdf" "/books/pdfmarks.sqlite" None 10.

(** What the parser of [moon_highlighter_simple.py] answers on the command
    lines of the examples: the namespace, with the default limit 10, on
    [argv], the exit of the help on [-h], and a usage error on the empty
    command line, on which the required options are missing. *)
Definition simple_argparse : Argparse SimpleRun.Args :=
  {| parse_args := fun l =>
       if decide (l = argv) then Parsed simple_args
       else if decide (l = ["-h"]) then HelpExit
       else UsageError |}.

End MoreExamples.

(** * Proofs *)

(** ** The colour mapper *)

Lemma color_map_None (c : Z) :
  c ≠ 1996532479 → c ≠ -1996554240 → c ≠ 2013265664 → c ≠ -256 → c ≠ 16711680 →
  color_map !! c = None.
Proof.
  intros. unfold color_map. simpl.
  repeat (rewrite lookup_insert_ne by congruence). apply lookup_empty.
Qed.

Lemma color_map_None_inv (c : Z) :
  color_map !! c = None →
  c ≠ 1996532479 ∧ c ≠ -1996554240 ∧ c ≠ 2013265664 ∧ c ≠ -256 ∧ c ≠ 16711680.
Proof.
  intros H. repeat split; intros ->; vm_compute in H; discriminate.
Qed.

Lemma simple_color_map_None (c : Z) :
  color_map !! c = None → MoonHighlighterSimple.color_map !! c = None.
Proof.
  intros H. apply color_map_None_inv in H as (?&?&?&?&?).
  unfold MoonHighlighterSimple.color_map. simpl.
  repeat (rewrite lookup_insert_ne by congruence). apply lookup_empty.
Qed.

Lemma mod256_abs (n : Z) : Z.abs (n mod 256) = n mod 256.
Proof. apply Z.abs_eq. apply Z.mod_pos_bound. lia. Qed.

Lemma shiftr_add_pow32 (c k : Z) :
  0 <= k <= 32 → Z.shiftr (c + 2 ^ 32) k = Z.shiftr c k + 2 ^ (32 - k).
Proof.
  intros Hk. rewrite !Z.shiftr_div_pow2 by lia.
  replace (2 ^ 32) with (2 ^ (32 - k) * 2 ^ k).
  - rewrite Z.div_add by (apply Z.pow_nonzero; lia). reflexivity.
  - rewrite <- Z.pow_add_r by lia. f_equal. lia.
Qed.

Lemma testbit31_small (a : Z) : 0 <= a < 2 ^ 31 → Z.testbit a 31 = false.
Proof.
  intros H. apply Z.testbit_false; [lia|].
  rewrite Z.div_small by lia. reflexivity.
Qed.

Lemma testbit31_large (a : Z) : 2 ^ 31 <= a < 2 ^ 32 → Z.testbit a 31 = true.
Proof.
  intros H. apply Z.testbit_true; [lia|].
  replace (a / 2 ^ 31) with 1; [reflexivity|].
  apply Z.div_unique with (r := a - 2 ^ 31); lia.
Qed.

Lemma lor_high_mask (x n m : Z) :
  0 <= n → 0 <= x < 2 ^ n → 0 <= m → Z.lor x (m * 2 ^ n) = x + m * 2 ^ n.
Proof.
  intros Hn Hx Hm.
  rewrite <- Z.lxor_lor, <- Z.add_nocarry_lxor; try reflexivity.
  all: apply Z.bits_inj'; intros i Hi; rewrite Z.land_spec, Z.bits_0.
  all: destruct (Z.lt_ge_cases i n) as [Hlt|Hge];
    [ rewrite Z.mul_pow2_bits_low by lia; apply andb_false_r
    | destruct (Z.eq_dec x 0) as [->|Hx0];
      [ rewrite Z.bits_0; reflexivity
      | rewrite (Z.bits_above_log2 x i); [reflexivity|lia|];
        apply Z.log2_lt_pow2; try lia;
        apply Z.lt_le_trans with (2 ^ n); [lia|apply Z.pow_le_mono_r; lia] ] ].
Qed.

Lemma asr32_shiftr (c k : Z) :
  - 2 ^ 31 <= c < 2 ^ 31 → 0 <= k <= 31 → asr32 c k = Z.shiftr c k.
Proof.
  intros Hc Hk. unfold asr32.
  assert (Hp : 0 < 2 ^ k) by (apply Z.pow_pos_nonneg; lia).
  assert (Hsplit : 2 ^ 31 = 2 ^ (31 - k) * 2 ^ k).
  { rewrite <- Z.pow_add_r by lia. f_equal. lia. }
  assert (H32 : 2 ^ (32 - k) = 2 * 2 ^ (31 - k)).
  { replace (32 - k) with (1 + (31 - k)) by lia. rewrite Z.pow_add_r by lia. reflexivity. }
  assert (Hq : 0 < 2 ^ (31 - k)) by (apply Z.pow_pos_nonneg; lia).
  destruct (Z.lt_ge_cases c 0) as [Hneg|Hpos].
  - assert (Hu : c mod 2 ^ 32 = c + 2 ^ 32).
    { symmetry. apply Z.mod_unique with (q := -1); lia. }
    rewrite Hu, (testbit31_large (c + 2 ^ 32)) by lia.
    rewrite shiftr_add_pow32 by lia.
    assert (Hs : - 2 ^ (31 - k) <= Z.shiftr c k < 0).
    { rewrite Z.shiftr_div_pow2 by lia. split.
      - apply Z.div_le_lower_bound; lia.
      - apply Z.div_lt_upper_bound; lia. }
    replace (2 ^ 32 - 2 ^ (32 - k)) with ((2 ^ k - 1) * 2 ^ (32 - k)).
    2:{ rewrite Z.mul_sub_distr_r, <- Z.pow_add_r by lia.
        replace (k + (32 - k)) with 32 by lia. lia. }
    rewrite lor_high_mask by lia.
    replace (Z.shiftr c k + 2 ^ (32 - k) + (2 ^ k - 1) * 2 ^ (32 - k))
      with (Z.shiftr c k + 2 ^ 32).
    2:{ rewrite Z.mul_sub_distr_r, <- Z.pow_add_r by lia.
        replace (k + (32 - k)) with 32 by lia. lia. }
    rewrite testbit31_large; [lia|].
    assert (2 ^ (31 - k) <= 2 ^ 31) by (apply Z.pow_le_mono_r; lia). lia.
  - assert (Hu : c mod 2 ^ 32 = c) by (apply Z.mod_small; lia).
    rewrite Hu, (testbit31_small c) by lia.
    assert (Hs : 0 <= Z.shiftr c k < 2 ^ 31).
    { rewrite Z.shiftr_div_pow2 by lia. split.
      - apply Z.div_pos; lia.
      - apply Z.div_lt_upper_bound; nia. }
    rewrite testbit31_small by lia. reflexivity.
Qed.

Lemma map_color_fallback (c : Z) :
  color_map !! c = None →
  map_color c =
    (over255 (c mod 256), over255 (Z.shiftr c 8 mod 256), over255 (Z.shiftr c 16 mod 256)).
Proof. intros H. unfold map_color. rewrite H, !mod256_abs. reflexivity. Qed.

Lemma simple_map_color_fallback (c : Z) :
  color_map !! c = None →
  MoonHighlighterSimple.map_color c =
    "#" ++ MoonHighlighterSimple.hex02 (c mod 256)
        ++ MoonHighlighterSimple.hex02 (Z.shiftr c 8 mod 256)
        ++ MoonHighlighterSimple.hex02 (Z.shiftr c 16 mod 256).
Proof.
  intros H. unfold MoonHighlighterSimple.map_color.
  rewrite (simple_color_map_None c H), !mod256_abs. reflexivity.
Qed.

Lemma mod256_add_pow32 (c : Z) : (c + 2 ^ 32) mod 256 = c mod 256.
Proof. replace (2 ^ 32) with (2 ^ 24 * 256) by reflexivity. apply Z_mod_plus_full. Qed.

Lemma shiftr_mod256_add_pow32 (c k : Z) :
  0 <= k <= 24 → Z.shiftr (c + 2 ^ 32) k mod 256 = Z.shiftr c k mod 256.
Proof.
  intros Hk. rewrite shiftr_add_pow32 by lia.
  replace (2 ^ (32 - k)) with (2 ^ (24 - k) * 256).
  - apply Z_mod_plus_full.
  - replace 256 with (2 ^ 8) by reflexivity. rewrite <- Z.pow_add_r by lia. f_equal. lia.
Qed.

(** C7: each of the five known colour codes is mapped to its documented
    colour, by [MoonHighlighter.map_color] (RGB triple) and by
    [MoonHighlighterSimple.map_color] (hexadecimal string); the keys are
    the literal integers: a negative key reduced into 0..2^24 is mapped to
    a different colour. *)
Theorem map_color_known_codes :
  map_color 1996532479 = (1, 1, 0)%Q ∧
  map_color (-1996554240) = (0, 1, 0)%Q ∧
  map_color 2013265664 = (0, 0, 1)%Q ∧
  map_color (-256) = (1, 0, 0)%Q ∧
  map_color 16711680 = (1, 0, 1)%Q ∧
  MoonHighlighterSimple.map_color 1996532479 = "#FFFF00" ∧
  MoonHighlighterSimple.map_color (-1996554240) = "#00FF00" ∧
  MoonHighlighterSimple.map_color 2013265664 = "#0000FF" ∧
  MoonHighlighterSimple.map_color (-256) = "#FF0000" ∧
  MoonHighlighterSimple.map_color 16711680 = "#FF00FF" ∧
  ¬ rgb_eq (map_color ((-256) mod 2 ^ 24)) (map_color (-256)) ∧
  ¬ rgb_eq (map_color ((-1996554240) mod 2 ^ 24)) (map_color (-1996554240)).
Proof.
  repeat split; try (vm_compute; reflexivity).
  - intros (H & _). vm_compute in H. discriminate.
  - intros (H & _). vm_compute in H. discriminate.
Qed.

(** C2, as stated, fails at the code -1 (a 32-bit integer outside the
    table): the code yields white, the claimed formula
    [abs(code) mod 256 / 255] yields (1/255, 1/255, 1/255). *)
Lemma fallback_minus_one_differs :
  - 2 ^ 31 <= -1 < 2 ^ 31 ∧
  color_map !! (-1) = None ∧
  rgb_eq (map_color (-1)) (1, 1, 1)%Q ∧
  ¬ rgb_eq (map_color (-1)) (claimed_fallback (-1)).
Proof.
  split; [lia|]. split; [reflexivity|]. split.
  - repeat split; vm_compute; reflexivity.
  - intros (H & _). vm_compute in H. discriminate.
Qed.

(** C2, amended: for a 32-bit code outside the table each channel is a
    byte of the two's complement pattern over 255: [code mod 256],
    [(code >> 8) mod 256] and [(code >> 16) mod 256] with the floor
    modulus (the [abs] of the code is applied after the modulus and changes
    nothing), [>>] being the arithmetic shift of the 32-bit word.  Hence a
    negative code and the positive code with the same 32 bits get the same
    colour, in both variants, and for a code that is not negative the
    result is the one of the claimed formula. *)
Theorem map_color_fallback_bytes (c : Z) :
  - 2 ^ 31 <= c < 2 ^ 31 →
  color_map !! c = None →
  map_color c =
    (over255 (c mod 256), over255 (asr32 c 8 mod 256), over255 (asr32 c 16 mod 256)) ∧
  MoonHighlighterSimple.map_color c =
    "#" ++ MoonHighlighterSimple.hex02 (c mod 256)
        ++ MoonHighlighterSimple.hex02 (asr32 c 8 mod 256)
        ++ MoonHighlighterSimple.hex02 (asr32 c 16 mod 256) ∧
  (c mod 256 = Z.land c 255 ∧
   asr32 c 8 mod 256 = Z.land (Z.shiftr c 8) 255 ∧
   asr32 c 16 mod 256 = Z.land (Z.shiftr c 16) 255) ∧
  (c < 0 →
   color_map !! (c + 2 ^ 32) = None ∧
   map_color (c + 2 ^ 32) = map_color c ∧
   MoonHighlighterSimple.map_color (c + 2 ^ 32) = MoonHighlighterSimple.map_color c) ∧
  (0 <= c → map_color c = claimed_fallback c).
Proof.
  intros Hc Hnone.
  rewrite !asr32_shiftr by lia.
  split; [apply map_color_fallback; assumption|].
  split; [apply simple_map_color_fallback; assumption|].
  split.
  { change 255 with (Z.ones 8). rewrite !Z.land_ones by lia. auto. }
  split.
  - intros Hneg.
    assert (Hn' : color_map !! (c + 2 ^ 32) = None) by (apply color_map_None; lia).
    split; [assumption|].
    rewrite !map_color_fallback, !simple_map_color_fallback by assumption.
    rewrite mod256_add_pow32, !shiftr_mod256_add_pow32 by lia. auto.
  - intros Hpos. rewrite map_color_fallback by assumption.
    unfold claimed_fallback.
    rewrite (Z.abs_eq c) by lia.
    rewrite (Z.abs_eq (Z.shiftr c 8)) by (apply Z.shiftr_nonneg; lia).
    rewrite (Z.abs_eq (Z.shiftr c 16)) by (apply Z.shiftr_nonneg; lia).
    reflexivity.
Qed.

(** Witness of [map_color_fallback_bytes]: the code -2, outside the table. *)
Lemma map_color_fallback_bytes_witness :
  map_color (-2) =
    (over255 ((-2) mod 256), over255 (asr32 (-2) 8 mod 256),
     over255 (asr32 (-2) 16 mod 256)) ∧
  map_color (-2 + 2 ^ 32) = map_color (-2).
Proof.
  destruct (map_color_fallback_bytes (-2)) as (H1 & _ & _ & H4 & _).
  - lia.
  - reflexivity.
  - split; [exact H1|]. apply H4. lia.
Defined.

(** ** The pipeline *)

(** The thresholds of every instance are those of [__init__]. *)
Lemma init_thresholds (w : World) (pdf_path : Path) (book_name : string) (db_path : Path)
    (self : MoonHighlighter) (cache : gmap nat string) :
  init w pdf_path book_name db_path = Some (self, cache) →
  fuzzy_threshold self = 80 ∧ max_fuzzy_results self = 5%nat ∧ cache = ∅.
Proof.
  unfold init. destruct (fs w !! pdf_path), (fs w !! db_path); try discriminate.
  intros [= <- <-]. auto.
Qed.

Lemma init_example (doc : Document) (notes : list Note) :
  init (Examples.world_of doc notes) Examples.pdf "novel.pdf" Examples.db =
    Some (Examples.self, ∅).
Proof. reflexivity. Qed.

(** ** The monad *)

Lemma bind_run {A B} (m : M A) (f : A → M B) (st : State) :
  (m ≫= f) st =
    match m st with
    | (Some a, st') => f a st'
    | (None, st') => (None, st')
    end.
Proof. reflexivity. Qed.

Lemma try_except_total {A} (body : M A) (dflt : A) (st : State) :
  ∃ a st', try_except body dflt st = (Some a, st').
Proof. unfold try_except. destruct (body st) as [[a|] st']; eauto. Qed.

(** ** Documents and pages *)

Lemma doc_pages_data_from (f : nat → nat) (doc : Document) :
  map page_data (imap (fun i d => mkPage (f i) d) doc) = doc.
Proof.
  revert f. induction doc as [|d doc IH]; intros f; simpl; [reflexivity|].
  f_equal. apply (IH (f ∘ S)).
Qed.

Lemma doc_pages_data (doc : Document) : map page_data (doc_pages doc) = doc.
Proof. apply (doc_pages_data_from id). Qed.

Lemma doc_pages_lookup (doc : Document) (i : nat) :
  doc_pages doc !! i = mkPage i <$> doc !! i.
Proof. unfold doc_pages. apply list_lookup_imap. Qed.

Lemma doc_pages_elem (doc : Document) (p : Page) :
  p ∈ doc_pages doc ↔ doc !! number p = Some (page_data p).
Proof.
  split.
  - intros Hp. apply list_elem_of_lookup in Hp as [i Hi].
    rewrite doc_pages_lookup in Hi.
    destruct (doc !! i) as [d|] eqn:Hd; simpl in Hi; [|discriminate].
    injection Hi as <-. exact Hd.
  - intros Hd. apply list_elem_of_lookup. exists (number p).
    rewrite doc_pages_lookup, Hd. destruct p; reflexivity.
Qed.

Lemma Forall_doc_pages (P : PageData → Prop) (doc : Document) :
  Forall P doc ↔ Forall (fun p => P (page_data p)) (doc_pages doc).
Proof.
  rewrite <- (doc_pages_data doc) at 1. apply (Forall_fmap page_data P).
Qed.

Lemma doc_pages_split (doc before after : Document) (d : PageData) :
  doc = (before ++ d :: after)%list →
  ∃ pb pa, doc_pages doc = (pb ++ mkPage (List.length before) d :: pa)%list ∧
           map page_data pb = before ∧ map page_data pa = after.
Proof.
  intros ->. unfold doc_pages. rewrite imap_app. simpl.
  eexists _, _. split; [rewrite Nat.add_0_r; reflexivity|]. split.
  - apply (doc_pages_data_from id).
  - apply (doc_pages_data_from (fun n => (List.length before + S n)%nat)).
Qed.

(** ** The exact pass *)

Lemma find_text_exact_run (page : Page) (text : string) (st : State) :
  find_text_exact page text st = (Some (default [] (search_for (page_data page) text)), st).
Proof.
  unfold find_text_exact, try_except. rewrite bind_run.
  destruct (search_for (page_data page) text); reflexivity.
Qed.

Lemma truthy_false {A} (l : list A) : truthy l = false ↔ l = [].
Proof. destruct l; simpl; split; congruence. Qed.

Lemma truthy_true {A} (l : list A) : truthy l = true ↔ l ≠ [].
Proof. destruct l; simpl; split; congruence. Qed.

Lemma exact_loop_no_hits (pages : list Page) (text : string) (acc : list Quad) (st : State) :
  Forall (fun p => no_hits (page_data p) text) pages →
  exact_loop pages text acc st = (Some acc, st).
Proof.
  induction 1 as [|p pages Hp _ IH]; simpl; [reflexivity|].
  rewrite bind_run, find_text_exact_run.
  unfold no_hits in Hp. rewrite Hp. simpl. exact IH.
Qed.

Lemma exact_loop_hit (pb pa : list Page) (p : Page) (quads : list Quad)
    (text : string) (acc : list Quad) (st : State) :
  Forall (fun p => no_hits (page_data p) text) pb →
  search_for (page_data p) text = Some quads → quads ≠ [] →
  exact_loop (pb ++ p :: pa) text acc st = (Some (acc ++ quads)%list, st).
Proof.
  intros Hpb Hs Hne. induction Hpb as [|q pb Hq _ IH]; simpl.
  - rewrite bind_run, find_text_exact_run, Hs. simpl.
    apply truthy_true in Hne. rewrite Hne. reflexivity.
  - rewrite bind_run, find_text_exact_run.
    unfold no_hits in Hq. rewrite Hq. simpl. exact IH.
Qed.

(** Either no page has an exact hit, or there is a first page that has. *)
Lemma first_hit_cases (pages : list Page) (text : string) :
  Forall (fun p => no_hits (page_data p) text) pages ∨
  ∃ pb p pa quads, pages = (pb ++ p :: pa)%list ∧
    Forall (fun p => no_hits (page_data p) text) pb ∧
    search_for (page_data p) text = Some quads ∧ quads ≠ [].
Proof.
  induction pages as [|p pages IH]; [left; constructor|].
  destruct (search_for (page_data p) text) as [[|q quads]|] eqn:Hs.
  - destruct IH as [IH|(pb & p' & pa & quads & -> & Hpb & Hs' & Hne)].
    + left. constructor; [unfold no_hits; rewrite Hs; reflexivity|exact IH].
    + right. exists (p :: pb), p', pa, quads. repeat split; auto.
      constructor; [unfold no_hits; rewrite Hs; reflexivity|exact Hpb].
  - right. exists [], p, pages, (q :: quads). repeat split; auto; discriminate.
  - destruct IH as [IH|(pb & p' & pa & quads & -> & Hpb & Hs' & Hne)].
    + left. constructor; [unfold no_hits; rewrite Hs; reflexivity|exact IH].
    + right. exists (p :: pb), p', pa, quads. repeat split; auto.
      constructor; [unfold no_hits; rewrite Hs; reflexivity|exact Hpb].
Qed.

Lemma exact_loop_state (pages : list Page) (text : string) (acc : list Quad) (st : State) :
  ∃ quads, exact_loop pages text acc st = (Some quads, st).
Proof.
  destruct (first_hit_cases pages text) as [H|(pb & p & pa & quads & -> & Hpb & Hs & Hne)].
  - eexists. apply exact_loop_no_hits, H.
  - eexists. eapply exact_loop_hit; eauto.
Qed.

Section LocateProofs.
Context `{Lib : Library}.

(** ** The fuzzy pass *)

Lemma find_text_fuzzy_total (self : MoonHighlighter) (page : Page) (text : string)
    (st : State) :
  ∃ res st', find_text_fuzzy self page text st = (Some res, st').
Proof. apply try_except_total. Qed.

Lemma fuzzy_loop_total (self : MoonHighlighter) (pages : list Page) (text : string)
    (fq : list Quad) (fu : bool) (st : State) :
  ∃ qs b st', fuzzy_loop self pages text fq fu st = (Some (qs, b), st') ∧
    ((qs = fq ∧ b = fu) ∨ (b = true ∧ ∃ q, qs = [q])).
Proof.
  revert st. induction pages as [|p pages IH]; intros st; simpl.
  - exists fq, fu, st. split; [reflexivity|left; auto].
  - rewrite bind_run.
    destruct (find_text_fuzzy_total self p text st) as (res & st1 & ->).
    destruct res as [|[q score] res].
    + apply IH.
    + exists [q], true, st1. split; [reflexivity|right; eauto].
Qed.

(** ** The locate step *)

Lemma locate_exact_hit (self : MoonHighlighter) (doc before after : Document)
    (d : PageData) (quads : list Quad) (text : string) (use_fuzzy : bool) (st : State) :
  doc = (before ++ d :: after)%list →
  Forall (fun d => no_hits d text) before →
  search_for d text = Some quads → quads ≠ [] →
  locate self doc text use_fuzzy st = (Some (quads, false), st).
Proof.
  intros Hdoc Hb Hs Hne.
  destruct (doc_pages_split doc before after d Hdoc) as (pb & pa & Hp & Hpb & _).
  unfold locate. rewrite bind_run, Hp.
  rewrite (exact_loop_hit pb pa _ quads); auto.
  - simpl. apply truthy_true in Hne. rewrite Hne. reflexivity.
  - rewrite <- Hpb in Hb.
    exact (proj1 (Forall_fmap page_data (fun d => no_hits d text) pb) Hb).
Qed.

Lemma locate_no_exact (self : MoonHighlighter) (doc : Document) (text : string)
    (use_fuzzy : bool) (st : State) :
  Forall (fun d => no_hits d text) doc →
  locate self doc text use_fuzzy st =
    if use_fuzzy then fuzzy_loop self (doc_pages doc) text [] false st
    else (Some ([], false), st).
Proof.
  intros Hdoc. unfold locate. rewrite bind_run.
  rewrite exact_loop_no_hits by (apply Forall_doc_pages in Hdoc; exact Hdoc).
  simpl. destruct use_fuzzy; reflexivity.
Qed.

(** Either no page of the document has an exact hit, or a first one has. *)
Lemma doc_hit_cases (doc : Document) (text : string) :
  Forall (fun d => no_hits d text) doc ∨
  ∃ before d after quads, doc = (before ++ d :: after)%list ∧
    Forall (fun d => no_hits d text) before ∧
    search_for d text = Some quads ∧ quads ≠ [].
Proof.
  induction doc as [|d doc IH]; [left; constructor|].
  destruct (search_for d text) as [[|q quads]|] eqn:Hs.
  1,3: destruct IH as [IH|(before & d' & after & quads & -> & Hb & Hs' & Hne)];
    [ left; constructor; [unfold no_hits; rewrite Hs; reflexivity|exact IH]
    | right; exists (d :: before), d', after, quads; repeat split; auto;
      constructor; [unfold no_hits; rewrite Hs; reflexivity|exact Hb] ].
  right. exists [], d, doc, (q :: quads). repeat split; auto; discriminate.
Qed.

Lemma locate_total (self : MoonHighlighter) (doc : Document) (text : string)
    (use_fuzzy : bool) (st : State) :
  ∃ qs b st', locate self doc text use_fuzzy st = (Some (qs, b), st').
Proof.
  destruct (doc_hit_cases doc text) as [H|(before & d & after & quads & Hd & Hb & Hs & Hne)].
  - rewrite locate_no_exact by exact H. destruct use_fuzzy; [|eauto].
    destruct (fuzzy_loop_total self (doc_pages doc) text [] false st)
      as (qs & b & st' & -> & _). eauto.
  - erewrite locate_exact_hit by eauto. eauto.
Qed.

(** A fuzzy result, or any change of the state, means that no page has an
    exact hit and that the fuzzy search is enabled. *)
Lemma locate_fuzzy_only_without_exact (self : MoonHighlighter) (doc : Document)
    (text : string) (use_fuzzy : bool) (st st' : State) (qs : list Quad) (b : bool) :
  locate self doc text use_fuzzy st = (Some (qs, b), st') →
  b = true ∨ st' ≠ st →
  use_fuzzy = true ∧ Forall (fun d => no_hits d text) doc.
Proof.
  intros Hrun Hb.
  destruct (doc_hit_cases doc text) as [H|(before & d & after & quads & Hd & Hbef & Hs & Hne)].
  - split; [|exact H]. rewrite locate_no_exact in Hrun by exact H.
    destruct use_fuzzy; [reflexivity|].
    injection Hrun as <- <- <-. destruct Hb; congruence.
  - erewrite locate_exact_hit in Hrun by eauto.
    injection Hrun as <- <- <-. destruct Hb; congruence.
Qed.

End LocateProofs.

(** ** The annotation step *)

Lemma add_highlight_annotation_run (page : Page) (quads : list Quad) (color : RGB)
    (text : string) (st : State) :
  quads ≠ [] →
  add_highlight_annotation page quads color text st =
    if highlight_fails (page_data page) quads then (Some false, st)
    else (Some true, with_annot st (number page) (mkAnnot quads color (note_content text))).
Proof.
  intros Hne. apply truthy_true in Hne.
  unfold add_highlight_annotation, try_except. rewrite Hne.
  destruct (highlight_fails (page_data page) quads) eqn:Hf; rewrite bind_run; simpl;
    rewrite ?Hf; reflexivity.
Qed.

Lemma filter_no_hits (found_quads : list Quad) :
  List.filter (fun q => existsb (fun h => quad_eqb h q) []) found_quads = [].
Proof. induction found_quads; simpl; auto. Qed.

Lemma point_eqb_refl (p : Point) : point_eqb p p = true.
Proof. unfold point_eqb. rewrite !Qeq_bool_refl. reflexivity. Qed.

Lemma quad_eqb_refl (q : Quad) : quad_eqb q q = true.
Proof. unfold quad_eqb. rewrite !point_eqb_refl. reflexivity. Qed.

Lemma filter_own_hits (quads : list Quad) :
  List.filter (fun q => existsb (fun h => quad_eqb h q) quads) quads = quads.
Proof.
  assert (H : ∀ l, (∀ q, In q l → In q quads) →
    List.filter (fun q => existsb (fun h => quad_eqb h q) quads) l = l).
  { induction l as [|q l IH]; intros Hl; simpl; [reflexivity|].
    replace (existsb (fun h => quad_eqb h q) quads) with true.
    - f_equal. apply IH. intros; apply Hl; right; assumption.
    - symmetry. apply existsb_exists. exists q. split; [apply Hl; left; reflexivity|].
      apply quad_eqb_refl. }
  apply H. auto.
Qed.

(** How the annotation loop can end: the search of some page raises; or
    the record is counted as not found; or it is counted as found, and
    then exactly one annotation was added, on a page that has an exact hit
    for the text, made of found quads.  The state is unchanged in the first
    two cases. *)
Lemma annotate_loop_cases (pages : list Page) (found_quads : list Quad) (fuzzy_used : bool)
    (color : RGB) (text : string) (r : Report) (st : State) :
  (annotate_loop pages found_quads fuzzy_used color text r st = (None, st)) ∨
  (annotate_loop pages found_quads fuzzy_used color text r st =
     (Some (count_not_found r), st)) ∨
  (∃ p qs, p ∈ pages ∧ ¬ no_hits (page_data p) text ∧ qs ≠ [] ∧
     (∀ q, In q qs → In q found_quads) ∧
     annotate_loop pages found_quads fuzzy_used color text r st =
       (Some (count_found fuzzy_used r),
        with_annot st (number p) (mkAnnot qs color (note_content text)))).
Proof.
  induction pages as [|p pages IH]; simpl.
  - right; left; reflexivity.
  - rewrite bind_run.
    destruct (search_for (page_data p) text) as [hits|] eqn:Hs; simpl; [|left; reflexivity].
    set (page_quads := List.filter _ found_quads).
    destruct (truthy page_quads) eqn:Ht.
    + apply truthy_true in Ht.
      rewrite bind_run, add_highlight_annotation_run by exact Ht.
      destruct (highlight_fails (page_data p) page_quads).
      * right; left; reflexivity.
      * right; right. exists p, page_quads. split; [left|].
        split.
        { unfold no_hits. rewrite Hs. simpl. intros ->. apply Ht.
          apply filter_no_hits. }
        split; [exact Ht|]. split; [|reflexivity].
        intros q Hq. apply filter_In in Hq. tauto.
    + destruct IH as [IH|[IH|(p' & qs & Hp & Hhit & Hne & Hsub & IH)]].
      * left; exact IH.
      * right; left; exact IH.
      * right; right. exists p', qs. split; [right; exact Hp|]. auto.
Qed.

(** With searches that do not raise, the exact hits of the first page that
    has any are annotated on that page. *)
Lemma annotate_loop_first_hit (pb pa : list Page) (p : Page) (quads : list Quad)
    (fuzzy_used : bool) (color : RGB) (text : string) (r : Report) (st : State) :
  Forall (fun p => search_for (page_data p) text = Some []) pb →
  search_for (page_data p) text = Some quads → quads ≠ [] →
  annotate_loop (pb ++ p :: pa) quads fuzzy_used color text r st =
    if highlight_fails (page_data p) quads then (Some (count_not_found r), st)
    else (Some (count_found fuzzy_used r),
          with_annot st (number p) (mkAnnot quads color (note_content text))).
Proof.
  intros Hpb Hs Hne. induction Hpb as [|q pb Hq _ IH]; simpl.
  - rewrite bind_run, Hs. simpl. rewrite filter_own_hits.
    pose proof Hne as Ht. apply truthy_true in Ht. rewrite Ht.
    rewrite bind_run, add_highlight_annotation_run by exact Hne.
    destruct (highlight_fails (page_data p) quads); reflexivity.
  - rewrite bind_run, Hq. simpl. rewrite filter_no_hits. simpl. exact IH.
Qed.


Section Preserves.
Context (R : State → State → Prop) `{!PreOrder R}.

Lemma preserves_ret {A} (a : A) : preserves R (mret a : M A).
Proof. intros st. simpl. reflexivity. Qed.

Lemma preserves_raise {A} : preserves R (raise : M A).
Proof. intros st. simpl. reflexivity. Qed.

Lemma preserves_lib {A} (o : option A) : preserves R (lib o).
Proof. destruct o; [apply preserves_ret|apply preserves_raise]. Qed.

Lemma preserves_bind {A B} (m : M A) (f : A → M B) :
  preserves R m → (∀ a, preserves R (f a)) → preserves R (m ≫= f).
Proof.
  intros Hm Hf st. rewrite bind_run. specialize (Hm st).
  destruct (m st) as [[a|] st1]; simpl in *; [|exact Hm].
  etransitivity; [exact Hm|apply Hf].
Qed.

Lemma preserves_try_except {A} (body : M A) (dflt : A) :
  preserves R body → preserves R (try_except body dflt).
Proof.
  intros Hb st. unfold try_except. specialize (Hb st).
  destruct (body st) as [[a|] st1]; exact Hb.
Qed.

Lemma preserves_get_cache : preserves R get_cache.
Proof. intros st. simpl. reflexivity. Qed.

Lemma preserves_exact_loop (pages : list Page) (text : string) (acc : list Quad) :
  preserves R (exact_loop pages text acc).
Proof.
  intros st. destruct (exact_loop_state pages text acc st) as (quads & ->).
  simpl. reflexivity.
Qed.

End Preserves.

#[global] Instance same_annots_preorder : PreOrder same_annots.
Proof. split; [intros st; reflexivity|intros a b c H1 H2; unfold same_annots in *; congruence]. Qed.

Lemma extract_page_text_same_annots (page : Page) : preserves same_annots (extract_page_text page).
Proof.
  unfold extract_page_text.
  apply (preserves_bind same_annots); [apply (preserves_get_cache same_annots)|intros cache].
  destruct (cache !! number page); [apply (preserves_ret same_annots)|].
  apply (preserves_bind same_annots); [intros st; reflexivity|intros _].
  apply (preserves_bind same_annots); [apply (preserves_lib same_annots)|intros t].
  apply (preserves_bind same_annots); [intros st; reflexivity|intros _].
  apply (preserves_ret same_annots).
Qed.

Section RecordProofs.
Context `{Lib : Library}.

Lemma find_text_fuzzy_same_annots (self : MoonHighlighter) (page : Page) (text : string) :
  preserves same_annots (find_text_fuzzy self page text).
Proof.
  unfold find_text_fuzzy. apply (preserves_try_except same_annots); [].
  apply (preserves_bind same_annots); [apply extract_page_text_same_annots|intros _].
  apply (preserves_bind same_annots); [intros st; reflexivity|intros _].
  apply (preserves_bind same_annots); [apply (preserves_lib same_annots)|intros words].
  apply (preserves_ret same_annots).
Qed.

Lemma fuzzy_loop_same_annots (self : MoonHighlighter) (pages : list Page) (text : string)
    (fq : list Quad) (fu : bool) :
  preserves same_annots (fuzzy_loop self pages text fq fu).
Proof.
  induction pages as [|p pages IH]; simpl; [apply (preserves_ret same_annots)|].
  apply (preserves_bind same_annots); [apply find_text_fuzzy_same_annots|intros res].
  destruct res as [|[q s] res]; [exact IH|apply (preserves_ret same_annots)].
Qed.

Lemma locate_same_annots (self : MoonHighlighter) (doc : Document) (text : string)
    (use_fuzzy : bool) :
  preserves same_annots (locate self doc text use_fuzzy).
Proof.
  unfold locate.
  apply (preserves_bind same_annots); [apply (preserves_exact_loop same_annots)|intros quads].
  destruct (negb (truthy quads) && use_fuzzy);
    [apply fuzzy_loop_same_annots|apply (preserves_ret same_annots)].
Qed.

(** ** One record *)

(** A record is counted once, as found or as not found, unless the
    search of line 307 raises.  It is counted as found only with an
    annotation of exact hits of its text on one page, so never through a
    fuzzy match; otherwise no annotation is added. *)
Lemma process_highlight_cases (self : MoonHighlighter) (doc : Document)
    (use_fuzzy : bool) (h : highlight_record) (r : Report) (st : State) :
  ∃ res st', process_highlight self doc use_fuzzy h r st = (res, st') ∧
    ((res = None ∨ res = Some (count_not_found r)) ∧ doc_annots st' = doc_annots st ∨
     res = Some (count_found false r) ∧
     ∃ n d qs, doc !! n = Some d ∧ ¬ no_hits d h.2 ∧ qs ≠ [] ∧
       doc_annots st' =
         (doc_annots st ++ [(n, mkAnnot qs (map_color h.1.1) (note_content h.2))])%list).
Proof.
  destruct h as [[color_value len] text]. unfold process_highlight. rewrite bind_run.
  destruct (locate_total self doc text use_fuzzy st) as (qs & b & st1 & Hloc).
  pose proof (locate_same_annots self doc text use_fuzzy st) as Hsame.
  rewrite Hloc in *. simpl in Hsame. unfold same_annots in Hsame. simpl.
  destruct (truthy qs) eqn:Ht.
  2:{ eexists _, _. split; [reflexivity|]. left. split; [right; reflexivity|exact Hsame]. }
  destruct (annotate_loop_cases (doc_pages doc) qs b (map_color color_value) text r st1)
    as [Hc|[Hc|(p & pq & Hp & Hhit & Hne & Hsub & Hc)]]; rewrite Hc.
  - eexists _, _. split; [reflexivity|]. left. split; [left; reflexivity|exact Hsame].
  - eexists _, _. split; [reflexivity|]. left. split; [right; reflexivity|exact Hsame].
  - eexists _, _. split; [reflexivity|]. right.
    apply doc_pages_elem in Hp.
    assert (b = false) as ->.
    { destruct b; [|reflexivity]. exfalso.
      destruct (locate_fuzzy_only_without_exact self doc text use_fuzzy st st1 qs true Hloc)
        as [_ Hall]; [left; reflexivity|].
      rewrite Forall_forall in Hall. apply Hhit, Hall.
      apply list_elem_of_lookup. eauto. }
    split; [reflexivity|].
    exists (number p), (page_data p), pq. simpl. rewrite Hsame. auto.
Qed.

End RecordProofs.

Lemma annotate_loop_total (pages : list Page) (found_quads : list Quad) (fuzzy_used : bool)
    (color : RGB) (text : string) (r : Report) (st : State) :
  Forall (fun p => is_Some (search_for (page_data p) text)) pages →
  ∃ r' st', annotate_loop pages found_quads fuzzy_used color text r st = (Some r', st').
Proof.
  induction 1 as [|p pages [hits Hp] _ IH]; simpl; [eauto|].
  rewrite bind_run, Hp. simpl.
  set (page_quads := List.filter _ found_quads).
  destruct (truthy page_quads) eqn:Ht; [|exact IH].
  apply truthy_true in Ht.
  rewrite bind_run, add_highlight_annotation_run by exact Ht.
  destruct (highlight_fails (page_data p) page_quads); eauto.
Qed.

Lemma first_hit_none (pages : list Page) (text : string) :
  Forall (fun p => no_hits (page_data p) text) pages → first_hit pages text = None.
Proof.
  induction 1 as [|p pages Hp _ IH]; simpl; [reflexivity|].
  unfold no_hits in Hp.
  destruct (search_for (page_data p) text) as [[|q quads]|]; simpl in Hp;
    [exact IH|discriminate|exact IH].
Qed.

Lemma first_hit_some (pb pa : list Page) (p : Page) (quads : list Quad) (text : string) :
  Forall (fun p => no_hits (page_data p) text) pb →
  search_for (page_data p) text = Some quads → quads ≠ [] →
  first_hit (pb ++ p :: pa) text = Some (p, quads).
Proof.
  intros Hpb Hs Hne. induction Hpb as [|q pb Hq _ IH]; simpl.
  - rewrite Hs. destruct quads; [congruence|reflexivity].
  - unfold no_hits in Hq.
    destruct (search_for (page_data q) text) as [[|? ?]|]; simpl in Hq;
      [exact IH|discriminate|exact IH].
Qed.

Lemma has_exact_hit_false (doc : Document) (text : string) :
  has_exact_hit doc text = false ↔ Forall (fun d => no_hits d text) doc.
Proof.
  unfold has_exact_hit, no_hits. induction doc as [|d doc IH]; simpl.
  - split; [constructor|reflexivity].
  - rewrite orb_false_iff, IH, truthy_false. split.
    + intros [? ?]. constructor; assumption.
    + intros H. inversion H; subst. auto.
Qed.

Lemma has_exact_hit_true (doc before after : Document) (d : PageData) (quads : list Quad)
    (text : string) :
  doc = (before ++ d :: after)%list → search_for d text = Some quads → quads ≠ [] →
  has_exact_hit doc text = true.
Proof.
  intros -> Hs Hne. unfold has_exact_hit. rewrite existsb_app. simpl.
  rewrite Hs. simpl. apply truthy_true in Hne. rewrite Hne.
  rewrite orb_true_r. reflexivity.
Qed.

Section BatchProofs.
Context `{Lib : Library}.

Lemma process_highlight_total (self : MoonHighlighter) (doc : Document)
    (use_fuzzy : bool) (h : highlight_record) (r : Report) (st : State) :
  searches_return doc h.2 →
  ∃ r' st', process_highlight self doc use_fuzzy h r st = (Some r', st').
Proof.
  destruct h as [[color_value len] text]. simpl. intros Hret.
  unfold process_highlight. rewrite bind_run.
  destruct (locate_total self doc text use_fuzzy st) as (qs & b & st1 & ->).
  simpl. destruct (truthy qs); [|eauto].
  apply annotate_loop_total.
  apply (Forall_doc_pages (fun d => is_Some (search_for d text))). exact Hret.
Qed.

(** With the fuzzy search disabled and searches that return, a record
    is counted as found exactly when some page has an exact hit and the
    annotation of the hits of the first such page does not raise. *)
Lemma process_highlight_exact (self : MoonHighlighter) (doc : Document)
    (h : highlight_record) (r : Report) (st : State) :
  searches_return doc h.2 →
  ∃ st', process_highlight self doc false h r st =
    (Some (if has_exact_hit doc h.2 && negb (annotation_raises doc h.2)
           then count_found false r else count_not_found r), st').
Proof.
  destruct h as [[color_value len] text]. simpl. intros Hret.
  unfold process_highlight. rewrite bind_run.
  destruct (doc_hit_cases doc text) as [H|(before & d & after & quads & Hd & Hb & Hs & Hne)].
  - rewrite locate_no_exact by exact H. simpl.
    apply has_exact_hit_false in H. rewrite H. simpl. eauto.
  - erewrite locate_exact_hit by eauto. simpl.
    pose proof Hne as Ht. apply truthy_true in Ht. rewrite Ht.
    rewrite (has_exact_hit_true doc before after d quads text Hd Hs Hne). simpl.
    destruct (doc_pages_split doc before after d Hd) as (pb & pa & Hp & Hpb & _).
    assert (Hnh : Forall (fun p => no_hits (page_data p) text) pb).
    { rewrite <- Hpb in Hb.
      exact (proj1 (Forall_fmap page_data (fun d => no_hits d text) pb) Hb). }
    assert (Hempty : Forall (fun p => search_for (page_data p) text = Some []) pb).
    { apply (Forall_doc_pages (fun d => is_Some (search_for d text))) in Hret.
      rewrite Hp in Hret. apply Forall_app in Hret as [Hret _].
      rewrite Forall_forall in *. intros p Hin.
      specialize (Hnh p Hin). destruct (Hret p Hin) as [hits Hhits].
      unfold no_hits in Hnh. rewrite Hhits in *. simpl in Hnh. congruence. }
    unfold annotation_raises. rewrite Hp.
    rewrite (first_hit_some pb pa _ quads) by auto.
    rewrite (annotate_loop_first_hit pb pa _ quads) by auto. simpl.
    destruct (highlight_fails d quads); simpl; eauto.
Qed.

(** ** The batch *)

(** The loop never touches the total nor the fuzzy counter, and adds one
    to the found or to the not-found counter for every record. *)
Lemma highlights_loop_counters (self : MoonHighlighter) (doc : Document)
    (use_fuzzy : bool) (highlights : list highlight_record) (r r' : Report) (st st' : State) :
  highlights_loop self doc use_fuzzy highlights r st = (Some r', st') →
  total_highlights r' = total_highlights r ∧
  fuzzy_highlights r' = fuzzy_highlights r ∧
  (found_highlights r' + not_found_highlights r' =
     found_highlights r + not_found_highlights r + List.length highlights)%nat.
Proof.
  revert r st. induction highlights as [|h hs IH]; intros r st; simpl.
  - intros [= <- <-]. lia.
  - rewrite bind_run.
    destruct (process_highlight_cases self doc use_fuzzy h r st)
      as (res & st1 & -> & [[[-> | ->] _]|[-> _]]); [discriminate| |];
      intros Hrun; apply IH in Hrun as (Ht & Hf & Hsum); simpl in *; lia.
Qed.

Lemma highlights_loop_total (self : MoonHighlighter) (doc : Document)
    (use_fuzzy : bool) (highlights : list highlight_record) (r : Report) (st : State) :
  (∀ h, h ∈ highlights → searches_return doc h.2) →
  ∃ r' st', highlights_loop self doc use_fuzzy highlights r st = (Some r', st').
Proof.
  revert r st. induction highlights as [|h hs IH]; intros r st Hret; simpl; [eauto|].
  rewrite bind_run.
  destruct (process_highlight_total self doc use_fuzzy h r st) as (r1 & st1 & ->).
  { apply Hret. left. }
  apply IH. intros h' Hh'. apply Hret. right. exact Hh'.
Qed.

Lemma annotation_raises_located (doc : Document) (text : string) :
  has_exact_hit doc text = false → annotation_raises doc text = false.
Proof.
  intros H. apply has_exact_hit_false in H. unfold annotation_raises.
  rewrite first_hit_none; [reflexivity|].
  apply (Forall_doc_pages (fun d => no_hits d text)). exact H.
Qed.

Lemma highlights_loop_exact (self : MoonHighlighter) (doc : Document)
    (highlights : list highlight_record) (r : Report) (st : State) :
  (∀ h, h ∈ highlights → searches_return doc h.2) →
  ∃ r' st', highlights_loop self doc false highlights r st = (Some r', st') ∧
    (not_found_highlights r' =
       not_found_highlights r + unlocated_exact doc highlights
       + failed_annotations doc highlights)%nat.
Proof.
  revert r st. induction highlights as [|h hs IH]; intros r st Hret; simpl.
  - exists r, st. split; [reflexivity|]. unfold unlocated_exact, failed_annotations.
    simpl. lia.
  - rewrite bind_run.
    destruct (process_highlight_exact self doc h r st) as (st1 & ->).
    { apply Hret. left. }
    destruct (IH (if has_exact_hit doc h.2 && negb (annotation_raises doc h.2)
                  then count_found false r else count_not_found r) st1)
      as (r' & st' & Hrun & Hnf).
    { intros h' Hh'. apply Hret. right. exact Hh'. }
    exists r', st'. split; [exact Hrun|]. rewrite Hnf.
    unfold unlocated_exact, failed_annotations. simpl.
    destruct (has_exact_hit doc h.2) eqn:Hhit; simpl.
    + destruct (annotation_raises doc h.2); simpl; lia.
    + rewrite (annotation_raises_located doc h.2 Hhit). simpl. lia.
Qed.

End BatchProofs.

Lemma count_get_text_app (n : nat) (l1 l2 : list Call) :
  count_get_text n (l1 ++ l2) = (count_get_text n l1 + count_get_text n l2)%nat.
Proof. unfold count_get_text. rewrite List.filter_app, length_app. reflexivity. Qed.

#[global] Instance text_once_preorder (n : nat) : PreOrder (text_once n).
Proof.
  split.
  - intros st. exists []. rewrite app_nil_r. repeat split; auto.
  - intros a b c (l1 & Hc1 & Hm1 & Hz1 & Ho1) (l2 & Hc2 & Hm2 & Hz2 & Ho2).
    exists (l1 ++ l2)%list. rewrite count_get_text_app.
    split; [rewrite Hc2, Hc1, <- app_assoc; reflexivity|].
    split; [auto|]. split.
    + intros Ha. rewrite (Hz1 Ha), (Hz2 (Hm1 _ Ha)). reflexivity.
    + destruct Ho1 as [H1|[H1 Hb]].
      * rewrite H1. simpl. exact Ho2.
      * right. rewrite H1, (Hz2 Hb). split; [reflexivity|auto].
Qed.

Lemma text_once_log_words (n m : nat) : preserves (text_once n) (log_call (CallGetWords m)).
Proof.
  intros st. exists [CallGetWords m]. simpl. repeat split; auto.
Qed.

Lemma extract_page_text_once (n : nat) (page : Page) :
  (number page = n → is_Some (get_text (page_data page))) →
  preserves (text_once n) (extract_page_text page).
Proof.
  intros Hret st. unfold extract_page_text. rewrite bind_run. simpl.
  destruct (text_cache st !! number page) as [t|] eqn:Hc; simpl; [reflexivity|].
  rewrite !bind_run. simpl.
  destruct (get_text (page_data page)) as [t|] eqn:Ht; simpl.
  - exists [CallGetText (number page)]. simpl. split; [reflexivity|]. split.
    { intros k Hk. destruct (decide (number page = k)) as [->|Hne].
      - rewrite lookup_insert_eq. eauto.
      - rewrite lookup_insert_ne by exact Hne. exact Hk. }
    unfold count_get_text. simpl.
    destruct (Nat.eqb_spec (number page) n) as [Heq|Hne]; simpl.
    + rewrite Heq in *. split; [rewrite Hc; intros [? ?]; discriminate|].
      right. split; [reflexivity|]. rewrite lookup_insert_eq. eauto.
    + split; auto.
  - exists [CallGetText (number page)]. simpl. split; [reflexivity|]. split; [auto|].
    unfold count_get_text. simpl.
    destruct (Nat.eqb_spec (number page) n) as [Heq|Hne]; simpl.
    + destruct (Hret Heq); discriminate.
    + split; auto.
Qed.

Lemma doc_pages_text_returns (doc : Document) (n : nat) (p : Page) :
  text_returns doc n → p ∈ doc_pages doc →
  number p = n → is_Some (get_text (page_data p)).
Proof. intros Hret Hp <-. apply Hret, doc_pages_elem, Hp. Qed.

Lemma annotate_loop_text_once (n : nat) (pages : list Page) (found_quads : list Quad)
    (fuzzy_used : bool) (color : RGB) (text : string) (r : Report) :
  preserves (text_once n) (annotate_loop pages found_quads fuzzy_used color text r).
Proof.
  intros st.
  destruct (annotate_loop_cases pages found_quads fuzzy_used color text r st)
    as [Hc|[Hc|(p & qs & _ & _ & _ & _ & Hc)]]; rewrite Hc; simpl; try reflexivity.
  exists []. simpl. rewrite app_nil_r. repeat split; auto.
Qed.

Section CacheProofs.
Context `{Lib : Library}.

Lemma find_text_fuzzy_text_once (n : nat) (self : MoonHighlighter) (page : Page)
    (text : string) :
  (number page = n → is_Some (get_text (page_data page))) →
  preserves (text_once n) (find_text_fuzzy self page text).
Proof.
  intros Hret. unfold find_text_fuzzy. apply (preserves_try_except (text_once n)).
  apply (preserves_bind (text_once n)); [apply extract_page_text_once, Hret|intros _].
  apply (preserves_bind (text_once n)); [apply text_once_log_words|intros _].
  apply (preserves_bind (text_once n)); [apply (preserves_lib (text_once n))|intros words].
  apply (preserves_ret (text_once n)).
Qed.

Lemma fuzzy_loop_text_once (n : nat) (self : MoonHighlighter) (pages : list Page)
    (text : string) (fq : list Quad) (fu : bool) :
  (∀ p, p ∈ pages → number p = n → is_Some (get_text (page_data p))) →
  preserves (text_once n) (fuzzy_loop self pages text fq fu).
Proof.
  induction pages as [|p pages IH]; intros Hret; simpl;
    [apply (preserves_ret (text_once n))|].
  apply (preserves_bind (text_once n)).
  - apply find_text_fuzzy_text_once, Hret. left.
  - intros [|[q s] res]; [|apply (preserves_ret (text_once n))].
    apply IH. intros p' Hp'. apply Hret. right. exact Hp'.
Qed.

Lemma highlights_loop_text_once (n : nat) (self : MoonHighlighter) (doc : Document)
    (use_fuzzy : bool) (highlights : list highlight_record) (r : Report) :
  text_returns doc n →
  preserves (text_once n) (highlights_loop self doc use_fuzzy highlights r).
Proof.
  intros Hret. revert r. induction highlights as [|h hs IH]; intros r; simpl;
    [apply (preserves_ret (text_once n))|].
  apply (preserves_bind (text_once n)); [|intros r'; apply IH].
  destruct h as [[color_value len] text]. unfold process_highlight.
  apply (preserves_bind (text_once n)).
  - unfold locate. apply (preserves_bind (text_once n));
      [apply (preserves_exact_loop (text_once n))|intros quads].
    destruct (negb (truthy quads) && use_fuzzy); [|apply (preserves_ret (text_once n))].
    apply fuzzy_loop_text_once. intros p Hp. apply (doc_pages_text_returns doc n p Hret Hp).
  - intros [qs b]. destruct (truthy qs); [|apply (preserves_ret (text_once n))].
    apply annotate_loop_text_once.
Qed.

(** Every fuzzy lookup of a page asks the library for its words again. *)
Lemma find_text_fuzzy_words (self : MoonHighlighter) (page : Page) (text : string)
    (st : State) :
  is_Some (text_cache st !! number page) ∨ is_Some (get_text (page_data page)) →
  ∃ l, calls (find_text_fuzzy self page text st).2 = (calls st ++ l)%list ∧
       count_get_words (number page) l = 1%nat.
Proof.
  intros Hok. unfold find_text_fuzzy, try_except, extract_page_text.
  rewrite !bind_run. simpl.
  destruct (text_cache st !! number page) as [t|] eqn:Hc; simpl.
  - rewrite !bind_run. simpl.
    exists [CallGetWords (number page)].
    unfold count_get_words. simpl. rewrite Nat.eqb_refl.
    destruct (get_text_words (page_data page)); simpl; auto.
  - destruct Hok as [[? ?]|[t Ht]]; [discriminate|].
    rewrite !bind_run. simpl. rewrite Ht. simpl. rewrite !bind_run. simpl.
    exists [CallGetText (number page); CallGetWords (number page)].
    unfold count_get_words. simpl. rewrite Nat.eqb_refl.
    destruct (get_text_words (page_data page)); simpl; rewrite <- app_assoc; auto.
Qed.

End CacheProofs.

(** ** Paths *)

Lemma str_take_drop (n : nat) (s : string) : str_take n s ++ str_drop n s = s.
Proof.
  revert s. induction n as [|n IH]; intros [|a s]; simpl; try reflexivity.
  change (String a (str_take n s ++ str_drop n s) = String a s).
  f_equal. apply IH.
Qed.

Lemma str_length_app (a b : string) :
  String.length (a ++ b) = (String.length a + String.length b)%nat.
Proof.
  induction a as [|c a IH]; [reflexivity|].
  change (S (String.length (a ++ b)) = S (String.length a + String.length b)).
  f_equal. exact IH.
Qed.

Lemma str_app_empty (s : string) : s ++ "" = s.
Proof.
  induction s as [|c s IH]; [reflexivity|].
  change (String c (s ++ "") = String c s). f_equal. exact IH.
Qed.

Lemma stem_suffix_name (p : Path) : path_stem p ++ path_suffix p = path_name p.
Proof.
  unfold path_stem, path_suffix.
  destruct (rfind "." (path_name p)) as [i|].
  - destruct ((0 <? i)%nat && (i <? String.length (path_name p) - 1)%nat).
    + apply str_take_drop.
    + apply str_app_empty.
  - apply str_app_empty.
Qed.

Lemma suffixed_name_fresh (p : Path) (infix : string) :
  infix ≠ "" →
  path_join (path_parent p) (path_stem p ++ infix ++ path_suffix p) ≠ p.
Proof.
  intros Hinfix Heq. apply (f_equal path_name) in Heq.
  unfold path_join, path_name at 1 in Heq. simpl in Heq. rewrite last_last in Heq.
  rewrite <- (stem_suffix_name p) in Heq at 1.
  apply (f_equal String.length) in Heq. rewrite !str_length_app in Heq.
  destruct infix; [congruence|]. simpl in Heq. lia.
Qed.

(** The test variant names its output [stem + "_test_highlighted" + suffix],
    which is not the input either. *)
Lemma simple_default_output (pdf_path : Path) :
  path_name (MoonHighlighterSimple.default_output_path pdf_path) =
    path_stem pdf_path ++ "_test_highlighted" ++ path_suffix pdf_path ∧
  MoonHighlighterSimple.default_output_path pdf_path ≠ pdf_path.
Proof.
  split.
  - unfold MoonHighlighterSimple.default_output_path, path_join, path_name. simpl.
    apply last_last.
  - apply suffixed_name_fresh. discriminate.
Qed.

Lemma default_output_name (self : MoonHighlighter) :
  path_name (default_output_path self) =
    path_stem (pdf_path self) ++ "_highlighted" ++ path_suffix (pdf_path self).
Proof. unfold default_output_path, path_join, path_name. simpl. apply last_last. Qed.

Lemma default_output_parent (self : MoonHighlighter) :
  path_parent (default_output_path self) = path_parent (pdf_path self).
Proof.
  unfold default_output_path, path_join, path_parent. simpl.
  rewrite removelast_last. reflexivity.
Qed.

Lemma default_output_fresh (self : MoonHighlighter) :
  default_output_path self ≠ pdf_path self.
Proof. apply suffixed_name_fresh. discriminate. Qed.

Section RunProofs.
Context `{Lib : Library}.

(** ** The empty text and texts without fuzzy candidate *)




(** ** The whole run *)

Lemma highlights_loop_annots (self : MoonHighlighter) (doc : Document)
    (use_fuzzy : bool) (highlights : list highlight_record) (r : Report) (st : State) :
  ∃ new, doc_annots (highlights_loop self doc use_fuzzy highlights r st).2 =
           (doc_annots st ++ new)%list.
Proof.
  revert r st. induction highlights as [|h hs IH]; intros r st; simpl.
  - exists []. rewrite app_nil_r. reflexivity.
  - rewrite bind_run.
    destruct (process_highlight_cases self doc use_fuzzy h r st)
      as (res & st1 & -> & [[[-> | ->] Ha]|[-> (n & d & qs & _ & _ & _ & Ha)]]).
    + exists []. simpl. rewrite app_nil_r. exact Ha.
    + destruct (IH (count_not_found r) st1) as [new Hnew].
      exists new. rewrite Hnew, Ha. reflexivity.
    + destruct (IH (count_found false r) st1) as [new Hnew].
      eexists. rewrite Hnew, Ha, <- app_assoc. reflexivity.
Qed.

(** A run leaves the world as it was, or it returns the output path
    after it has written there the opened document with its annotations
    and those added. *)
Lemma process_highlights_world (self : MoonHighlighter) (cache : gmap nat string)
    (w : World) (output_path : option Path) (use_fuzzy : bool) :
  let out := default (default_output_path self) output_path in
  let o := process_highlights self cache w output_path use_fuzzy in
  (outcome_world o = w ∧ outcome_file o = None ∧ outcome_report o = None) ∨
  (∃ doc annots new r st,
     fs w !! pdf_path self = Some (PdfFile doc annots) ∧
     o = Returned (Some out) (Some r)
           (mkWorld (<[out := PdfFile doc (annots ++ new)]> (fs w)) (save_fails w)) st).
Proof.
  intros out o. subst o. unfold process_highlights.
  destruct (truthy (get_highlights_from_db w self)); [|left; auto].
  destruct (fs w !! pdf_path self) as [[doc annots| |]|] eqn:Hpdf; try (left; auto; fail).
  pose proof (highlights_loop_annots self doc use_fuzzy (get_highlights_from_db w self)
    (mkReport (List.length (get_highlights_from_db w self)) 0 0 0)
    (mkState cache annots [])) as [new Hnew].
  destruct (highlights_loop _ _ _ _ _ _) as [[r|] st]; [|left; auto].
  simpl in Hnew.
  replace (match output_path with Some p => p | None => default_output_path self end)
    with out by (destruct output_path; reflexivity).
  destruct (save_fails w out); [left; auto|].
  right. exists doc, annots, new, r, st. rewrite Hnew. auto.
Qed.

End RunProofs.

(** ** The best fuzzy match *)

Lemma insert_by_score_elem {A} (x y : A * Z) (l : list (A * Z)) :
  y ∈ insert_by_score x l ↔ y = x ∨ y ∈ l.
Proof.
  induction l as [|z l IH]; simpl.
  - rewrite list_elem_of_singleton. split; [left; assumption|].
    intros [H|H]; [exact H|inversion H].
  - destruct (x.2 <? z.2)%Z; rewrite !elem_of_cons, ?IH; tauto.
Qed.

Lemma sort_by_score_elem {A} (y : A * Z) (l : list (A * Z)) :
  y ∈ sort_by_score l ↔ y ∈ l.
Proof.
  induction l as [|x l IH]; simpl; [reflexivity|].
  rewrite insert_by_score_elem, elem_of_cons, IH. reflexivity.
Qed.

(** The head of the sorted list has the highest score. *)
Lemma insert_by_score_head {A} (x h : A * Z) (l t : list (A * Z)) :
  (∀ h' t', l = h' :: t' → ∀ y, y ∈ l → y.2 <= h'.2) →
  insert_by_score x l = h :: t →
  ∀ y, y ∈ insert_by_score x l → y.2 <= h.2.
Proof.
  intros Hl Hins y Hy. apply insert_by_score_elem in Hy.
  destruct l as [|z l]; simpl in Hins.
  - injection Hins as <- <-. destruct Hy as [->|Hy]; [lia|inversion Hy].
  - specialize (Hl z l eq_refl).
    destruct (Z.ltb_spec x.2 z.2); injection Hins as <- <-.
    + destruct Hy as [->|Hy]; [lia|auto].
    + destruct Hy as [->|Hy]; [lia|]. specialize (Hl y Hy). lia.
Qed.

Lemma sort_by_score_head {A} (l : list (A * Z)) (h : A * Z) (t : list (A * Z)) :
  sort_by_score l = h :: t → h ∈ l ∧ ∀ y, y ∈ l → y.2 <= h.2.
Proof.
  intros Hsort. split.
  - apply sort_by_score_elem. rewrite Hsort. left.
  - revert h t Hsort. induction l as [|x l IH]; intros h t Hsort; [discriminate|].
    simpl in Hsort. intros y Hy.
    apply (insert_by_score_head x h (sort_by_score l) t); [|exact Hsort|].
    + intros h' t' Hl y' Hy'. apply (IH h' t' Hl). apply sort_by_score_elem, Hy'.
    + apply insert_by_score_elem.
      apply elem_of_cons in Hy as [->|Hy]; [left; reflexivity|].
      right. apply sort_by_score_elem, Hy.
Qed.

Section BestMatch.
Context `{Lib : Library}.

Lemma collect_similar_elem (self : MoonHighlighter) (text : string) (words : list Word)
    (word : Word) (score : Z) :
  (word, score) ∈ collect_similar self text words ↔
  word ∈ words ∧ (3 < String.length (word_text word))%nat ∧
  score = partial_ratio (lower text) (lower (word_text word)) ∧
  fuzzy_threshold self <= score.
Proof.
  induction words as [|w words IH]; simpl.
  - split; [intros H; inversion H|intros [H _]; inversion H].
  - destruct (Nat.ltb_spec 3 (String.length (word_text w))) as [Hlen|Hlen].
    + destruct (Z.leb_spec (fuzzy_threshold self)
                  (partial_ratio (lower text) (lower (word_text w)))) as [Hs|Hs].
      * rewrite !elem_of_cons, IH. split.
        -- intros [[= -> ->]|(? & ? & ? & ?)]; auto 6.
        -- intros ([->|Hin] & ? & -> & ?); [left; reflexivity|right; auto].
      * rewrite IH, elem_of_cons. split; [intros (? & ? & ? & ?); auto|].
        intros ([->|Hin] & ? & -> & ?); [lia|auto].
    + rewrite IH, elem_of_cons. split; [intros (? & ? & ? & ?); auto|].
      intros ([->|Hin] & ? & -> & ?); [lia|auto].
Qed.

(** The first result of [find_text_fuzzy] is the quad of a word of the
    page that is longer than 3 characters and scores at least the
    threshold, and no word of the page longer than 3 characters scores
    higher. *)
Lemma find_text_fuzzy_best (self : MoonHighlighter) (page : Page) (text : string)
    (st st' : State) (q : Quad) (s : Z) (rest : list (Quad * Z)) :
  find_text_fuzzy self page text st = (Some ((q, s) :: rest), st') →
  ∃ words word,
    get_text_words (page_data page) = Some words ∧ word ∈ words ∧
    q = word_quad word ∧
    s = partial_ratio (lower text) (lower (word_text word)) ∧
    (3 < String.length (word_text word))%nat ∧ fuzzy_threshold self <= s ∧
    ∀ w, w ∈ words → (3 < String.length (word_text w))%nat →
         partial_ratio (lower text) (lower (word_text w)) <= s.
Proof.
  unfold find_text_fuzzy, try_except. rewrite bind_run.
  destruct (extract_page_text page st) as [[t|] st1]; [|discriminate].
  rewrite !bind_run. simpl.
  destruct (get_text_words (page_data page)) as [words|] eqn:Hw; simpl; [|discriminate].
  destruct (sort_by_score (collect_similar self text words)) as [|[word sc] sorted] eqn:Hsort.
  { rewrite take_nil. discriminate. }
  destruct (max_fuzzy_results self); simpl; [discriminate|].
  intros [= <- <- _ _].
  apply sort_by_score_head in Hsort as [Hin Hmax].
  apply collect_similar_elem in Hin as (Hin & Hlen & Hsc & Hthr).
  exists words, word. repeat split; auto.
  intros w Hwin Hwlen.
  destruct (Z.le_gt_cases (fuzzy_threshold self)
              (partial_ratio (lower text) (lower (word_text w)))) as [Hc|Hc]; [|lia].
  apply (Hmax (w, partial_ratio (lower text) (lower (word_text w)))).
  apply collect_similar_elem. auto.
Qed.

End BestMatch.

(** ** The claims about the locate step *)

Section LocateClaims.
Context `{Lib : Library}.

(** C4: the locate step scans the pages in document order and stops at
    the first page with an exact occurrence, returning all the
    occurrences on that page as an exact result, without running the
    fuzzy pass (the state, with its log of extraction calls, is
    unchanged); a fuzzy result, or any extraction, occurs only when no
    page has an exact occurrence; and a record gets at most one
    annotation, on one page. *)
Theorem exact_match_preferred (self : MoonHighlighter) (doc : Document) (text : string)
    (use_fuzzy : bool) (st : State) :
  (∀ before d after quads,
     doc = (before ++ d :: after)%list →
     Forall (fun d => no_hits d text) before →
     search_for d text = Some quads → quads ≠ [] →
     locate self doc text use_fuzzy st = (Some (quads, false), st)) ∧
  (∀ qs b st',
     locate self doc text use_fuzzy st = (Some (qs, b), st') →
     b = true ∨ st' ≠ st →
     use_fuzzy = true ∧ Forall (fun d => no_hits d text) doc) ∧
  (∀ color_value len r,
     let st' := (process_highlight self doc use_fuzzy (color_value, len, text) r st).2 in
     doc_annots st' = doc_annots st ∨
     ∃ n a, doc_annots st' = (doc_annots st ++ [(n, a)])%list).
Proof.
  split; [|split].
  - intros before d after quads Hdoc Hb Hs Hne.
    eapply locate_exact_hit; eauto.
  - intros qs b st' Hrun Hb.
    eapply locate_fuzzy_only_without_exact; eauto.
  - intros color_value len r.
    destruct (process_highlight_cases self doc use_fuzzy (color_value, len, text) r st)
      as (res & st1 & -> & [[_ Ha]|[_ (n & d & qs & _ & _ & _ & Ha)]]); simpl.
    + left. exact Ha.
    + right. eauto.
Qed.

(** C6: with the fuzzy search disabled the locate step never gives a
    fuzzy result and leaves the state alone; if no page has an exact
    occurrence it finds nothing and the record is counted as not found,
    whatever tokens the pages hold. *)
Theorem fuzzy_disabled_never_fuzzy (self : MoonHighlighter) (doc : Document)
    (text : string) (st : State) :
  (∃ qs, locate self doc text false st = (Some (qs, false), st)) ∧
  (Forall (fun d => no_hits d text) doc →
   locate self doc text false st = (Some ([], false), st) ∧
   ∀ color_value len r,
     process_highlight self doc false (color_value, len, text) r st =
       (Some (count_not_found r), st)).
Proof.
  split.
  - destruct (doc_hit_cases doc text) as [H|(before & d & after & quads & Hd & Hb & Hs & Hne)].
    + exists []. apply (locate_no_exact self doc text false st H).
    + exists quads. eapply locate_exact_hit; eauto.
  - intros H. pose proof (locate_no_exact self doc text false st H) as Hloc.
    split; [exact Hloc|]. intros color_value len r.
    unfold process_highlight. rewrite bind_run, Hloc. reflexivity.
Qed.


End LocateClaims.

(** Witness of [exact_match_preferred]: the first page holds the token
    "foobaz", a fuzzy candidate for "foobar", the second page the word
    itself; the exact hit of the second page is returned. *)
Lemma exact_match_preferred_witness :
  locate (Lib := Examples.example_lib) Examples.self
    [Examples.page_foobaz; Examples.page_foobar] "foobar" true Examples.st0 =
    (Some ([Examples.hit_of Examples.w_foobar], false), Examples.st0).
Proof.
  apply (proj1 (exact_match_preferred (Lib := Examples.example_lib) Examples.self
           [Examples.page_foobaz; Examples.page_foobar] "foobar" true Examples.st0)
           [Examples.page_foobaz] Examples.page_foobar []).
  - reflexivity.
  - repeat constructor.
  - reflexivity.
  - discriminate.
Defined.

(** Witness of [fuzzy_disabled_never_fuzzy]: the page holds "foobar", which
    scores 83 against "foobaz"; with the fuzzy search disabled the record
    is not found. *)
Lemma fuzzy_disabled_never_fuzzy_witness :
  collect_similar (Lib := Examples.example_lib) Examples.self "foobaz" [Examples.w_foobar] =
    [(Examples.w_foobar, 83)] ∧
  process_highlight (Lib := Examples.example_lib) Examples.self [Examples.page_foobar] false
    (-256, 6, "foobaz") (mkReport 1 0 0 0) Examples.st0 =
    (Some (mkReport 1 0 0 1), Examples.st0).
Proof.
  split; [reflexivity|].
  apply (proj2 (fuzzy_disabled_never_fuzzy (Lib := Examples.example_lib) Examples.self
           [Examples.page_foobar] "foobaz" Examples.st0)).
  repeat constructor.
Defined.



(** ** The claims about the batch and the report *)

Section BatchClaims.
Context `{Lib : Library}.

(** The printed report is the result of the loop over the highlights,
    started with all counters at zero. *)
Lemma process_highlights_report (self : MoonHighlighter) (cache : gmap nat string)
    (w : World) (output_path : option Path) (use_fuzzy : bool)
    (file : option Path) (r : Report) (w' : World) (st : State) :
  process_highlights self cache w output_path use_fuzzy = Returned file (Some r) w' st →
  ∃ doc annots,
    fs w !! pdf_path self = Some (PdfFile doc annots) ∧
    highlights_loop self doc use_fuzzy (get_highlights_from_db w self)
      (mkReport (List.length (get_highlights_from_db w self)) 0 0 0)
      (mkState cache annots []) = (Some r, st).
Proof.
  unfold process_highlights.
  destruct (truthy (get_highlights_from_db w self)); [|discriminate].
  destruct (fs w !! pdf_path self) as [[doc annots| |]|]; try discriminate.
  destruct (highlights_loop _ _ _ _ _ _) as [[r1|] st1] eqn:Hloop; [|discriminate].
  destruct (save_fails w _); [discriminate|].
  intros [= _ <- _ <-]. eexists _, _. split; [reflexivity|exact Hloop].
Qed.

(** A run on a non-empty batch whose document opens, whose searches
    return and whose save succeeds prints the report of its loop. *)
Lemma process_highlights_completes (self : MoonHighlighter) (cache : gmap nat string)
    (w : World) (output_path : option Path) (use_fuzzy : bool)
    (doc : Document) (annots : list (nat * Annot)) (r : Report) (st : State) :
  fs w !! pdf_path self = Some (PdfFile doc annots) →
  get_highlights_from_db w self ≠ [] →
  highlights_loop self doc use_fuzzy (get_highlights_from_db w self)
    (mkReport (List.length (get_highlights_from_db w self)) 0 0 0)
    (mkState cache annots []) = (Some r, st) →
  save_fails w (default (default_output_path self) output_path) = false →
  ∃ w', process_highlights self cache w output_path use_fuzzy =
          Returned (Some (default (default_output_path self) output_path)) (Some r) w' st.
Proof.
  intros Hpdf Hne Hloop Hsave. unfold process_highlights.
  apply truthy_true in Hne. rewrite Hne, Hpdf, Hloop.
  replace (match output_path with Some p => p | None => default_output_path self end)
    with (default (default_output_path self) output_path)
    by (destruct output_path; reflexivity).
  rewrite Hsave. eauto.
Qed.

(** With the fuzzy search disabled the records that the locate step
    does not find are those without exact hit. *)
Lemma unlocated_without_fuzzy (self : MoonHighlighter) (doc : Document)
    (cache : gmap nat string) (highlights : list highlight_record) :
  unlocated self doc false cache highlights = unlocated_exact doc highlights.
Proof.
  unfold unlocated, unlocated_exact. f_equal. apply filter_ext. intros h.
  destruct (doc_hit_cases doc h.2) as [H|(before & d & after & quads & Hd & Hb & Hs & Hne)].
  - rewrite locate_no_exact by exact H. simpl.
    apply has_exact_hit_false in H. rewrite H. reflexivity.
  - erewrite locate_exact_hit by eauto. simpl.
    rewrite (has_exact_hit_true doc before after d quads h.2 Hd Hs Hne).
    apply truthy_true in Hne. rewrite Hne. reflexivity.
Qed.

(** A record whose text has no exact hit on any page is never counted as
    found and never annotated, whatever the fuzzy pass finds for it. *)
Lemma record_without_exact_hit_not_found (self : MoonHighlighter) (doc : Document)
    (use_fuzzy : bool) (h : highlight_record) (r : Report) (st : State) :
  Forall (fun d => no_hits d h.2) doc →
  ∃ res st', process_highlight self doc use_fuzzy h r st = (res, st') ∧
    (res = None ∨ res = Some (count_not_found r)) ∧ doc_annots st' = doc_annots st.
Proof.
  intros Hnone.
  destruct (process_highlight_cases self doc use_fuzzy h r st)
    as (res & st' & Hrun & [[Hres Ha]|[_ (n & d & qs & Hd & Hhit & _)]]).
  - eauto.
  - exfalso. apply Hhit. rewrite Forall_lookup in Hnone. exact (Hnone n d Hd).
Qed.

(** The fuzzy counter of every printed report is zero. *)
Lemma fuzzy_counter_stays_zero (self : MoonHighlighter) (cache : gmap nat string)
    (w : World) (output_path : option Path) (use_fuzzy : bool)
    (file : option Path) (r : Report) (w' : World) (st : State) :
  process_highlights self cache w output_path use_fuzzy = Returned file (Some r) w' st →
  fuzzy_highlights r = 0%nat.
Proof.
  intros Hrun. apply process_highlights_report in Hrun as (doc & annots & _ & Hloop).
  apply highlights_loop_counters in Hloop as (_ & Hf & _). exact Hf.
Qed.

(** C10: in every printed report found + not found = total and
    fuzzy <= found; every record that is processed leaves the total
    alone and adds one to exactly one of the found and not-found
    counters, the fuzzy counter moving only together with the found
    counter; and the report is printed for every non-empty batch whose
    document opens, whose searches return and whose save succeeds. *)
Theorem report_counters_consistent (self : MoonHighlighter) (cache : gmap nat string)
    (w : World) (output_path : option Path) (use_fuzzy : bool) :
  (∀ file r w' st,
     process_highlights self cache w output_path use_fuzzy = Returned file (Some r) w' st →
     (found_highlights r + not_found_highlights r = total_highlights r)%nat ∧
     (fuzzy_highlights r <= found_highlights r)%nat) ∧
  (∀ doc h r st r' st',
     process_highlight self doc use_fuzzy h r st = (Some r', st') →
     total_highlights r' = total_highlights r ∧
     ((found_highlights r' = S (found_highlights r) ∧
       not_found_highlights r' = not_found_highlights r ∧
       (fuzzy_highlights r <= fuzzy_highlights r' <= S (fuzzy_highlights r))%nat) ∨
      (found_highlights r' = found_highlights r ∧
       not_found_highlights r' = S (not_found_highlights r) ∧
       fuzzy_highlights r' = fuzzy_highlights r))) ∧
  (∀ doc annots,
     fs w !! pdf_path self = Some (PdfFile doc annots) →
     get_highlights_from_db w self ≠ [] →
     (∀ h, h ∈ get_highlights_from_db w self → searches_return doc h.2) →
     save_fails w (default (default_output_path self) output_path) = false →
     ∃ r w' st,
       process_highlights self cache w output_path use_fuzzy =
         Returned (Some (default (default_output_path self) output_path)) (Some r) w' st).
Proof.
  split; [|split].
  - intros file r w' st Hrun.
    apply process_highlights_report in Hrun as (doc & annots & _ & Hloop).
    apply highlights_loop_counters in Hloop as (Ht & Hf & Hsum). simpl in *. lia.
  - intros doc h r st r' st' Hrun.
    destruct (process_highlight_cases self doc use_fuzzy h r st)
      as (res & st1 & Hrun' & Hcases).
    rewrite Hrun in Hrun'. injection Hrun' as <- <-.
    destruct Hcases as [[[H|H] _]|[H _]]; [discriminate| |]; injection H as ->; simpl.
    + split; [reflexivity|]. right. auto.
    + split; [reflexivity|]. left. repeat split; lia.
  - intros doc annots Hpdf Hne Hret Hsave.
    destruct (highlights_loop_total self doc use_fuzzy (get_highlights_from_db w self)
      (mkReport (List.length (get_highlights_from_db w self)) 0 0 0)
      (mkState cache annots []) Hret) as (r & st & Hloop).
    destruct (process_highlights_completes self cache w output_path use_fuzzy
      doc annots r st Hpdf Hne Hloop Hsave) as (w' & Hrun).
    eauto.
Qed.

(** C8, amended: a non-empty batch of N records processed with the fuzzy
    search disabled, on a document that opens and whose searches return,
    is processed to the end, and the report has total = N,
    found + notFound = N and notFound = K + F, where K records are not
    located (they have no exact hit on any page) and F located records
    have an annotation that raises, which is caught and counted as not
    found; so notFound = K when no annotation raises. *)
Theorem batch_not_found_count (self : MoonHighlighter) (cache : gmap nat string)
    (w : World) (output_path : option Path) (doc : Document)
    (annots : list (nat * Annot)) :
  fs w !! pdf_path self = Some (PdfFile doc annots) →
  get_highlights_from_db w self ≠ [] →
  (∀ h, h ∈ get_highlights_from_db w self → searches_return doc h.2) →
  save_fails w (default (default_output_path self) output_path) = false →
  ∃ r w' st,
    process_highlights self cache w output_path false =
      Returned (Some (default (default_output_path self) output_path)) (Some r) w' st ∧
    total_highlights r = List.length (get_highlights_from_db w self) ∧
    (found_highlights r + not_found_highlights r =
       List.length (get_highlights_from_db w self))%nat ∧
    (not_found_highlights r =
       unlocated self doc false cache (get_highlights_from_db w self)
       + failed_annotations doc (get_highlights_from_db w self))%nat ∧
    unlocated self doc false cache (get_highlights_from_db w self) =
      unlocated_exact doc (get_highlights_from_db w self).
Proof.
  intros Hpdf Hne Hret Hsave.
  destruct (highlights_loop_exact self doc (get_highlights_from_db w self)
    (mkReport (List.length (get_highlights_from_db w self)) 0 0 0)
    (mkState cache annots []) Hret) as (r & st & Hloop & Hnf).
  destruct (process_highlights_completes self cache w output_path false
    doc annots r st Hpdf Hne Hloop Hsave) as (w' & Hrun).
  apply highlights_loop_counters in Hloop as (Ht & _ & Hsum). simpl in *.
  exists r, w', st. rewrite unlocated_without_fuzzy.
  repeat split; auto; lia.
Qed.

(** C3, amended: during the loop over the highlights, for a page index
    whose text extraction does not raise, [page.get_text()] is called at
    most once, and not at all if the text of the page is already in the
    cache: the plain text is cached by page index.  The word list is not
    cached: every fuzzy lookup of the page calls
    [page.get_text("words")] once more. *)
Theorem page_text_cached_words_not (self : MoonHighlighter) (doc : Document)
    (use_fuzzy : bool) (highlights : list highlight_record) (r : Report) (st : State)
    (n : nat) :
  text_returns doc n →
  (∃ l, calls (highlights_loop self doc use_fuzzy highlights r st).2 = (calls st ++ l)%list ∧
        (count_get_text n l <= 1)%nat ∧
        (is_Some (text_cache st !! n) → count_get_text n l = 0%nat)) ∧
  (∀ d text st1, doc !! n = Some d →
     ∃ l, calls (find_text_fuzzy self (mkPage n d) text st1).2 = (calls st1 ++ l)%list ∧
          count_get_words n l = 1%nat).
Proof.
  intros Hret. split.
  - destruct (highlights_loop_text_once n self doc use_fuzzy highlights r Hret st)
      as (l & Hl & _ & Hz & Ho).
    exists l. split; [exact Hl|]. split; [lia|exact Hz].
  - intros d text st1 Hd.
    apply (find_text_fuzzy_words self (mkPage n d) text st1).
    right. simpl. apply Hret, Hd.
Qed.

(** C9: with no explicit output path the output is written to the file
    [stem + "_highlighted" + suffix] in the directory of the input,
    where [stem + suffix] is the name of the input; this is never the
    path of the input, whose file is the same after the run as before,
    as is every file other than the output; and a run that returns a
    path returns this one, after writing there the pages of the input
    with its annotations and the added ones. *)
Theorem default_output_is_new_file (self : MoonHighlighter) (cache : gmap nat string)
    (w : World) (use_fuzzy : bool) :
  let out := default_output_path self in
  let o := process_highlights self cache w None use_fuzzy in
  path_parent out = path_parent (pdf_path self) ∧
  path_name out = path_stem (pdf_path self) ++ "_highlighted" ++ path_suffix (pdf_path self) ∧
  path_stem (pdf_path self) ++ path_suffix (pdf_path self) = path_name (pdf_path self) ∧
  out ≠ pdf_path self ∧
  fs (outcome_world o) !! pdf_path self = fs w !! pdf_path self ∧
  (∀ p, p ≠ out → fs (outcome_world o) !! p = fs w !! p) ∧
  (∀ p, outcome_file o = Some p →
     p = out ∧
     ∃ doc annots new,
       fs w !! pdf_path self = Some (PdfFile doc annots) ∧
       fs (outcome_world o) !! out = Some (PdfFile doc (annots ++ new))).
Proof.
  intros out o.
  split; [apply default_output_parent|].
  split; [apply default_output_name|].
  split; [apply stem_suffix_name|].
  split; [apply default_output_fresh|].
  destruct (process_highlights_world self cache w None use_fuzzy)
    as [(Hw & Hf & _)|(doc & annots & new & r & st & Hpdf & Ho)]; fold o in Hw, Hf || fold o in Ho.
  - rewrite Hw, Hf. split; [reflexivity|]. split; [reflexivity|discriminate].
  - simpl in Ho. fold out in Ho. rewrite Ho. simpl.
    split; [apply lookup_insert_ne, default_output_fresh|].
    split; [intros p Hp; apply lookup_insert_ne; congruence|].
    intros p [= <-]. split; [reflexivity|].
    exists doc, annots, new. split; [exact Hpdf|apply lookup_insert_eq].
Qed.

End BatchClaims.

(** ** Runs on the example data *)

(** C1 fails on the code.  The batch holds the one record "foobaz"; the
    page holds the token "foobar", with no exact hit for "foobaz" and the
    score 83 >= 80.  The locate step returns the quad of the token as a
    fuzzy match, but the annotation step keeps only quads that are among
    the exact hits of a page, of which there are none: nothing is
    annotated and the report counts the record as not found, with the
    fuzzy counter at 0. *)
Theorem fuzzy_match_reported_not_found :
  let doc := [Examples.page_foobar] in
  let w := Examples.world_of doc [Examples.note (-256) "foobaz"] in
  let o := process_highlights (Lib := Examples.example_lib) Examples.self ∅ w None true in
  get_highlights_from_db w Examples.self = [(-256, 6, "foobaz")] ∧
  Forall (fun d => no_hits d "foobaz") doc ∧
  collect_similar (Lib := Examples.example_lib) Examples.self "foobaz" [Examples.w_foobar] =
    [(Examples.w_foobar, 83)] ∧
  (locate (Lib := Examples.example_lib) Examples.self doc "foobaz" true Examples.st0).1 =
    Some ([word_quad Examples.w_foobar], true) ∧
  outcome_report o = Some (mkReport 1 0 0 1) ∧
  outcome_file o = Some (mkPath "/" ["books"; "novel_highlighted.pdf"]) ∧
  doc_annots (outcome_state o) = [].
Proof.
  cbv zeta. split; [reflexivity|]. split; [repeat constructor|].
  repeat split; vm_compute; reflexivity.
Qed.

(** C8, as stated, fails, in two ways.  With the fuzzy search disabled,
    the one record "hello" of the first batch is located on a page whose
    annotation raises: K = 0 and the report has notFound = 1.  With the
    fuzzy search enabled, both records of the second batch are located
    ("hello" by the exact pass, "foobaz" by the fuzzy pass): K = 0 and the
    report has notFound = 1. *)
Lemma located_records_counted_not_found :
  (let doc := [Examples.page_sealed] in
   let w := Examples.world_of doc [Examples.note 1996532479 "hello"] in
   let hs := get_highlights_from_db w Examples.self in
   hs = [(1996532479, 5, "hello")] ∧
   unlocated (Lib := Examples.example_lib) Examples.self doc false ∅ hs = 0%nat ∧
   outcome_report
     (process_highlights (Lib := Examples.example_lib) Examples.self ∅ w None false) =
     Some (mkReport 1 0 0 1) ∧
   not_found_highlights (mkReport 1 0 0 1) ≠
     unlocated (Lib := Examples.example_lib) Examples.self doc false ∅ hs) ∧
  (let doc := [Examples.page_hello; Examples.page_foobar] in
   let w := Examples.world_of doc
              [Examples.note 1996532479 "hello"; Examples.note (-256) "foobaz"] in
   let hs := get_highlights_from_db w Examples.self in
   hs = [(1996532479, 5, "hello"); (-256, 6, "foobaz")] ∧
   unlocated (Lib := Examples.example_lib) Examples.self doc true ∅ hs = 0%nat ∧
   outcome_report
     (process_highlights (Lib := Examples.example_lib) Examples.self ∅ w None true) =
     Some (mkReport 2 1 0 1) ∧
   not_found_highlights (mkReport 2 1 0 1) ≠
     unlocated (Lib := Examples.example_lib) Examples.self doc true ∅ hs).
Proof.
  cbv zeta. split.
  - split; [reflexivity|]. split; [vm_compute; reflexivity|].
    split; [vm_compute; reflexivity|]. vm_compute. discriminate.
  - split; [reflexivity|]. split; [vm_compute; reflexivity|].
    split; [vm_compute; reflexivity|]. vm_compute. discriminate.
Qed.

(** The search of the annotation step is outside every [try]: when the
    search of the first page raises, the exact pass skips the page and
    finds the text on the second page, and the annotation step then
    raises on the first page; the exception leaves [process_highlights]
    and nothing is saved. *)
Lemma search_exception_aborts_batch :
  let doc := [Examples.page_broken; Examples.page_hello] in
  let w := Examples.world_of doc [Examples.note 1996532479 "hello"] in
  (locate (Lib := Examples.example_lib) Examples.self doc "hello" false Examples.st0).1 =
    Some ([Examples.hit_of Examples.w_hello], false) ∧
  process_highlights (Lib := Examples.example_lib) Examples.self ∅ w None false =
    Uncaught w Examples.st0.
Proof. cbv zeta. split; vm_compute; reflexivity. Qed.

(** C3, as stated, fails: two records are looked up by the fuzzy pass on
    the one page of the document; its text is extracted once, its word
    list twice. *)
Lemma words_extracted_at_every_lookup :
  let w := Examples.world_of [Examples.page_foobar]
             [Examples.note (-256) "foobaz"; Examples.note (-256) "quux"] in
  let o := process_highlights (Lib := Examples.example_lib) Examples.self ∅ w None true in
  outcome_report o = Some (mkReport 2 0 0 2) ∧
  calls (outcome_state o) = [CallGetText 0; CallGetWords 0; CallGetWords 0] ∧
  count_get_text 0 (calls (outcome_state o)) = 1%nat ∧
  count_get_words 0 (calls (outcome_state o)) = 2%nat.
Proof. cbv zeta. repeat split; vm_compute; reflexivity. Qed.

(** Witness of [report_counters_consistent]. *)
Lemma report_counters_consistent_witness :
  let w := Examples.world_of [Examples.page_hello; Examples.page_foobar]
             [Examples.note 1996532479 "hello"; Examples.note (-256) "foobaz"] in
  ∃ r w' st,
    process_highlights (Lib := Examples.example_lib) Examples.self ∅ w None true =
      Returned (Some (default_output_path Examples.self)) (Some r) w' st ∧
    (found_highlights r + not_found_highlights r = total_highlights r)%nat ∧
    (fuzzy_highlights r <= found_highlights r)%nat.
Proof.
  intros w.
  destruct (report_counters_consistent (Lib := Examples.example_lib) Examples.self ∅ w
              None true) as (Hreport & _ & Hcompletes).
  destruct (Hcompletes [Examples.page_hello; Examples.page_foobar] [])
    as (r & w' & st & Hrun).
  - reflexivity.
  - discriminate.
  - intros h _. repeat constructor; eexists; reflexivity.
  - reflexivity.
  - exists r, w', st. split; [exact Hrun|]. exact (Hreport _ _ _ _ Hrun).
Defined.

(** Witness of [batch_not_found_count]: of the two records "hello" is
    located and annotated, "foobaz" is not located. *)
Lemma batch_not_found_count_witness :
  let doc := [Examples.page_hello; Examples.page_foobar] in
  let w := Examples.world_of doc
             [Examples.note 1996532479 "hello"; Examples.note (-256) "foobaz"] in
  ∃ r w' st,
    process_highlights (Lib := Examples.example_lib) Examples.self ∅ w None false =
      Returned (Some (default_output_path Examples.self)) (Some r) w' st ∧
    total_highlights r = 2%nat ∧
    (not_found_highlights r =
       unlocated (Lib := Examples.example_lib) Examples.self doc false ∅
         (get_highlights_from_db w Examples.self)
       + failed_annotations doc (get_highlights_from_db w Examples.self))%nat.
Proof.
  intros doc w.
  destruct (batch_not_found_count (Lib := Examples.example_lib) Examples.self ∅ w None doc [])
    as (r & w' & st & Hrun & Htotal & _ & Hnf & _).
  - reflexivity.
  - discriminate.
  - intros h _. repeat constructor; eexists; reflexivity.
  - reflexivity.
  - exists r, w', st. auto.
Defined.

(** Witness of [page_text_cached_words_not]. *)
Lemma page_text_cached_words_not_witness :
  ∃ l, calls (highlights_loop (Lib := Examples.example_lib) Examples.self
                [Examples.page_foobar] true
                [(-256, 6, "foobaz"); (-256, 4, "quux")] (mkReport 2 0 0 0)
                Examples.st0).2 = ([] ++ l)%list ∧
       (count_get_text 0 l <= 1)%nat.
Proof.
  destruct (page_text_cached_words_not (Lib := Examples.example_lib) Examples.self
              [Examples.page_foobar] true [(-256, 6, "foobaz"); (-256, 4, "quux")]
              (mkReport 2 0 0 0) Examples.st0 0) as ((l & Hl & Hle & _) & _).
  - intros d [= <-]. eexists. reflexivity.
  - exists l. split; [exact Hl|exact Hle].
Defined.

(** Witness of [default_output_is_new_file]: the run writes
    [/books/novel_highlighted.pdf] and leaves [/books/novel.pdf] alone. *)
Lemma default_output_is_new_file_witness :
  let w := Examples.world_of [Examples.page_hello] [Examples.note 1996532479 "hello"] in
  let o := process_highlights (Lib := Examples.example_lib) Examples.self ∅ w None true in
  default_output_path Examples.self = mkPath "/" ["books"; "novel_highlighted.pdf"] ∧
  outcome_file o = Some (default_output_path Examples.self) ∧
  fs (outcome_world o) !! Examples.pdf = fs w !! Examples.pdf ∧
  fs (outcome_world o) !! Examples.db = fs w !! Examples.db.
Proof.
  intros w o.
  pose proof (default_output_is_new_file (Lib := Examples.example_lib) Examples.self ∅ w true)
    as H.
  cbv zeta in H. destruct H as (_ & _ & _ & _ & Hpdf & Hother & _).
  split; [reflexivity|]. split; [vm_compute; reflexivity|].
  split; [exact Hpdf|]. apply Hother. discriminate.
Defined.


(** * Further properties *)

(** ** The colour mapper *)

Lemma color_map_in_table (c : Z) (v : RGB) :
  color_map !! c = Some v →
  c = 1996532479 ∨ c = -1996554240 ∨ c = 2013265664 ∨ c = -256 ∨ c = 16711680.
Proof.
  intros H.
  destruct (Z.eq_dec c 1996532479); [auto|].
  destruct (Z.eq_dec c (-1996554240)); [auto|].
  destruct (Z.eq_dec c 2013265664); [auto|].
  destruct (Z.eq_dec c (-256)); [auto|].
  destruct (Z.eq_dec c 16711680); [auto 6|].
  rewrite color_map_None in H by assumption. discriminate.
Qed.

Lemma over255_unit (n : Z) : 0 <= n < 256 → (0 <= over255 n <= 1)%Q.
Proof.
  intros Hn. unfold over255, Qle, Qdiv, Qmult, Qinv. simpl. lia.
Qed.

Lemma over255_eq (a b : Z) : (over255 a == over255 b)%Q ↔ a = b.
Proof.
  unfold over255, Qeq, Qdiv, Qmult, Qinv. simpl. lia.
Qed.

Lemma mod256_range (n : Z) : 0 <= n mod 256 < 256.
Proof. apply Z.mod_pos_bound. lia. Qed.

(** X1: every colour that [map_color] returns, for any integer, has its
    three channels between 0 and 1. *)
Theorem map_color_unit (c : Z) : unit_rgb (map_color c).
Proof.
  destruct (color_map !! c) as [v|] eqn:Hc.
  - apply color_map_in_table in Hc as [->|[->|[->|[->| ->]]]];
      vm_compute; repeat split; discriminate.
  - rewrite map_color_fallback by exact Hc. unfold unit_rgb. simpl.
    repeat split; apply over255_unit, mod256_range.
Qed.

Lemma low24_bytes (c : Z) :
  c mod 2 ^ 24 = c mod 256 + 256 * (Z.shiftr c 8 mod 256) + 65536 * (Z.shiftr c 16 mod 256).
Proof.
  rewrite !Z.shiftr_div_pow2 by lia.
  change (2 ^ 24) with (256 * 65536).
  rewrite Z.rem_mul_r by lia.
  change 65536 with (256 * 256) at 1.
  rewrite Z.rem_mul_r by lia.
  change (2 ^ 16) with (256 * 256). rewrite <- Z.div_div by lia.
  change (2 ^ 8) with 256. lia.
Qed.

Lemma low24_bytes_eq (a b : Z) :
  a mod 2 ^ 24 = b mod 2 ^ 24 ↔
  a mod 256 = b mod 256 ∧ Z.shiftr a 8 mod 256 = Z.shiftr b 8 mod 256 ∧
  Z.shiftr a 16 mod 256 = Z.shiftr b 16 mod 256.
Proof.
  rewrite !low24_bytes.
  pose proof (mod256_range a). pose proof (mod256_range b).
  pose proof (mod256_range (Z.shiftr a 8)). pose proof (mod256_range (Z.shiftr b 8)).
  pose proof (mod256_range (Z.shiftr a 16)). pose proof (mod256_range (Z.shiftr b 16)).
  lia.
Qed.

(** X2: for two codes outside the table the fallback colours are equal
    exactly when the codes have the same low 24 bits: the colour is a
    function of these bits and loses none of them. *)
Theorem fallback_color_low24 (c1 c2 : Z) :
  color_map !! c1 = None → color_map !! c2 = None →
  (rgb_eq (map_color c1) (map_color c2) ↔ c1 mod 2 ^ 24 = c2 mod 2 ^ 24).
Proof.
  intros H1 H2. rewrite !map_color_fallback by assumption.
  unfold rgb_eq. simpl. rewrite !over255_eq. symmetry. apply low24_bytes_eq.
Qed.

(** Witness of [fallback_color_low24]: -2 and 16777214 = 2^24 - 2. *)
Lemma fallback_color_low24_witness : rgb_eq (map_color (-2)) (map_color 16777214).
Proof.
  apply (fallback_color_low24 (-2) 16777214); reflexivity.
Defined.

Lemma hex_digit_value (d : Z) :
  0 <= d < 16 → hex_value (MoonHighlighterSimple.hex_digit d) = Some d.
Proof.
  intros Hd.
  assert (d = 0 ∨ d = 1 ∨ d = 2 ∨ d = 3 ∨ d = 4 ∨ d = 5 ∨ d = 6 ∨ d = 7 ∨ d = 8 ∨
          d = 9 ∨ d = 10 ∨ d = 11 ∨ d = 12 ∨ d = 13 ∨ d = 14 ∨ d = 15) as H by lia.
  repeat (destruct H as [->|H]; [reflexivity|]). subst. reflexivity.
Qed.

Lemma hex02_byte (n : Z) (rest : string) :
  0 <= n < 256 →
  ∃ hi lo, MoonHighlighterSimple.hex02 n ++ rest = String hi (String lo rest) ∧
           hex_byte hi lo = Some n.
Proof.
  intros Hn. exists (MoonHighlighterSimple.hex_digit (n / 16)),
    (MoonHighlighterSimple.hex_digit (n mod 16)).
  split; [reflexivity|]. unfold hex_byte.
  rewrite !hex_digit_value.
  - f_equal. pose proof (Z.div_mod n 16). lia.
  - apply Z.mod_pos_bound. lia.
  - split; [apply Z.div_pos; lia|apply Z.div_lt_upper_bound; lia].
Qed.

Lemma simple_color_map_in_table (c : Z) (v : string) :
  MoonHighlighterSimple.color_map !! c = Some v →
  c = 1996532479 ∨ c = -1996554240 ∨ c = 2013265664 ∨ c = -256 ∨ c = 16711680.
Proof.
  intros H. destruct (color_map !! c) as [rgb|] eqn:Hc.
  - eapply color_map_in_table, Hc.
  - rewrite (simple_color_map_None c Hc) in H. discriminate.
Qed.

(** X3: the two variants of [map_color] agree on every integer: the
    string of the simple variant is [#] and six hexadecimal digits, and
    its three bytes over 255 are the channels of the triple of the main
    variant. *)
Theorem map_color_variants_agree (c : Z) :
  ∃ r g b,
    decode_hex_color (MoonHighlighterSimple.map_color c) = Some (r, g, b) ∧
    0 <= r < 256 ∧ 0 <= g < 256 ∧ 0 <= b < 256 ∧
    rgb_eq (map_color c) (over255 r, over255 g, over255 b).
Proof.
  destruct (color_map !! c) as [v|] eqn:Hc.
  - apply color_map_in_table in Hc as [->|[->|[->|[->| ->]]]].
    + exists 255, 255, 0. repeat split; try lia; vm_compute; reflexivity.
    + exists 0, 255, 0. repeat split; try lia; vm_compute; reflexivity.
    + exists 0, 0, 255. repeat split; try lia; vm_compute; reflexivity.
    + exists 255, 0, 0. repeat split; try lia; vm_compute; reflexivity.
    + exists 255, 0, 255. repeat split; try lia; vm_compute; reflexivity.
  - exists (c mod 256), (Z.shiftr c 8 mod 256), (Z.shiftr c 16 mod 256).
    split.
    + rewrite simple_map_color_fallback by exact Hc.
      destruct (hex02_byte (Z.shiftr c 16 mod 256) "" (mod256_range _))
        as (b1 & b2 & Hb & Hbv).
      destruct (hex02_byte (Z.shiftr c 8 mod 256)
                  (MoonHighlighterSimple.hex02 (Z.shiftr c 16 mod 256))
                  (mod256_range _)) as (g1 & g2 & Hg & Hgv).
      destruct (hex02_byte (c mod 256)
                  (MoonHighlighterSimple.hex02 (Z.shiftr c 8 mod 256) ++
                   MoonHighlighterSimple.hex02 (Z.shiftr c 16 mod 256))
                  (mod256_range _)) as (r1 & r2 & Hr & Hrv).
      change ("#" ++ ?x) with (String "#" x).
      rewrite Hr, Hg. rewrite <- (str_app_empty (MoonHighlighterSimple.hex02 _)), Hb.
      simpl. rewrite Hrv, Hgv, Hbv. reflexivity.
    + pose proof (mod256_range c). pose proof (mod256_range (Z.shiftr c 8)).
      pose proof (mod256_range (Z.shiftr c 16)).
      repeat split; try lia; rewrite map_color_fallback by exact Hc; simpl; reflexivity.
Qed.


(** ** The text cache *)

(** X4: once [extract_page_text] has returned the text of a page, a
    further call for any page with the same number returns the same text
    and changes nothing: the library is not called again.  The cache is
    keyed by the page number alone. *)
Theorem extract_page_text_cached (page page' : Page) (st st1 : State) (t : string) :
  extract_page_text page st = (Some t, st1) →
  number page' = number page →
  extract_page_text page' st1 = (Some t, st1).
Proof.
  intros Hrun Hnum.
  assert (Hc : text_cache st1 !! number page = Some t).
  { unfold extract_page_text in Hrun. rewrite bind_run in Hrun. simpl in Hrun.
    destruct (text_cache st !! number page) as [t0|] eqn:Hst; simpl in Hrun.
    - injection Hrun as <- <-. exact Hst.
    - rewrite !bind_run in Hrun. simpl in Hrun.
      destruct (get_text (page_data page)) as [t0|]; simpl in Hrun; [|discriminate].
      rewrite !bind_run in Hrun. simpl in Hrun.
      injection Hrun as <- <-. simpl. apply lookup_insert_eq. }
  unfold extract_page_text. rewrite bind_run. simpl. rewrite Hnum, Hc. reflexivity.
Qed.

(** Witness of [extract_page_text_cached]: the text of page 0 of one
    document is returned for page 0 of another. *)
Lemma extract_page_text_cached_witness :
  let st1 := (extract_page_text (mkPage 0 Examples.page_hello) Examples.st0).2 in
  extract_page_text (mkPage 0 Examples.page_foobar) st1 = (Some "hello world", st1).
Proof.
  apply (extract_page_text_cached (mkPage 0 Examples.page_hello)
           (mkPage 0 Examples.page_foobar) Examples.st0); reflexivity.
Defined.

#[global] Instance cache_kept_preorder (doc : Document) : PreOrder (cache_kept doc).
Proof.
  split.
  - intros st H. exact H.
  - intros a b c H1 H2 H. apply H2, H1, H.
Qed.

#[global] Instance same_reads_preorder : PreOrder same_reads.
Proof.
  split.
  - intros st. split; reflexivity.
  - intros a b c [H1 H2] [H3 H4]. split; congruence.
Qed.

Lemma extract_page_text_cache_kept (doc : Document) (page : Page) :
  page ∈ doc_pages doc → preserves (cache_kept doc) (extract_page_text page).
Proof.
  intros Hp st. apply doc_pages_elem in Hp.
  unfold extract_page_text. rewrite bind_run. simpl.
  destruct (text_cache st !! number page) as [t|] eqn:Hc; simpl; [reflexivity|].
  rewrite !bind_run. simpl.
  destruct (get_text (page_data page)) as [t|] eqn:Ht; simpl.
  - intros Hcons n t' Hn. simpl in Hn.
    destruct (decide (number page = n)) as [<-|Hne].
    + rewrite lookup_insert_eq in Hn. injection Hn as <-. eauto.
    + rewrite lookup_insert_ne in Hn by exact Hne. apply Hcons, Hn.
  - intros Hcons. exact Hcons.
Qed.

Lemma annotate_loop_same_reads (pages : list Page) (found_quads : list Quad)
    (fuzzy_used : bool) (color : RGB) (text : string) (r : Report) :
  preserves same_reads (annotate_loop pages found_quads fuzzy_used color text r).
Proof.
  intros st.
  destruct (annotate_loop_cases pages found_quads fuzzy_used color text r st)
    as [Hc|[Hc|(p & qs & _ & _ & _ & _ & Hc)]]; rewrite Hc; split; reflexivity.
Qed.

(** ** The fuzzy search of a page *)

Lemma insert_by_score_descending {A} (x : A * Z) (l : list (A * Z)) :
  descending l → descending (insert_by_score x l).
Proof.
  induction l as [|y l IH]; simpl.
  - intros _. split; [intros z Hz; inversion Hz|exact I].
  - intros [Hy Hl]. destruct (Z.ltb_spec x.2 y.2) as [Hlt|Hge]; simpl.
    + split; [|apply IH, Hl].
      intros z Hz. apply insert_by_score_elem in Hz as [->|Hz]; [lia|auto].
    + split; [|split; assumption].
      intros z Hz. apply elem_of_cons in Hz as [->|Hz]; [lia|].
      specialize (Hy z Hz). lia.
Qed.

Lemma sort_by_score_descending {A} (l : list (A * Z)) : descending (sort_by_score l).
Proof.
  induction l as [|x l IH]; simpl; [exact I|]. apply insert_by_score_descending, IH.
Qed.

Lemma take_elem {A} (x : A) (n : nat) (l : list A) : x ∈ take n l → x ∈ l.
Proof.
  intros H. apply elem_of_take in H as (i & Hi & _).
  apply list_elem_of_lookup. eauto.
Qed.

Lemma descending_take {A} (n : nat) (l : list (A * Z)) :
  descending l → descending (take n l).
Proof.
  revert n. induction l as [|x l IH]; intros [|n]; simpl; auto.
  intros [Hx Hl]. split; [|apply IH, Hl].
  intros y Hy. apply Hx. eapply take_elem, Hy.
Qed.

Lemma descending_map {A B} (f : A → B) (l : list (A * Z)) :
  descending l → descending (map (fun x : A * Z => (f x.1, x.2)) l).
Proof.
  induction l as [|x l IH]; simpl; [auto|].
  intros [Hx Hl]. split; [|apply IH, Hl].
  intros y Hy. apply list_elem_of_fmap in Hy as (z & -> & Hz). simpl. apply Hx, Hz.
Qed.

(** The head of the sorted list is the first element of the list with
    the highest score. *)
Lemma sort_by_score_first_max {A} (l : list (A * Z)) (h : A * Z) (t : list (A * Z)) :
  sort_by_score l = h :: t →
  ∃ pre post, l = (pre ++ h :: post)%list ∧
    (∀ y, y ∈ pre → y.2 < h.2) ∧ (∀ y, y ∈ post → y.2 <= h.2).
Proof.
  revert h t. induction l as [|x l IH]; intros h t Hsort; [discriminate|].
  simpl in Hsort.
  destruct (sort_by_score l) as [|h' t'] eqn:Hl.
  - simpl in Hsort. injection Hsort as <- <-.
    destruct l as [|y l].
    + exists [], []. split; [reflexivity|]. split; intros y Hy; inversion Hy.
    + exfalso. assert (Hy : y ∈ sort_by_score (y :: l)) by (apply sort_by_score_elem; left).
      rewrite Hl in Hy. inversion Hy.
  - destruct (IH h' t' eq_refl) as (pre & post & -> & Hpre & Hpost).
    simpl in Hsort. destruct (Z.ltb_spec x.2 h'.2) as [Hlt|Hge]; injection Hsort as <- <-.
    + exists (x :: pre), post. split; [reflexivity|]. split; [|exact Hpost].
      intros y Hy. apply elem_of_cons in Hy as [->|Hy]; [exact Hlt|auto].
    + exists [], (pre ++ h' :: post)%list. split; [reflexivity|].
      split; [intros y Hy; inversion Hy|].
      intros y Hy. apply elem_of_app in Hy as [Hy|Hy].
      * specialize (Hpre y Hy). lia.
      * apply elem_of_cons in Hy as [->|Hy]; [lia|]. specialize (Hpost y Hy). lia.
Qed.

Section FuzzyProperties.
Context `{Lib : Library}.

Lemma collect_similar_app (self : MoonHighlighter) (text : string) (l1 l2 : list Word) :
  collect_similar self text (l1 ++ l2) =
    (collect_similar self text l1 ++ collect_similar self text l2)%list.
Proof.
  induction l1 as [|w l1 IH]; simpl; [reflexivity|].
  destruct (3 <? String.length (word_text w))%nat; [|exact IH].
  destruct (fuzzy_threshold self <=? _)%Z; [|exact IH].
  simpl. f_equal. exact IH.
Qed.

(** A split of the candidates comes from a split of the words. *)
Lemma collect_similar_split (self : MoonHighlighter) (text : string) (words : list Word)
    (pre : list (Word * Z)) (c : Word * Z) (post : list (Word * Z)) :
  collect_similar self text words = (pre ++ c :: post)%list →
  ∃ wpre wpost, words = (wpre ++ c.1 :: wpost)%list ∧
    collect_similar self text wpre = pre.
Proof.
  revert pre. induction words as [|w words IH]; intros pre Hc; simpl in Hc.
  - destruct pre; discriminate.
  - destruct ((3 <? String.length (word_text w))%nat &&
              (fuzzy_threshold self <=? partial_ratio (lower text) (lower (word_text w)))%Z)
      eqn:Hcand.
    + apply andb_true_iff in Hcand as [H1 H2]. rewrite H1, H2 in Hc.
      destruct pre as [|p pre]; simpl in Hc.
      * injection Hc as <- _. exists [], words. split; reflexivity.
      * injection Hc as <- Hc. destruct (IH pre Hc) as (wpre & wpost & -> & Hpre).
        exists (w :: wpre), wpost. split; [reflexivity|]. simpl. rewrite H1, H2, Hpre.
        reflexivity.
    + assert (Hskip : collect_similar self text (w :: words) = collect_similar self text words).
      { simpl. apply andb_false_iff in Hcand as [H|H]; rewrite H; [reflexivity|].
        destruct (3 <? _)%nat; reflexivity. }
      simpl in Hskip. rewrite Hskip in Hc.
      destruct (IH pre Hc) as (wpre & wpost & -> & Hpre).
      exists (w :: wpre), wpost. split; [reflexivity|].
      change (collect_similar self text ([w] ++ wpre) = pre).
      rewrite collect_similar_app.
      replace (collect_similar self text [w]) with (@nil (Word * Z)); [exact Hpre|].
      simpl. apply andb_false_iff in Hcand as [H|H]; rewrite H; [reflexivity|].
      destruct (3 <? _)%nat; reflexivity.
Qed.

(** What [find_text_fuzzy] returns when it returns results: the words of
    the page were read and the results are the first
    [max_fuzzy_results] candidates in sorted order. *)
Lemma find_text_fuzzy_results (self : MoonHighlighter) (page : Page) (text : string)
    (st : State) :
  (find_text_fuzzy self page text st).1 = Some [] ∨
  ∃ words, get_text_words (page_data page) = Some words ∧
    (find_text_fuzzy self page text st).1 =
      Some (map (fun ws : Word * Z => (word_quad ws.1, ws.2))
              (take (max_fuzzy_results self)
                 (sort_by_score (collect_similar self text words)))).
Proof.
  unfold find_text_fuzzy, try_except. rewrite bind_run.
  destruct (extract_page_text page st) as [[t|] st1]; [|left; reflexivity].
  rewrite !bind_run. simpl.
  destruct (get_text_words (page_data page)) as [words|]; simpl; [|left; reflexivity].
  right. exists words. split; reflexivity.
Qed.

(** X5: the results of [find_text_fuzzy] are at most [max_fuzzy_results],
    in order of non-increasing score, and each one is the quad of a word
    of the page with more than 3 characters, with the score of this word,
    which is at least the threshold. *)
Theorem find_text_fuzzy_shape (self : MoonHighlighter) (page : Page) (text : string)
    (st : State) :
  ∃ results, (find_text_fuzzy self page text st).1 = Some results ∧
    (List.length results <= max_fuzzy_results self)%nat ∧
    descending results ∧
    ∀ q s, (q, s) ∈ results →
      fuzzy_threshold self <= s ∧
      ∃ words word, get_text_words (page_data page) = Some words ∧ word ∈ words ∧
        q = word_quad word ∧ s = word_score text word ∧
        (3 < String.length (word_text word))%nat.
Proof.
  destruct (find_text_fuzzy_results self page text st) as [H|(words & Hw & H)].
  - exists []. split; [exact H|]. split; [simpl; lia|]. split; [exact I|].
    intros q s Hin. inversion Hin.
  - eexists. split; [exact H|]. split; [|split].
    + rewrite length_map, length_take. lia.
    + apply (descending_map word_quad), descending_take, sort_by_score_descending.
    + intros q s Hin. apply list_elem_of_fmap in Hin as ([word sc] & [= -> ->] & Hin).
      apply take_elem, sort_by_score_elem, collect_similar_elem in Hin
        as (Hin & Hlen & Hsc & Hthr).
      split; [exact Hthr|]. exists words, word. auto.
Qed.

(** X6: the first result of [find_text_fuzzy], the one the pipeline
    takes, belongs to the first word of the page, in the order of
    [get_text("words")], among those with the highest score: every longer
    than 3 characters word before it scores strictly less, every one after
    it at most as much. *)
Theorem find_text_fuzzy_first_best (self : MoonHighlighter) (page : Page) (text : string)
    (st : State) (q : Quad) (s : Z) (rest : list (Quad * Z)) :
  (find_text_fuzzy self page text st).1 = Some ((q, s) :: rest) →
  ∃ before word after,
    get_text_words (page_data page) = Some (before ++ word :: after)%list ∧
    q = word_quad word ∧ s = word_score text word ∧
    (∀ w, w ∈ before → (3 < String.length (word_text w))%nat → word_score text w < s) ∧
    (∀ w, w ∈ after → (3 < String.length (word_text w))%nat → word_score text w <= s).
Proof.
  intros Hrun.
  destruct (find_text_fuzzy_results self page text st) as [H|(words & Hw & H)];
    rewrite H in Hrun; [discriminate|].
  injection Hrun as Hrun.
  destruct (sort_by_score (collect_similar self text words)) as [|[word sc] sorted] eqn:Hsort.
  { rewrite take_nil in Hrun. discriminate. }
  destruct (max_fuzzy_results self); simpl in Hrun; [discriminate|].
  injection Hrun as <- <- _.
  pose proof Hsort as Hmem. apply sort_by_score_head in Hmem as [Hmem _].
  apply collect_similar_elem in Hmem as (_ & _ & Hsc & Hthr).
  apply sort_by_score_first_max in Hsort as (pre & post & Hsplit & Hpre & Hpost).
  destruct (collect_similar_split self text words pre (word, sc) post Hsplit)
    as (wpre & wpost & -> & Hcpre).
  exists wpre, word, wpost. split; [exact Hw|]. split; [reflexivity|].
  split; [exact Hsc|]. split.
  - intros w Hwin Hlen.
    destruct (Z.le_gt_cases (fuzzy_threshold self) (word_score text w)) as [Hc|Hc];
      [|simpl in *; lia].
    apply (Hpre (w, word_score text w)). rewrite <- Hcpre.
    apply collect_similar_elem. auto.
  - intros w Hwin Hlen.
    destruct (Z.le_gt_cases (fuzzy_threshold self) (word_score text w)) as [Hc|Hc];
      [|simpl in *; lia].
    assert (Hin : (w, word_score text w) ∈ collect_similar self text wpost).
    { apply collect_similar_elem. auto. }
    rewrite collect_similar_app in Hsplit. simpl in Hsplit.
    rewrite Hcpre in Hsplit. apply app_inv_head in Hsplit.
    assert (Hin' : (w, word_score text w) ∈ collect_similar self text (word :: wpost)).
    { change (word :: wpost) with ([word] ++ wpost)%list. rewrite collect_similar_app.
      apply elem_of_app. right. exact Hin. }
    simpl in Hsplit, Hin'. rewrite Hsplit in Hin'.
    apply elem_of_cons in Hin' as [Heq|Hin'].
    + injection Heq as -> Heq. simpl in *. lia.
    + apply (Hpost _ Hin').
Qed.

End FuzzyProperties.

(** Witness of [find_text_fuzzy_first_best]: on a page with the words
    "hello", "foobar" and "foobar" again, the two last score 83 against
    "foobaz"; the result starts with the first of the two, the word before
    it scores less and the word after it as much. *)
Lemma find_text_fuzzy_first_best_witness :
  (find_text_fuzzy (Lib := Examples.example_lib) Examples.self
     (mkPage 0 MoreExamples.page_tie) "foobaz" Examples.st0).1 =
    Some [(word_quad Examples.w_foobar, 83); (word_quad MoreExamples.w_foobar_again, 83)] ∧
  ∃ before word after,
    before = [Examples.w_hello] ∧ word = Examples.w_foobar ∧
    after = [MoreExamples.w_foobar_again] ∧
    get_text_words MoreExamples.page_tie = Some (before ++ word :: after)%list ∧
    word_score (Lib := Examples.example_lib) "foobaz" Examples.w_hello < 83 ∧
    word_score (Lib := Examples.example_lib) "foobaz" MoreExamples.w_foobar_again <= 83.
Proof.
  split; [reflexivity|].
  destruct (find_text_fuzzy_first_best (Lib := Examples.example_lib) Examples.self
              (mkPage 0 MoreExamples.page_tie) "foobaz" Examples.st0
              (word_quad Examples.w_foobar) 83
              [(word_quad MoreExamples.w_foobar_again, 83)])
    as (before & word & after & Hw & Hq & _ & Hbefore & Hafter); [reflexivity|].
  exists before, word, after.
  assert (Hsplit : before = [Examples.w_hello] ∧ word = Examples.w_foobar ∧
                   after = [MoreExamples.w_foobar_again]).
  { simpl in Hw. injection Hw as Hw.
    destruct before as [|b1 [|b2 [|b3 before]]]; simpl in Hw.
    - injection Hw as <- _. discriminate Hq.
    - injection Hw as <- <- <-. auto.
    - injection Hw as _ _ <- _. discriminate Hq.
    - injection Hw as _ _ _ Hw. destruct before; discriminate Hw. }
  destruct Hsplit as (-> & -> & ->).
  do 4 (split; [reflexivity|]).
  split.
  - apply Hbefore; [apply list_elem_of_here|simpl; lia].
  - apply Hafter; [apply list_elem_of_here|simpl; lia].
Defined.


(** ** The annotation step, again *)

(** When the annotation loop counts a record as found, the annotated
    quads are the found quads that are among the hits of the page. *)
Lemma annotate_loop_found (pages : list Page) (found_quads : list Quad) (fuzzy_used : bool)
    (color : RGB) (text : string) (r r' : Report) (st st' : State) :
  annotate_loop pages found_quads fuzzy_used color text r st = (Some r', st') →
  (r' = count_not_found r ∧ st' = st) ∨
  (r' = count_found fuzzy_used r ∧
   ∃ p hits qs, p ∈ pages ∧ search_for (page_data p) text = Some hits ∧ qs ≠ [] ∧
     qs = List.filter (fun q => existsb (fun h => quad_eqb h q) hits) found_quads ∧
     st' = with_annot st (number p) (mkAnnot qs color (note_content text))).
Proof.
  induction pages as [|p pages IH]; simpl.
  - intros [= <- <-]. left. auto.
  - rewrite bind_run.
    destruct (search_for (page_data p) text) as [hits|] eqn:Hs; simpl; [|discriminate].
    set (page_quads := List.filter _ found_quads).
    destruct (truthy page_quads) eqn:Ht.
    + apply truthy_true in Ht.
      rewrite bind_run, add_highlight_annotation_run by exact Ht.
      destruct (highlight_fails (page_data p) page_quads); intros [= <- <-].
      * left. auto.
      * right. split; [reflexivity|]. exists p, hits, page_quads.
        split; [left|]. auto.
    + intros Hrun. destruct (IH Hrun) as [H|(Hr & p' & hits' & qs & Hp & H)].
      * left. exact H.
      * right. split; [exact Hr|]. exists p', hits', qs. split; [right; exact Hp|exact H].
Qed.

Lemma annotate_loop_nothing (pages : list Page) (found_quads : list Quad)
    (fuzzy_used : bool) (color : RGB) (text : string) (r : Report) (st : State) :
  Forall (fun p => search_for (page_data p) text = Some []) pages →
  annotate_loop pages found_quads fuzzy_used color text r st = (Some (count_not_found r), st).
Proof.
  induction 1 as [|p pages Hp _ IH]; simpl; [reflexivity|].
  rewrite bind_run, Hp. simpl. rewrite filter_no_hits. simpl. exact IH.
Qed.

Lemma searches_empty (doc : Document) (text : string) :
  searches_return doc text → Forall (fun d => no_hits d text) doc →
  Forall (fun p => search_for (page_data p) text = Some []) (doc_pages doc).
Proof.
  intros Hret Hnone.
  apply (Forall_doc_pages (fun d => search_for d text = Some [])).
  unfold searches_return in Hret. rewrite Forall_forall in *.
  intros d Hd. destruct (Hret d Hd) as [hits Hhits]. specialize (Hnone d Hd).
  unfold no_hits in Hnone. rewrite Hhits in *. simpl in Hnone. congruence.
Qed.

Section PipelineProperties.
Context `{Lib : Library}.

(** ** The cache during a run *)

Lemma find_text_fuzzy_cache_kept (doc : Document) (self : MoonHighlighter) (page : Page)
    (text : string) :
  page ∈ doc_pages doc → preserves (cache_kept doc) (find_text_fuzzy self page text).
Proof.
  intros Hp. unfold find_text_fuzzy. apply (preserves_try_except (cache_kept doc)).
  apply (preserves_bind (cache_kept doc)); [apply extract_page_text_cache_kept, Hp|intros _].
  apply (preserves_bind (cache_kept doc)); [intros st H; exact H|intros _].
  apply (preserves_bind (cache_kept doc)); [apply (preserves_lib (cache_kept doc))|intros ws].
  apply (preserves_ret (cache_kept doc)).
Qed.

Lemma fuzzy_loop_cache_kept (doc : Document) (self : MoonHighlighter) (pages : list Page)
    (text : string) (fq : list Quad) (fu : bool) :
  (∀ p, p ∈ pages → p ∈ doc_pages doc) →
  preserves (cache_kept doc) (fuzzy_loop self pages text fq fu).
Proof.
  induction pages as [|p pages IH]; intros Hsub; simpl;
    [apply (preserves_ret (cache_kept doc))|].
  apply (preserves_bind (cache_kept doc)).
  - apply find_text_fuzzy_cache_kept, Hsub. left.
  - intros [|[q s] res]; [|apply (preserves_ret (cache_kept doc))].
    apply IH. intros p' Hp'. apply Hsub. right. exact Hp'.
Qed.

Lemma highlights_loop_cache_kept (self : MoonHighlighter) (doc : Document)
    (use_fuzzy : bool) (highlights : list highlight_record) (r : Report) :
  preserves (cache_kept doc) (highlights_loop self doc use_fuzzy highlights r).
Proof.
  revert r. induction highlights as [|h hs IH]; intros r; simpl;
    [apply (preserves_ret (cache_kept doc))|].
  apply (preserves_bind (cache_kept doc)); [|intros r'; apply IH].
  destruct h as [[color_value len] text]. unfold process_highlight.
  apply (preserves_bind (cache_kept doc)).
  - unfold locate. apply (preserves_bind (cache_kept doc));
      [apply (preserves_exact_loop (cache_kept doc))|intros quads].
    destruct (negb (truthy quads) && use_fuzzy); [|apply (preserves_ret (cache_kept doc))].
    apply fuzzy_loop_cache_kept. auto.
  - intros [qs b]. destruct (truthy qs); [|apply (preserves_ret (cache_kept doc))].
    intros st Hcons.
    destruct (annotate_loop_same_reads (doc_pages doc) qs b (map_color color_value)
                text r st) as [Hc _].
    rewrite Hc. exact Hcons.
Qed.

(** X7: a run keeps the text cache right for its document: if every
    cached text is the text of that page of the document when the run
    starts (as with the empty cache of a new instance), this holds when it
    ends, however it ends. *)
Theorem run_keeps_cache_consistent (self : MoonHighlighter) (cache : gmap nat string)
    (w : World) (output_path : option Path) (use_fuzzy : bool)
    (doc : Document) (annots : list (nat * Annot)) :
  fs w !! pdf_path self = Some (PdfFile doc annots) →
  cache_consistent doc cache →
  cache_consistent doc
    (text_cache (outcome_state (process_highlights self cache w output_path use_fuzzy))).
Proof.
  intros Hpdf Hcons. unfold process_highlights. rewrite Hpdf.
  destruct (truthy (get_highlights_from_db w self)); [|exact Hcons].
  pose proof (highlights_loop_cache_kept self doc use_fuzzy (get_highlights_from_db w self)
    (mkReport (List.length (get_highlights_from_db w self)) 0 0 0)
    (mkState cache annots []) Hcons) as Hkept.
  destruct (highlights_loop _ _ _ _ _ _) as [[r|] st]; simpl in Hkept; [|exact Hkept].
  destruct (save_fails w _); exact Hkept.
Qed.

(** ** Pages whose text extraction raises *)

Lemma fuzzy_loop_text_raises (self : MoonHighlighter) (pages : list Page) (text : string)
    (st : State) :
  (∀ p, p ∈ pages → get_text (page_data p) = None ∧ text_cache st !! number p = None) →
  (fuzzy_loop self pages text [] false st).1 = Some ([], false).
Proof.
  revert st. induction pages as [|p pages IH]; intros st Hall; simpl; [reflexivity|].
  destruct (Hall p) as [Hraise Hnew]; [left|].
  rewrite bind_run. unfold find_text_fuzzy, try_except, extract_page_text.
  rewrite !bind_run. simpl. rewrite Hnew. simpl. rewrite !bind_run. simpl.
  rewrite Hraise. simpl. apply IH.
  intros p' Hp'. simpl. apply Hall. right. exact Hp'.
Qed.

(** X8: the fuzzy search of a page depends on [page.get_text()], the
    result of which it does not use: on a document whose text extraction
    raises on every page, with nothing cached, a text without exact hit is
    not located, whatever the words of the pages are. *)
Theorem fuzzy_needs_page_text (self : MoonHighlighter) (doc : Document) (text : string)
    (st : State) :
  Forall (fun d => get_text d = None) doc →
  (∀ n, (n < List.length doc)%nat → text_cache st !! n = None) →
  Forall (fun d => no_hits d text) doc →
  (locate self doc text true st).1 = Some ([], false).
Proof.
  intros Hraise Hnew Hnone. rewrite locate_no_exact by exact Hnone.
  apply fuzzy_loop_text_raises. intros p Hp. apply doc_pages_elem in Hp.
  split.
  - rewrite Forall_lookup in Hraise. exact (Hraise _ _ Hp).
  - apply Hnew. eapply lookup_lt_Some, Hp.
Qed.

(** ** A run as a function of the document and the batch *)

Lemma record_annots_none (doc : Document) (h : highlight_record) :
  Forall (fun d => no_hits d h.2) doc → record_annots doc h = [].
Proof.
  intros H. unfold record_annots. rewrite first_hit_none; [reflexivity|].
  apply (Forall_doc_pages (fun d => no_hits d h.2)). exact H.
Qed.

(** With searches that return, a record leaves [record_annots] and is
    counted as found exactly when this is an annotation, whether the
    fuzzy search is enabled or not. *)
Lemma process_highlight_result (self : MoonHighlighter) (doc : Document)
    (use_fuzzy : bool) (h : highlight_record) (r : Report) (st : State) :
  searches_return doc h.2 →
  ∃ st', process_highlight self doc use_fuzzy h r st =
           (Some (if truthy (record_annots doc h) then count_found false r
                  else count_not_found r), st') ∧
         doc_annots st' = (doc_annots st ++ record_annots doc h)%list.
Proof.
  destruct h as [[color_value len] text]. simpl. intros Hret.
  unfold process_highlight. rewrite bind_run.
  destruct (doc_hit_cases doc text) as [H|(before & d & after & quads & Hd & Hb & Hs & Hne)].
  - rewrite (record_annots_none doc (color_value, len, text) H). simpl.
    destruct (locate_total self doc text use_fuzzy st) as (qs & b & st1 & Hloc).
    pose proof (locate_same_annots self doc text use_fuzzy st) as Hsame.
    rewrite Hloc in *. simpl in Hsame. unfold same_annots in Hsame. simpl.
    destruct (truthy qs).
    + rewrite annotate_loop_nothing by (apply searches_empty; assumption).
      exists st1. rewrite app_nil_r. auto.
    + exists st1. rewrite app_nil_r. auto.
  - erewrite locate_exact_hit by eauto. simpl.
    pose proof Hne as Ht. apply truthy_true in Ht. rewrite Ht.
    destruct (doc_pages_split doc before after d Hd) as (pb & pa & Hp & Hpb & _).
    assert (Hnh : Forall (fun p => no_hits (page_data p) text) pb).
    { rewrite <- Hpb in Hb.
      exact (proj1 (Forall_fmap page_data (fun d => no_hits d text) pb) Hb). }
    assert (Hempty : Forall (fun p => search_for (page_data p) text = Some []) pb).
    { apply (Forall_doc_pages (fun d => is_Some (search_for d text))) in Hret.
      rewrite Hp in Hret. apply Forall_app in Hret as [Hret _].
      rewrite Forall_forall in *. intros p Hin.
      specialize (Hnh p Hin). destruct (Hret p Hin) as [hits Hhits].
      unfold no_hits in Hnh. rewrite Hhits in *. simpl in Hnh. congruence. }
    unfold record_annots. simpl. rewrite Hp.
    rewrite (first_hit_some pb pa _ quads) by auto.
    rewrite (annotate_loop_first_hit pb pa _ quads) by auto. simpl.
    destruct (highlight_fails d quads); simpl.
    + exists st. rewrite app_nil_r. auto.
    + eexists. split; reflexivity.
Qed.

Lemma record_annots_length (doc : Document) (h : highlight_record) :
  List.length (record_annots doc h) = if truthy (record_annots doc h) then 1%nat else 0%nat.
Proof.
  unfold record_annots. destruct (first_hit _ _) as [[p quads]|]; [|reflexivity].
  destruct (highlight_fails _ _); reflexivity.
Qed.

Lemma highlights_loop_result (self : MoonHighlighter) (doc : Document)
    (use_fuzzy : bool) (highlights : list highlight_record) (r : Report) (st : State) :
  (∀ h, h ∈ highlights → searches_return doc h.2) →
  ∃ st', highlights_loop self doc use_fuzzy highlights r st =
           (Some (mkReport (total_highlights r)
                    (found_highlights r + List.length (batch_annots doc highlights))
                    (fuzzy_highlights r)
                    (not_found_highlights r + List.length highlights
                     - List.length (batch_annots doc highlights))), st') ∧
         doc_annots st' = (doc_annots st ++ batch_annots doc highlights)%list ∧
         (List.length (batch_annots doc highlights) <= List.length highlights)%nat.
Proof.
  revert r st. induction highlights as [|h hs IH]; intros r st Hret; simpl.
  - exists st. rewrite app_nil_r, !Nat.add_0_r, Nat.sub_0_r. destruct r. auto.
  - rewrite bind_run.
    destruct (process_highlight_result self doc use_fuzzy h r st) as (st1 & -> & Ha).
    { apply Hret. left. }
    destruct (IH (if truthy (record_annots doc h) then count_found false r
                  else count_not_found r) st1) as (st' & -> & Ha' & Hle).
    { intros h' Hh'. apply Hret. right. exact Hh'. }
    exists st'. rewrite Ha', Ha, <- app_assoc, length_app, record_annots_length.
    split; [|split; [reflexivity|]].
    + f_equal. destruct (truthy (record_annots doc h)); simpl; f_equal; f_equal; lia.
    + destruct (truthy (record_annots doc h)); simpl; lia.
Qed.

(** The run on a batch whose searches return and whose save succeeds. *)
Lemma process_highlights_run (self : MoonHighlighter) (w : World)
    (output_path : option Path) (doc : Document) (annots : list (nat * Annot))
    (use_fuzzy : bool) (cache : gmap nat string) :
  let highlights := get_highlights_from_db w self in
  let out := default (default_output_path self) output_path in
  let new := batch_annots doc highlights in
  fs w !! pdf_path self = Some (PdfFile doc annots) →
  highlights ≠ [] →
  (∀ h, h ∈ highlights → searches_return doc h.2) →
  save_fails w out = false →
  ∃ st,
    process_highlights self cache w output_path use_fuzzy =
      Returned (Some out)
        (Some (mkReport (List.length highlights) (List.length new) 0
                 (List.length highlights - List.length new)))
        (mkWorld (<[out := PdfFile doc (annots ++ new)]> (fs w)) (save_fails w)) st.
Proof.
  intros highlights out new Hpdf Hne Hret Hsave.
  destruct (highlights_loop_result self doc use_fuzzy highlights
              (mkReport (List.length highlights) 0 0 0) (mkState cache annots []) Hret)
    as (st & Hloop & Ha & _).
  exists st. unfold process_highlights. fold highlights.
  apply truthy_true in Hne. rewrite Hne, Hpdf, Hloop.
  replace (match output_path with Some p => p | None => default_output_path self end)
    with out by (destruct output_path; reflexivity).
  rewrite Hsave, Ha. reflexivity.
Qed.

(** X9: on a non-empty batch whose document opens, whose searches return
    and whose save succeeds, the run is a function of the document and the
    batch alone: for every setting of [use_fuzzy] and every cache it
    writes the pages of the input with its annotations followed by
    [batch_annots] (for each record in turn, all its exact hits on the
    first page that has any, unless annotating raises), and it reports
    their number as found, the rest as not found and 0 as fuzzy. *)
Theorem run_as_function (self : MoonHighlighter) (w : World) (output_path : option Path)
    (doc : Document) (annots : list (nat * Annot)) :
  let highlights := get_highlights_from_db w self in
  let out := default (default_output_path self) output_path in
  let new := batch_annots doc highlights in
  fs w !! pdf_path self = Some (PdfFile doc annots) →
  highlights ≠ [] →
  (∀ h, h ∈ highlights → searches_return doc h.2) →
  save_fails w out = false →
  (List.length new <= List.length highlights)%nat ∧
  ∀ use_fuzzy cache, ∃ st,
    process_highlights self cache w output_path use_fuzzy =
      Returned (Some out)
        (Some (mkReport (List.length highlights) (List.length new) 0
                 (List.length highlights - List.length new)))
        (mkWorld (<[out := PdfFile doc (annots ++ new)]> (fs w)) (save_fails w)) st.
Proof.
  intros highlights out new Hpdf Hne Hret Hsave.
  split.
  - destruct (highlights_loop_result self doc true highlights (mkReport 0 0 0 0)
                (mkState ∅ [] []) Hret) as (_ & _ & _ & Hle). exact Hle.
  - intros use_fuzzy cache.
    exact (process_highlights_run self w output_path doc annots use_fuzzy cache
             Hpdf Hne Hret Hsave).
Qed.

(** X10: the annotation of a record goes on the first page that has an
    exact hit and covers all the hits of that page, in the colour of the
    record and with its note; the later pages are not looked at, so
    further occurrences there get no mark. *)
Theorem first_page_with_hit_annotated (self : MoonHighlighter) (doc before after : Document)
    (d : PageData) (quads : list Quad) (use_fuzzy : bool)
    (color_value len : Z) (text : string) (r : Report) (st : State) :
  doc = (before ++ d :: after)%list →
  Forall (fun d => search_for d text = Some []) before →
  search_for d text = Some quads → quads ≠ [] →
  highlight_fails d quads = false →
  process_highlight self doc use_fuzzy (color_value, len, text) r st =
    (Some (count_found false r),
     with_annot st (List.length before)
       (mkAnnot quads (map_color color_value) (note_content text))).
Proof.
  intros Hd Hb Hs Hne Hok.
  assert (Hnone : Forall (fun d => no_hits d text) before).
  { eapply Forall_impl; [exact Hb|]. intros x Hx. unfold no_hits. rewrite Hx. reflexivity. }
  unfold process_highlight. rewrite bind_run.
  erewrite locate_exact_hit by eauto. simpl.
  pose proof Hne as Ht. apply truthy_true in Ht. rewrite Ht.
  destruct (doc_pages_split doc before after d Hd) as (pb & pa & Hp & Hpb & _).
  rewrite Hp, (annotate_loop_first_hit pb pa _ quads); auto.
  - simpl. rewrite Hok. reflexivity.
  - rewrite <- Hpb in Hb.
    exact (proj1 (Forall_fmap page_data (fun d => search_for d text = Some []) pb) Hb).
Qed.

(** ** What a run annotates *)

Lemma process_highlight_annots (self : MoonHighlighter) (doc : Document)
    (use_fuzzy : bool) (h : highlight_record) (r r' : Report) (st st' : State) :
  process_highlight self doc use_fuzzy h r st = (Some r', st') →
  (r' = count_not_found r ∧ doc_annots st' = doc_annots st) ∨
  (r' = count_found false r ∧
   ∃ na, annot_of_batch doc [h] na ∧ doc_annots st' = (doc_annots st ++ [na])%list).
Proof.
  destruct h as [[color_value len] text]. unfold process_highlight. rewrite bind_run.
  destruct (locate_total self doc text use_fuzzy st) as (qs & b & st1 & Hloc).
  pose proof (locate_same_annots self doc text use_fuzzy st) as Hsame.
  rewrite Hloc in *. simpl in Hsame. unfold same_annots in Hsame. simpl.
  destruct (truthy qs) eqn:Ht.
  2:{ intros [= <- <-]. left. auto. }
  intros Hrun.
  apply annotate_loop_found in Hrun
    as [[-> ->]|(-> & p & hits & pq & Hp & Hs & Hne & Hpq & ->)]; [left; auto|].
  right. apply doc_pages_elem in Hp.
  assert (b = false) as ->.
  { destruct b; [|reflexivity]. exfalso.
    destruct (locate_fuzzy_only_without_exact self doc text use_fuzzy st st1 qs true Hloc)
      as [_ Hall]; [left; reflexivity|].
    rewrite Forall_lookup in Hall. specialize (Hall _ _ Hp).
    unfold no_hits in Hall. rewrite Hs in Hall. simpl in Hall. subst hits.
    rewrite filter_no_hits in Hpq. contradiction. }
  split; [reflexivity|]. eexists (_, _). split; [|simpl; rewrite Hsame; reflexivity].
  exists (color_value, len, text), (page_data p), hits. simpl.
  split; [left|]. split; [exact Hp|]. split; [exact Hs|]. split; [exact Hne|].
  split; [|auto]. intros q Hq. rewrite Hpq in Hq. apply filter_In in Hq. tauto.
Qed.

Lemma annot_of_batch_mono (doc : Document) (hs hs' : list highlight_record)
    (na : nat * Annot) :
  (∀ h, h ∈ hs → h ∈ hs') → annot_of_batch doc hs na → annot_of_batch doc hs' na.
Proof.
  intros Hsub (h & d & hits & Hh & H). exists h, d, hits. split; [apply Hsub, Hh|exact H].
Qed.

Lemma highlights_loop_annots_of_batch (self : MoonHighlighter) (doc : Document)
    (use_fuzzy : bool) (highlights : list highlight_record) (r r' : Report) (st st' : State) :
  highlights_loop self doc use_fuzzy highlights r st = (Some r', st') →
  ∃ new, doc_annots st' = (doc_annots st ++ new)%list ∧
         found_highlights r' = (found_highlights r + List.length new)%nat ∧
         Forall (annot_of_batch doc highlights) new.
Proof.
  revert r st. induction highlights as [|h hs IH]; intros r st; simpl.
  - intros [= <- <-]. exists []. rewrite app_nil_r. simpl.
    split; [reflexivity|]. split; [lia|constructor].
  - rewrite bind_run.
    destruct (process_highlight self doc use_fuzzy h r st) as [[r1|] st1] eqn:Hstep;
      [|discriminate].
    intros Hrun. apply IH in Hrun as (new & Ha & Hf & Hall).
    assert (Hall' : Forall (annot_of_batch doc (h :: hs)) new).
    { eapply Forall_impl; [exact Hall|]. intros na.
      apply annot_of_batch_mono. intros x Hx. right. exact Hx. }
    apply process_highlight_annots in Hstep as [[-> Hst]|(-> & na & Hna & Hst)].
    + exists new. rewrite Ha, Hst. simpl in Hf. auto.
    + exists (na :: new). rewrite Ha, Hst, <- app_assoc. simpl in *.
      split; [reflexivity|]. split; [lia|]. constructor; [|exact Hall'].
      eapply annot_of_batch_mono, Hna. intros x Hx.
      apply list_elem_of_singleton in Hx as ->. left.
Qed.

(** X11: whenever a run prints its report, the output file holds the
    pages and annotations of the input followed by as many new
    annotations as the report counts as found, and every new annotation
    consists of exact hits of the text of a record of the batch on one
    page, in the colour of this record and with its note: nothing else is
    ever marked. *)
Theorem run_annotates_exact_hits (self : MoonHighlighter) (cache : gmap nat string)
    (w : World) (output_path : option Path) (use_fuzzy : bool)
    (file : option Path) (r : Report) (w' : World) (st : State) :
  process_highlights self cache w output_path use_fuzzy = Returned file (Some r) w' st →
  ∃ doc annots new,
    fs w !! pdf_path self = Some (PdfFile doc annots) ∧
    file = Some (default (default_output_path self) output_path) ∧
    fs w' !! default (default_output_path self) output_path =
      Some (PdfFile doc (annots ++ new)) ∧
    List.length new = found_highlights r ∧
    Forall (annot_of_batch doc (get_highlights_from_db w self)) new.
Proof.
  intros Hrun. unfold process_highlights in Hrun.
  destruct (truthy (get_highlights_from_db w self)); [|discriminate].
  destruct (fs w !! pdf_path self) as [[doc annots| |]|] eqn:Hpdf; try discriminate.
  destruct (highlights_loop _ _ _ _ _ _) as [[r1|] st1] eqn:Hloop; [|discriminate].
  replace (match output_path with Some p => p | None => default_output_path self end)
    with (default (default_output_path self) output_path) in Hrun
    by (destruct output_path; reflexivity).
  destruct (save_fails w _); [discriminate|].
  injection Hrun as <- <- <- <-.
  apply highlights_loop_annots_of_batch in Hloop as (new & Ha & Hf & Hall).
  simpl in Ha, Hf. exists doc, annots, new.
  split; [reflexivity|]. split; [reflexivity|]. split; [|auto].
  simpl. rewrite lookup_insert_eq, Ha. reflexivity.
Qed.

(** X12: with an explicit output path a run writes nowhere else: every
    other file is the same afterwards, and a run that returns no path
    leaves the whole file system as it was. *)
Theorem explicit_output_only (self : MoonHighlighter) (cache : gmap nat string)
    (w : World) (p : Path) (use_fuzzy : bool) :
  let o := process_highlights self cache w (Some p) use_fuzzy in
  (∀ p', p' ≠ p → fs (outcome_world o) !! p' = fs w !! p') ∧
  (outcome_file o = Some p ∨ outcome_file o = None ∧ outcome_world o = w).
Proof.
  intros o.
  destruct (process_highlights_world self cache w (Some p) use_fuzzy)
    as [(Hw & Hf & _)|(doc & annots & new & r & st & Hpdf & Ho)]; fold o in Hw, Hf || fold o in Ho.
  - rewrite Hw. split; [reflexivity|]. right. auto.
  - simpl in Ho. rewrite Ho. simpl. split; [|left; reflexivity].
    intros p' Hp'. apply lookup_insert_ne. congruence.
Qed.

End PipelineProperties.


(** Witness of [run_keeps_cache_consistent]: a run from the empty cache. *)
Lemma run_keeps_cache_consistent_witness :
  let doc := [Examples.page_hello; Examples.page_foobar] in
  let w := Examples.world_of doc [Examples.note (-256) "foobaz"] in
  cache_consistent doc
    (text_cache (outcome_state
       (process_highlights (Lib := Examples.example_lib) Examples.self ∅ w None true))).
Proof.
  intros doc w.
  apply (run_keeps_cache_consistent (Lib := Examples.example_lib) Examples.self ∅ w None true
           doc []).
  - reflexivity.
  - intros n t Hn. rewrite lookup_empty in Hn. discriminate.
Defined.

(** Witness of [fuzzy_needs_page_text]: the token "foobar" scores 83
    against "foobaz", but the page text cannot be extracted. *)
Lemma fuzzy_needs_page_text_witness :
  collect_similar (Lib := Examples.example_lib) Examples.self "foobaz" [Examples.w_foobar] =
    [(Examples.w_foobar, 83)] ∧
  (locate (Lib := Examples.example_lib) Examples.self [MoreExamples.page_textless] "foobaz"
     true Examples.st0).1 = Some ([], false).
Proof.
  split; [reflexivity|].
  apply (fuzzy_needs_page_text (Lib := Examples.example_lib) Examples.self
           [MoreExamples.page_textless] "foobaz" Examples.st0).
  - repeat constructor.
  - intros n _. apply lookup_empty.
  - repeat constructor.
Defined.

(** Witness of [run_as_function]: "hello" is marked on the first page,
    "foobaz" is not found, with and without the fuzzy search. *)
Lemma run_as_function_witness :
  let doc := [Examples.page_hello; Examples.page_foobar] in
  let w := Examples.world_of doc
             [Examples.note 1996532479 "hello"; Examples.note (-256) "foobaz"] in
  outcome_report
    (process_highlights (Lib := Examples.example_lib) Examples.self ∅ w None true) =
    Some (mkReport 2 1 0 1) ∧
  outcome_report
    (process_highlights (Lib := Examples.example_lib) Examples.self ∅ w None false) =
    Some (mkReport 2 1 0 1).
Proof.
  intros doc w.
  destruct (run_as_function (Lib := Examples.example_lib) Examples.self w None doc [])
    as [_ Hrun].
  - reflexivity.
  - discriminate.
  - intros h _. repeat constructor; eexists; reflexivity.
  - reflexivity.
  - destruct (Hrun true ∅) as [st Hst]. destruct (Hrun false ∅) as [st' Hst'].
    rewrite Hst, Hst'. split; reflexivity.
Defined.

(** Witness of [first_page_with_hit_annotated]: "hello" is on the second
    and on the third page; the second page is marked. *)
Lemma first_page_with_hit_annotated_witness :
  (process_highlight (Lib := Examples.example_lib) Examples.self
     [Examples.page_foobar; Examples.page_hello; Examples.page_hello] true
     (1996532479, 5, "hello") (mkReport 1 0 0 0) Examples.st0).1 =
    Some (mkReport 1 1 0 0).
Proof.
  rewrite (first_page_with_hit_annotated (Lib := Examples.example_lib) Examples.self
             [Examples.page_foobar; Examples.page_hello; Examples.page_hello]
             [Examples.page_foobar] [Examples.page_hello] Examples.page_hello
             [Examples.hit_of Examples.w_hello] true 1996532479 5 "hello"
             (mkReport 1 0 0 0) Examples.st0).
  - reflexivity.
  - reflexivity.
  - repeat constructor.
  - reflexivity.
  - discriminate.
  - reflexivity.
Defined.

(** Witness of [run_annotates_exact_hits]. *)
Lemma run_annotates_exact_hits_witness :
  let doc := [Examples.page_hello; Examples.page_foobar] in
  let w := Examples.world_of doc
             [Examples.note 1996532479 "hello"; Examples.note (-256) "foobaz"] in
  ∃ new, List.length new = 1%nat ∧
         Forall (annot_of_batch doc (get_highlights_from_db w Examples.self)) new.
Proof.
  intros doc w.
  destruct (process_highlights_run (Lib := Examples.example_lib) Examples.self w None doc []
              true ∅) as [st Hst].
  { reflexivity. } { discriminate. }
  { intros h _. repeat constructor; eexists; reflexivity. } { reflexivity. }
  destruct (run_annotates_exact_hits (Lib := Examples.example_lib) Examples.self ∅ w None
              true _ _ _ _ Hst) as (doc' & annots & new & Hpdf & _ & _ & Hlen & Hall).
  assert (Hdoc : fs w !! pdf_path Examples.self = Some (PdfFile doc [])) by reflexivity.
  rewrite Hdoc in Hpdf. injection Hpdf as <- <-.
  exists new. split; [exact Hlen|exact Hall].
Defined.

(** ** The command line *)

Section MainProperties.
Context `{Lib : Library} `{PL : Pathlib} `{AP : Argparse Args}.

(** [main] once the command line is parsed. *)
Lemma main_parsed (argv : list string) (args : Args) (w : World) :
  parse_args argv = Parsed args →
  (arg_gui args = true → main argv w = GuiOpened) ∧
  (arg_gui args = false →
   given (arg_pdf args) && given (arg_book args) && given (arg_database args) = false →
   main argv w = Exit 1 w) ∧
  (arg_gui args = false →
   ∃ code w', main argv w = Exit code w' ∧
     (code = 1 ∧ w' = w ∨
      code = 0 ∧
      ∃ pdf out doc annots new,
        arg_pdf args = Some pdf ∧
        out = default
                (path_join (path_parent (to_path pdf))
                   (path_stem (to_path pdf) ++ "_highlighted" ++ path_suffix (to_path pdf)))
                (to_path <$> arg_output args) ∧
        fs w !! to_path pdf = Some (PdfFile doc annots) ∧
        fs w' = <[out := PdfFile doc (annots ++ new)]> (fs w))).
Proof.
  intros Hparse. unfold main. rewrite Hparse.
  split; [intros ->; reflexivity|]. split.
  - intros -> Hmiss.
    destruct (given (arg_pdf args)), (given (arg_book args)), (given (arg_database args));
      simpl in *; try discriminate; reflexivity.
  - intros ->.
    destruct (negb (given (arg_pdf args)) || negb (given (arg_book args))
              || negb (given (arg_database args))); [exists 1, w; auto|].
    destruct (arg_pdf args) as [pdf|]; [|exists 1, w; auto].
    destruct (arg_book args) as [book|]; [|exists 1, w; auto].
    destruct (arg_database args) as [database|]; [|exists 1, w; auto].
    destruct (init w (to_path pdf) book (to_path database)) as [[highlighter cache]|] eqn:Hinit;
      [|exists 1, w; auto].
    assert (Hpath : pdf_path highlighter = to_path pdf).
    { unfold init in Hinit.
      destruct (fs w !! to_path pdf), (fs w !! to_path database); try discriminate.
      injection Hinit as <- _. reflexivity. }
    destruct (process_highlights_world highlighter cache w (to_path <$> arg_output args)
                (negb (arg_no_fuzzy args)))
      as [(Hw & Hf & _)|(doc & annots & new & r & st & Hpdf & Ho)].
    + destruct (process_highlights _ _ _ _ _) as [[file|] rep w1 st1|w1 st1];
        simpl in *; subst; try discriminate; exists 1, w; auto.
    + simpl in Ho. rewrite Ho. eexists 0, _. split; [reflexivity|]. right.
      split; [reflexivity|].
      exists pdf, (default (default_output_path highlighter) (to_path <$> arg_output args)),
        doc, annots, new.
      split; [reflexivity|]. rewrite <- Hpath. split; [reflexivity|].
      split; [exact Hpdf|reflexivity].
Qed.

(** X13: [main] exits with 0, 1 or 2, unless it opens the graphical
    interface.  It exits with 2 exactly when [argparse] rejects the command
    line, and with 0 on [-h], in both cases with no file touched.  When
    the command line parses: with [--gui] no run is made by [main],
    whatever the other arguments are; a missing or empty [--pdf], [--book]
    or [--database] gives the exit code 1 with no file touched; otherwise
    the code is 0 or 1; with 0, a run of [process_highlights] on the given
    files returned the output path after writing there the pages of the
    input and its old and new annotations; with 1 the file system is as it
    was. *)
Theorem main_exit (argv : list string) (w : World) :
  (parse_args argv = HelpExit → main argv w = Exit 0 w) ∧
  (parse_args argv = UsageError → main argv w = Exit 2 w) ∧
  (∀ code w', main argv w = Exit code w' →
     (code = 0 ∨ code = 1 ∨ code = 2) ∧ (code = 2 ↔ parse_args argv = UsageError)) ∧
  (∀ args, parse_args argv = Parsed args →
     (arg_gui args = true → main argv w = GuiOpened) ∧
     (arg_gui args = false →
      given (arg_pdf args) && given (arg_book args) && given (arg_database args) = false →
      main argv w = Exit 1 w) ∧
     (arg_gui args = false →
      ∃ code w', main argv w = Exit code w' ∧
        (code = 1 ∧ w' = w ∨
         code = 0 ∧
         ∃ pdf out doc annots new,
           arg_pdf args = Some pdf ∧
           out = default
                   (path_join (path_parent (to_path pdf))
                      (path_stem (to_path pdf) ++ "_highlighted" ++
                       path_suffix (to_path pdf)))
                   (to_path <$> arg_output args) ∧
           fs w !! to_path pdf = Some (PdfFile doc annots) ∧
           fs w' = <[out := PdfFile doc (annots ++ new)]> (fs w)))).
Proof.
  split; [intros H; unfold main; rewrite H; reflexivity|].
  split; [intros H; unfold main; rewrite H; reflexivity|].
  split; [|intros args Hparse; exact (main_parsed argv args w Hparse)].
  intros code w' Hmain.
  destruct (parse_args argv) as [| |args] eqn:Hparse.
  - unfold main in Hmain. rewrite Hparse in Hmain. injection Hmain as <- _.
    split; [auto|]. split; discriminate.
  - unfold main in Hmain. rewrite Hparse in Hmain. injection Hmain as <- _.
    split; [auto|]. split; reflexivity.
  - destruct (main_parsed argv args w Hparse) as (Hgui & _ & Hrun).
    destruct (arg_gui args).
    + rewrite Hgui in Hmain by reflexivity. discriminate.
    + destruct (Hrun eq_refl) as (c & w1 & Hc & Hcases). rewrite Hc in Hmain.
      injection Hmain as <- <-.
      destruct Hcases as [[-> _]|[-> _]]; (split; [auto|split; discriminate]).
Qed.

(** X14: when both files are given and exist, the database holds
    at least one highlight of the book, the searches return and the save
    succeeds, [main] exits with 0 and leaves the output file, however few
    records were found: a batch of which nothing is found in the document
    still gives a copy of the input and the exit code 0. *)
Theorem main_succeeds (argv : list string) (args : Args) (w : World)
    (pdf book database : string)
    (doc : Document) (annots : list (nat * Annot)) (notes : list Note) :
  let self := mkMoonHighlighter (to_path pdf) book (to_path database) 80 5 in
  let highlights := get_highlights_from_db w self in
  let out := default (default_output_path self) (to_path <$> arg_output args) in
  parse_args argv = Parsed args →
  arg_gui args = false →
  arg_pdf args = Some pdf → arg_book args = Some book → arg_database args = Some database →
  pdf ≠ "" → book ≠ "" → database ≠ "" →
  fs w !! to_path pdf = Some (PdfFile doc annots) →
  fs w !! to_path database = Some (SqliteFile notes) →
  highlights ≠ [] →
  (∀ h, h ∈ highlights → searches_return doc h.2) →
  save_fails w out = false →
  main argv w =
    Exit 0 (mkWorld (<[out := PdfFile doc (annots ++ batch_annots doc highlights)]> (fs w))
              (save_fails w)).
Proof.
  intros self highlights out Hparse Hgui Hpdf Hbook Hdb Hp Hb Hd Hfile Hdbfile Hne Hret Hsave.
  unfold main. rewrite Hparse, Hgui, Hpdf, Hbook, Hdb.
  destruct pdf; [congruence|]. destruct book; [congruence|]. destruct database; [congruence|].
  simpl given. simpl negb. simpl orb. cbv iota.
  unfold init. rewrite Hfile, Hdbfile.
  destruct (process_highlights_run self w (to_path <$> arg_output args) doc annots
              (negb (arg_no_fuzzy args)) ∅ Hfile Hne Hret Hsave) as [st Hst].
  fold self. rewrite Hst. reflexivity.
Qed.

End MainProperties.

(** Witness of [main_exit]: on the command line of the examples the
    batch runs, "hello" is marked and the exit code is 0; an unknown
    option gives the exit code 2 and [-h] the exit code 0, with the file
    system as it was. *)
Lemma main_exit_witness :
  let w := Examples.world_of [Examples.page_hello]
             [Examples.note 1996532479 "hello"; Examples.note (-256) "quux"] in
  (∃ w' new,
     main (Lib := Examples.example_lib) (PL := MoreExamples.example_paths)
       (AP := MoreExamples.example_argparse) MoreExamples.argv w = Exit 0 w' ∧
     fs w' = <[default_output_path Examples.self :=
                 PdfFile [Examples.page_hello] ([] ++ new)]> (fs w)) ∧
  main (Lib := Examples.example_lib) (PL := MoreExamples.example_paths)
    (AP := MoreExamples.example_argparse) ["--bogus"] w = Exit 2 w ∧
  main (Lib := Examples.example_lib) (PL := MoreExamples.example_paths)
    (AP := MoreExamples.example_argparse) ["-h"] w = Exit 0 w.
Proof.
  intros w. split; [|split].
  - destruct (main_exit (Lib := Examples.example_lib) (PL := MoreExamples.example_paths)
                (AP := MoreExamples.example_argparse) MoreExamples.argv w)
      as (_ & _ & _ & Hparsed).
    destruct (Hparsed MoreExamples.args eq_refl) as (_ & _ & Hrun).
    destruct (Hrun eq_refl) as (code & w' & Hmain & Hcases).
    assert (Hzero : ∃ w0, main (Lib := Examples.example_lib)
                            (PL := MoreExamples.example_paths)
                            (AP := MoreExamples.example_argparse) MoreExamples.argv w =
                          Exit 0 w0) by (eexists; reflexivity).
    destruct Hzero as [w0 Hw0]. rewrite Hw0 in Hmain. injection Hmain as <- <-.
    destruct Hcases as [[Hcode _]|(_ & pdf & out & doc & annots & new & Hpdf & -> & Hfile & Hfs)];
      [discriminate Hcode|].
    injection Hpdf as <-.
    assert (Hdoc : fs w !! to_path (Pathlib := MoreExamples.example_paths) "/books/novel.pdf" =
                   Some (PdfFile [Examples.page_hello] [])) by reflexivity.
    rewrite Hdoc in Hfile. injection Hfile as <- <-.
    exists w0, new. split; [exact Hw0|exact Hfs].
  - apply (main_exit (Lib := Examples.example_lib) (PL := MoreExamples.example_paths)
             (AP := MoreExamples.example_argparse) ["--bogus"] w). reflexivity.
  - apply (main_exit (Lib := Examples.example_lib) (PL := MoreExamples.example_paths)
             (AP := MoreExamples.example_argparse) ["-h"] w). reflexivity.
Defined.

(** Witness of [main_succeeds]: the only record, "quux", is not in the
    document; the output is written without annotation and the exit code
    is 0. *)
Lemma main_succeeds_witness :
  let w := Examples.world_of [Examples.page_hello] [Examples.note (-256) "quux"] in
  main (Lib := Examples.example_lib) (PL := MoreExamples.example_paths)
    (AP := MoreExamples.example_argparse) MoreExamples.argv w =
    Exit 0 (mkWorld (<[default_output_path Examples.self :=
                         PdfFile [Examples.page_hello] []]> (fs w)) (save_fails w)).
Proof.
  intros w.
  apply (main_succeeds (Lib := Examples.example_lib) (PL := MoreExamples.example_paths)
           (AP := MoreExamples.example_argparse) MoreExamples.argv
           MoreExamples.args w "/books/novel.pdf" "novel.pdf" "/books/pdfmarks.sqlite"
           [Examples.page_hello] [] [Examples.note (-256) "quux"]);
    try reflexivity; try discriminate.
  intros h _. repeat constructor; eexists; reflexivity.
Defined.


(** ** Substring search *)

Lemma str_cons_app (c : ascii) (a b : string) : String c a ++ b = String c (a ++ b).
Proof. reflexivity. Qed.

Lemma str_app_assoc (a b c : string) : (a ++ b) ++ c = a ++ b ++ c.
Proof.
  induction a as [|x a IH]; [reflexivity|].
  rewrite !str_cons_app. f_equal. exact IH.
Qed.

Lemma prefix_app (sub s : string) :
  String.prefix sub s = true ↔ ∃ post, s = sub ++ post.
Proof.
  revert s. induction sub as [|c sub IH]; intros s.
  - split; [intros _; exists s; reflexivity|intros _; destruct s; reflexivity].
  - destruct s as [|d s]; simpl.
    + split; [discriminate|intros [post H]; discriminate].
    + destruct (Ascii.ascii_dec c d) as [->|Hne].
      * rewrite IH. split; intros [post H]; exists post.
        -- rewrite str_cons_app. f_equal. exact H.
        -- rewrite str_cons_app in H. injection H as H. exact H.
      * split; [discriminate|]. intros [post H]. rewrite str_cons_app in H.
        injection H as H _. congruence.
Qed.

Lemma str_take_app (pre rest : string) : str_take (String.length pre) (pre ++ rest) = pre.
Proof.
  induction pre as [|c pre IH]; [destruct rest; reflexivity|].
  rewrite str_cons_app. simpl. f_equal. exact IH.
Qed.

Lemma str_find_eq (sub s : string) :
  str_find sub s =
    if String.prefix sub s then Some 0%nat
    else match s with
         | EmptyString => None
         | String _ s' => S <$> str_find sub s'
         end.
Proof. destruct s; reflexivity. Qed.

(** [str_find] gives the first place where the text occurs. *)
Lemma str_find_Some (sub s : string) (i : nat) :
  str_find sub s = Some i →
  (∃ post, s = str_take i s ++ sub ++ post) ∧ String.length (str_take i s) = i ∧
  ∀ pre post, s = pre ++ sub ++ post → (i <= String.length pre)%nat.
Proof.
  revert i. induction s as [|c s IH]; intros i; rewrite str_find_eq.
  - destruct (String.prefix sub "") eqn:Hp; [|discriminate].
    intros [= <-]. apply prefix_app in Hp as [post Hp].
    split; [exists post; exact Hp|]. split; [reflexivity|]. intros; lia.
  - destruct (String.prefix sub (String c s)) eqn:Hp.
    + intros [= <-]. apply prefix_app in Hp as [post Hp].
      split; [exists post; exact Hp|]. split; [reflexivity|]. intros; lia.
    + destruct (str_find sub s) as [j|] eqn:Hj; [|discriminate].
      simpl. intros [= <-]. destruct (IH j eq_refl) as ([post Hs] & Hlen & Hfirst).
      split; [|split].
      * exists post. simpl. rewrite str_cons_app. f_equal. exact Hs.
      * simpl. f_equal. exact Hlen.
      * intros pre post' Heq. destruct pre as [|d pre].
        -- exfalso. assert (Ht : String.prefix sub (String c s) = true).
           { apply prefix_app. exists post'. exact Heq. }
           congruence.
        -- rewrite str_cons_app in Heq. injection Heq as _ Heq.
           specialize (Hfirst pre post' Heq). simpl. lia.
Qed.

Lemma str_find_None (sub s : string) :
  str_find sub s = None → ∀ pre post, s ≠ pre ++ sub ++ post.
Proof.
  induction s as [|c s IH]; rewrite str_find_eq.
  - destruct (String.prefix sub "") eqn:Hp; [discriminate|]. intros _ pre post Heq.
    destruct pre; [|discriminate].
    assert (Ht : String.prefix sub "" = true) by (apply prefix_app; exists post; exact Heq).
    congruence.
  - destruct (String.prefix sub (String c s)) eqn:Hp; [discriminate|].
    destruct (str_find sub s) as [j|] eqn:Hj; [discriminate|].
    intros _ pre post Heq. destruct pre as [|d pre].
    + assert (Ht : String.prefix sub (String c s) = true).
      { apply prefix_app. exists post. exact Heq. }
      congruence.
    + rewrite str_cons_app in Heq. injection Heq as _ Heq. exact (IH eq_refl pre post Heq).
Qed.

Lemma str_find_first_occurrence (sub s pre : string) :
  first_occurrence sub s pre ↔
  ∃ i, str_find sub s = Some i ∧ pre = str_take i s.
Proof.
  split.
  - intros [[post Hs] Hmin].
    destruct (str_find sub s) as [i|] eqn:Hi.
    + exists i. split; [reflexivity|].
      destruct (str_find_Some sub s i Hi) as ([post' Hs'] & Hlen & Hfirst).
      specialize (Hfirst pre post Hs). specialize (Hmin _ _ Hs').
      assert (Hi' : i = String.length pre) by lia.
      rewrite Hi'. rewrite Hs at 1. symmetry. apply str_take_app.
    + exfalso. exact (str_find_None sub s Hi pre post Hs).
  - intros (i & Hi & ->).
    destruct (str_find_Some sub s i Hi) as (Hs & Hlen & Hfirst).
    split; [exact Hs|]. intros pre' post' Heq. rewrite Hlen. eauto.
Qed.

(** ** The test run *)

Section SimpleProperties.
Context `{E : SimpleRun.Env}.

Lemma find_text_loop_run (k : nat) (pages : list PageData) (text : string)
    (acc : list SimpleRun.location) :
  SimpleRun.find_text_loop k pages text acc =
    if forallb (fun d => bool_decide (is_Some (SimpleRun.extract_text d))) pages
    then Some (acc ++ page_locations text k pages)%list
    else None.
Proof.
  revert k acc. induction pages as [|d pages IH]; intros k acc; simpl.
  - rewrite app_nil_r. reflexivity.
  - unfold page_location.
    destruct (SimpleRun.extract_text d) as [page_text|] eqn:Ht; simpl; [|reflexivity].
    destruct (str_find text page_text) as [start_pos|]; rewrite IH;
      destruct (forallb _ pages); try reflexivity.
    rewrite <- app_assoc. reflexivity.
Qed.

Lemma page_locations_elem (text : string) (k : nat) (pages : list PageData)
    (l : SimpleRun.location) :
  l ∈ page_locations text k pages ↔
  ∃ i d, pages !! i = Some d ∧ page_location text (k + i) d = Some l.
Proof.
  revert k. induction pages as [|d pages IH]; intros k; simpl.
  - split; [intros H; inversion H|intros (i & d & H & _); destruct i; discriminate].
  - assert (Htail : l ∈ page_locations text (S k) pages ↔
                    ∃ i d', pages !! i = Some d' ∧ page_location text (k + S i) d' = Some l).
    { rewrite IH. split; intros (i & d' & Hd & Hl); exists i, d'; split; auto;
        [replace (k + S i)%nat with (S k + i)%nat by lia
        |replace (S k + i)%nat with (k + S i)%nat by lia]; exact Hl. }
    destruct (page_location text k d) as [l0|] eqn:Hl0.
    + rewrite elem_of_cons, Htail. split.
      * intros [->|(i & d' & Hd & Hl)].
        -- exists 0%nat, d. rewrite Nat.add_0_r. auto.
        -- exists (S i), d'. auto.
      * intros ([|i] & d' & Hd & Hl).
        -- left. simpl in Hd. injection Hd as <-. rewrite Nat.add_0_r in Hl. congruence.
        -- right. exists i, d'. auto.
    + rewrite Htail. split.
      * intros (i & d' & Hd & Hl). exists (S i), d'. auto.
      * intros ([|i] & d' & Hd & Hl).
        -- simpl in Hd. injection Hd as <-. rewrite Nat.add_0_r in Hl. congruence.
        -- exists i, d'. auto.
Qed.

Lemma page_location_number (text : string) (n : nat) (d : PageData)
    (l : SimpleRun.location) :
  page_location text n d = Some l → l.1.1 = n.
Proof.
  unfold page_location. destruct (SimpleRun.extract_text d); [|discriminate].
  destruct (str_find text s); [|discriminate]. intros [= <-]. reflexivity.
Qed.

(** The page numbers of the locations increase. *)
Lemma page_locations_increasing (text : string) (k : nat) (pages : list PageData) :
  StronglySorted (fun a b : SimpleRun.location => (a.1.1 < b.1.1)%nat)
    (page_locations text k pages).
Proof.
  revert k. induction pages as [|d pages IH]; intros k; simpl; [constructor|].
  destruct (page_location text k d) as [l|] eqn:Hl; [|apply IH].
  constructor; [apply IH|].
  rewrite List.Forall_forall. intros l' Hl'.
  apply list_elem_of_In, page_locations_elem in Hl' as (i & d' & _ & Hl').
  apply page_location_number in Hl, Hl'. lia.
Qed.

(** X15: when [find_text_in_pdf] returns, its locations are, in
    increasing order of page number, one for each page whose extracted
    text holds the text, at [x = 50] and
    [y = 800 - 12 * (newlines before the first occurrence)]; the pages
    without the text have none, and a page has one location however often
    the text occurs on it.  It returns unless an extraction raises. *)
Theorem find_text_in_pdf_locations (reader : Document) (text : string) :
  (is_Some (SimpleRun.find_text_in_pdf reader text) ↔
   Forall (fun d => is_Some (SimpleRun.extract_text d)) reader) ∧
  ∀ locations, SimpleRun.find_text_in_pdf reader text = Some locations →
    StronglySorted (fun a b : SimpleRun.location => (a.1.1 < b.1.1)%nat) locations ∧
    ∀ n x y, (n, x, y) ∈ locations ↔
      ∃ d page_text pre,
        reader !! n = Some d ∧ SimpleRun.extract_text d = Some page_text ∧
        first_occurrence text page_text pre ∧
        x = 50 ∧ y = 800 - Z.of_nat (count_newlines pre) * 12.
Proof.
  unfold SimpleRun.find_text_in_pdf. rewrite find_text_loop_run. simpl. split.
  - destruct (forallb _ reader) eqn:Hall.
    + split; [|eauto]. intros _. rewrite forallb_forall in Hall.
      apply List.Forall_forall. intros d Hd. apply Hall in Hd.
      apply bool_decide_eq_true in Hd. exact Hd.
    + split; [intros [? ?]; discriminate|]. intros Hf. exfalso.
      assert (forallb (fun d => bool_decide (is_Some (SimpleRun.extract_text d))) reader = true).
      { apply forallb_forall. intros d Hd. apply bool_decide_eq_true.
        rewrite List.Forall_forall in Hf. exact (Hf d Hd). }
      congruence.
  - intros locations. destruct (forallb _ reader); [|discriminate].
    intros [= <-]. split; [apply page_locations_increasing|].
    intros n x y. rewrite page_locations_elem. simpl. split.
    + intros (i & d & Hd & Hl). unfold page_location in Hl.
      destruct (SimpleRun.extract_text d) as [page_text|] eqn:Ht; [|discriminate].
      destruct (str_find text page_text) as [start_pos|] eqn:Hf; [|discriminate].
      injection Hl as <- <- <-.
      exists d, page_text, (str_take start_pos page_text).
      split; [exact Hd|]. split; [exact Ht|]. split; [|auto].
      apply str_find_first_occurrence. eauto.
    + intros (d & page_text & pre & Hd & Ht & Hocc & -> & ->).
      apply str_find_first_occurrence in Hocc as (i & Hi & ->).
      exists n, d. split; [exact Hd|]. unfold page_location. rewrite Ht, Hi. reflexivity.
Qed.

(** X16: for the empty text [find_text_in_pdf] gives a location on
    every page, at the top ([y = 800]): the empty string is in every page
    text. *)
Theorem find_text_in_pdf_empty (reader : Document) :
  Forall (fun d => is_Some (SimpleRun.extract_text d)) reader →
  SimpleRun.find_text_in_pdf reader "" = Some (imap (fun n _ => (n, 50, 800)) reader).
Proof.
  intros Hret. unfold SimpleRun.find_text_in_pdf.
  assert (H : ∀ k acc,
    SimpleRun.find_text_loop k reader "" acc =
      Some (acc ++ imap (fun i _ => ((k + i)%nat, 50, 800)) reader)%list).
  { induction Hret as [|d pages [t Ht] _ IH]; intros k acc; simpl.
    - rewrite app_nil_r. reflexivity.
    - rewrite Ht. destruct t; simpl; rewrite IH, <- app_assoc; simpl;
        rewrite Nat.add_0_r; do 3 f_equal; apply imap_ext; intros i x _; simpl;
        do 2 f_equal; lia. }
  rewrite H. reflexivity.
Qed.

Lemma find_text_in_pdf_truthy (reader : Document) (text : string)
    (locations : list SimpleRun.location) :
  SimpleRun.find_text_in_pdf reader text = Some locations →
  truthy locations = occurs_in reader text.
Proof.
  unfold SimpleRun.find_text_in_pdf. rewrite find_text_loop_run. simpl.
  destruct (forallb _ reader); [|discriminate]. intros [= <-].
  generalize 0%nat. unfold occurs_in.
  induction reader as [|d reader IH]; intros k; simpl; [reflexivity|].
  unfold page_location.
  destruct (SimpleRun.extract_text d) as [page_text|]; simpl; [|apply IH].
  destruct (str_find text page_text); simpl; [reflexivity|apply IH].
Qed.

Lemma simple_highlights_loop_counters (reader : Document)
    (highlights : list highlight_record) (r r' : SimpleRun.Report) :
  SimpleRun.highlights_loop reader highlights r = Some r' →
  SimpleRun.total_highlights r' = SimpleRun.total_highlights r ∧
  SimpleRun.found_highlights r' =
    (SimpleRun.found_highlights r
     + List.length (List.filter (fun h : highlight_record => occurs_in reader h.2)
                      highlights))%nat ∧
  (SimpleRun.found_highlights r' + SimpleRun.not_found_highlights r' =
     SimpleRun.found_highlights r + SimpleRun.not_found_highlights r
     + List.length highlights)%nat.
Proof.
  revert r. induction highlights as [|[[c len] text] hs IH]; intros r; simpl.
  - intros [= <-]. lia.
  - destruct (SimpleRun.find_text_in_pdf reader text) as [locations|] eqn:Hf; [|discriminate].
    rewrite (find_text_in_pdf_truthy reader text locations Hf).
    destruct (occurs_in reader text); intros Hrun; apply IH in Hrun as (Ht & Hfound & Hsum);
      simpl in *; lia.
Qed.

(** X17: the report of the test run has total = number of sampled
    records >= 1, found + not found = total, and found = the number of
    records whose text is in the extracted text of some page; so the
    success rate that is printed divides by a total that is not zero and
    lies between 0 and 100. *)
Theorem sample_report_counters (fs : gmap Path File) (self : SimpleRun.MoonHighlighterSimple)
    (output_path : option Path) (limit : Z) (file : option Path) (r : SimpleRun.Report)
    (fs' : gmap Path File) :
  SimpleRun.process_sample_highlights fs self output_path limit =
    SimpleRun.Returned file (Some r) fs' →
  ∃ reader annots highlights,
    fs !! SimpleRun.pdf_path self = Some (PdfFile reader annots) ∧
    SimpleRun.get_sample_highlights fs self limit = Some highlights ∧
    SimpleRun.total_highlights r = List.length highlights ∧
    (0 < SimpleRun.total_highlights r)%nat ∧
    SimpleRun.found_highlights r =
      List.length (List.filter (fun h : highlight_record => occurs_in reader h.2) highlights) ∧
    (SimpleRun.found_highlights r + SimpleRun.not_found_highlights r =
       SimpleRun.total_highlights r)%nat ∧
    (0 <= SimpleRun.success_rate r <= 100)%Q.
Proof.
  unfold SimpleRun.process_sample_highlights.
  destruct (SimpleRun.get_sample_highlights fs self limit) as [highlights|]; [|discriminate].
  destruct (truthy highlights) eqn:Hne; [|discriminate].
  destruct (fs !! SimpleRun.pdf_path self) as [[reader annots| |]|]; try discriminate.
  destruct (SimpleRun.highlights_loop reader highlights _) as [r1|] eqn:Hloop; [|discriminate].
  destruct (SimpleRun.write_result _); try discriminate.
  intros [= _ <- _].
  apply simple_highlights_loop_counters in Hloop as (Ht & Hfound & Hsum). simpl in *.
  assert (Hpos : (0 < List.length highlights)%nat).
  { destruct highlights; [discriminate|simpl; lia]. }
  exists reader, annots, highlights.
  repeat (split; [first [reflexivity|lia]|]).
  unfold SimpleRun.success_rate, Qle, Qdiv, Qmult, Qinv. rewrite Ht.
  destruct (List.length highlights) as [|n] eqn:Hn; [lia|].
  simpl. split; nia.
Qed.

(** X18: with no explicit output path the test run writes
    [stem + "_test_highlighted" + suffix] beside the input and no other
    file; the input file stays as it was; and the file it returns is a
    copy of the input: the test run marks nothing. *)
Theorem sample_run_copies (fs : gmap Path File) (self : SimpleRun.MoonHighlighterSimple)
    (limit : Z) :
  let out := MoonHighlighterSimple.default_output_path (SimpleRun.pdf_path self) in
  ∀ fs' file report,
    (SimpleRun.process_sample_highlights fs self None limit =
       SimpleRun.Returned file report fs' ∨
     SimpleRun.process_sample_highlights fs self None limit = SimpleRun.Uncaught fs' ∧
     file = None) →
    fs' !! SimpleRun.pdf_path self = fs !! SimpleRun.pdf_path self ∧
    (∀ p, p ≠ out → fs' !! p = fs !! p) ∧
    (∀ p, file = Some p → p = out ∧ fs' !! out = fs !! SimpleRun.pdf_path self).
Proof.
  intros out fs' file report.
  assert (Hfresh : out ≠ SimpleRun.pdf_path self) by apply simple_default_output.
  unfold SimpleRun.process_sample_highlights. fold out.
  destruct (SimpleRun.get_sample_highlights fs self limit) as [highlights|].
  2:{ intros [H|[[= <-] ->]]; [discriminate|]. repeat split; auto; discriminate. }
  destruct (truthy highlights).
  2:{ intros [[= <- _ <-]|[H _]]; [|discriminate]. repeat split; auto; discriminate. }
  destruct (fs !! SimpleRun.pdf_path self) as [[reader annots| |]|] eqn:Hpdf.
  2-4: intros [[= <- _ <-]|[H _]]; [|discriminate]; repeat split; auto; discriminate.
  destruct (SimpleRun.highlights_loop reader highlights _) as [r1|].
  2:{ intros [H|[[= <-] ->]]; [discriminate|]. repeat split; auto; discriminate. }
  destruct (SimpleRun.write_result out).
  - intros [[= <- _ <-]|[H _]]; [|discriminate]. repeat split; auto; discriminate.
  - intros [[= <- _ <-]|[H _]]; [|discriminate].
    split; [rewrite lookup_insert_ne by exact Hfresh; exact Hpdf|].
    split; [intros p Hp; apply lookup_insert_ne; congruence|discriminate].
  - intros [[= <- _ <-]|[H _]]; [|discriminate].
    split; [rewrite lookup_insert_ne by exact Hfresh; exact Hpdf|].
    split; [intros p Hp; apply lookup_insert_ne; congruence|].
    intros p [= <-]. split; [reflexivity|]. rewrite lookup_insert_eq. reflexivity.
Qed.

(** X19: the sample query of the test variant returns the first
    [limit] records of what the query of [MoonHighlighter] returns for the
    same book and database, all of them for a negative limit and none for
    the limit 0. *)
Theorem sample_is_prefix (w : World) (self : MoonHighlighter)
    (s : SimpleRun.MoonHighlighterSimple) (limit : Z) :
  SimpleRun.db_path s = db_path self → SimpleRun.book_name s = book_name self →
  - 2 ^ 63 <= limit < 2 ^ 63 →
  ∃ sample,
    SimpleRun.get_sample_highlights (fs w) s limit = Some sample ∧
    (limit < 0 → sample = get_highlights_from_db w self) ∧
    (0 <= limit →
     sample = take (Z.to_nat limit) (get_highlights_from_db w self) ∧
     Z.of_nat (List.length sample) <= limit).
Proof.
  intros Hdb Hbook Hrange.
  unfold SimpleRun.get_sample_highlights, get_highlights_from_db. rewrite Hdb, Hbook.
  destruct (fs w !! db_path self) as [[| notes |]|].
  1,3,4: exists []; split; [reflexivity|]; split; [reflexivity|];
    intros; rewrite take_nil; simpl; split; [reflexivity|lia].
  destruct (Z.leb_spec (- 2 ^ 63) limit); [|lia].
  destruct (Z.ltb_spec limit (2 ^ 63)); [|lia]. simpl.
  eexists. split; [reflexivity|]. unfold SimpleRun.sql_limit.
  destruct (Z.ltb_spec limit 0).
  - split; [reflexivity|lia].
  - split; [lia|]. intros _. split; [reflexivity|]. rewrite length_take. lia.
Qed.

End SimpleProperties.

Section SimpleMain.
Context `{E : SimpleRun.Env} `{PL : Pathlib} `{AP : Argparse SimpleRun.Args}.

(** [main] of the test script once the command line is parsed. *)
Lemma simple_main_parsed (argv : list string) (args : SimpleRun.Args)
    (fs : gmap Path File) :
  parse_args argv = Parsed args →
  let pdf := to_path (SimpleRun.arg_pdf args) in
  let out := default (MoonHighlighterSimple.default_output_path pdf)
               (to_path <$> SimpleRun.arg_output args) in
  ∃ code fs', SimpleRun.main argv fs = (code, fs') ∧
    (code = 0 ∧ is_Some (fs !! pdf) ∧ fs' = <[out := default OtherFile (fs !! pdf)]> fs ∨
     code = 1 ∧ (fs' = fs ∨ fs' = <[out := OtherFile]> fs)).
Proof.
  intros Hparse pdf out.
  assert (Hfail : ∀ fs', fs' = fs ∨ fs' = <[out := OtherFile]> fs →
    ∃ code fs'', (1, fs') = (code, fs'') ∧
      (code = 0 ∧ is_Some (fs !! pdf) ∧ fs'' = <[out := default OtherFile (fs !! pdf)]> fs ∨
       code = 1 ∧ (fs'' = fs ∨ fs'' = <[out := OtherFile]> fs))).
  { intros fs' H. exists 1, fs'. split; [reflexivity|]. right. split; [reflexivity|exact H]. }
  unfold SimpleRun.main. rewrite Hparse. fold pdf.
  destruct (SimpleRun.init fs pdf _ _) as [highlighter|] eqn:Hinit; [|apply Hfail; auto].
  assert (Hpath : SimpleRun.pdf_path highlighter = pdf).
  { unfold SimpleRun.init in Hinit.
    destruct (fs !! pdf), (fs !! to_path (SimpleRun.arg_database args)); try discriminate.
    injection Hinit as <-. reflexivity. }
  unfold SimpleRun.process_sample_highlights. rewrite Hpath.
  replace (match to_path <$> SimpleRun.arg_output args with
           | Some p => p | None => MoonHighlighterSimple.default_output_path pdf end)
    with out by (subst out; destruct (SimpleRun.arg_output args); reflexivity).
  destruct (SimpleRun.get_sample_highlights fs highlighter _) as [highlights|];
    [|apply Hfail; auto].
  destruct (truthy highlights); [|apply Hfail; auto].
  destruct (fs !! pdf) as [[reader annots| |]|] eqn:Hpdf; try (apply Hfail; auto; fail).
  destruct (SimpleRun.highlights_loop reader highlights _) as [r1|]; [|apply Hfail; auto].
  destruct (SimpleRun.write_result out); [apply Hfail; auto|apply Hfail; auto|].
  eexists 0, _. split; [reflexivity|]. left. split; [reflexivity|]. split; [eauto|].
  reflexivity.
Qed.

(** X20: the test script exits with 0, 1 or 2.  It exits with 2 exactly
    when [argparse] rejects the command line (a required option is
    missing, the limit is no integer, an option is unknown), and with 0 on
    [-h], in both cases with no file touched.  When the command line
    parses, it exits with 0 exactly when its run returned an output path,
    and then the output file is a copy of the input; otherwise it exits
    with 1, and the file system is as it was but for the output path when
    the write raised after creating the file. *)
Theorem simple_main_exit (argv : list string) (fs : gmap Path File) :
  (parse_args argv = HelpExit → SimpleRun.main argv fs = (0, fs)) ∧
  (parse_args argv = UsageError → SimpleRun.main argv fs = (2, fs)) ∧
  ((SimpleRun.main argv fs).1 = 0 ∨ (SimpleRun.main argv fs).1 = 1 ∨
   (SimpleRun.main argv fs).1 = 2) ∧
  ((SimpleRun.main argv fs).1 = 2 ↔ parse_args argv = UsageError) ∧
  (∀ args, parse_args argv = Parsed args →
     let pdf := to_path (SimpleRun.arg_pdf args) in
     let out := default (MoonHighlighterSimple.default_output_path pdf)
                  (to_path <$> SimpleRun.arg_output args) in
     ∃ code fs', SimpleRun.main argv fs = (code, fs') ∧
       (code = 0 ∧ is_Some (fs !! pdf) ∧
        fs' = <[out := default OtherFile (fs !! pdf)]> fs ∨
        code = 1 ∧ (fs' = fs ∨ fs' = <[out := OtherFile]> fs))).
Proof.
  split; [intros H; unfold SimpleRun.main; rewrite H; reflexivity|].
  split; [intros H; unfold SimpleRun.main; rewrite H; reflexivity|].
  assert (Hcode : ((SimpleRun.main argv fs).1 = 0 ∨ (SimpleRun.main argv fs).1 = 1 ∨
                   (SimpleRun.main argv fs).1 = 2) ∧
                  ((SimpleRun.main argv fs).1 = 2 ↔ parse_args argv = UsageError)).
  { destruct (parse_args argv) as [| |args] eqn:Hparse.
    - unfold SimpleRun.main. rewrite Hparse. simpl. split; [auto|]. split; discriminate.
    - unfold SimpleRun.main. rewrite Hparse. simpl. split; [auto|]. split; reflexivity.
    - destruct (simple_main_parsed argv args fs Hparse) as (code & fs' & Hmain & Hcases).
      rewrite Hmain. simpl.
      destruct Hcases as [[-> _]|[-> _]]; (split; [auto|split; discriminate]). }
  split; [exact (proj1 Hcode)|]. split; [exact (proj2 Hcode)|].
  intros args Hparse. exact (simple_main_parsed argv args fs Hparse).
Qed.

End SimpleMain.

(** Witness of [find_text_in_pdf_locations]: "world" is on the second
    line of the only page. *)
Lemma find_text_in_pdf_locations_witness :
  SimpleRun.find_text_in_pdf (E := MoreExamples.example_env) [Examples.page_hello] "world" =
    Some [(0%nat, 50, 788)] ∧
  StronglySorted (fun a b : SimpleRun.location => (a.1.1 < b.1.1)%nat) [(0%nat, 50, 788)].
Proof.
  split; [reflexivity|].
  apply (proj2 (find_text_in_pdf_locations (E := MoreExamples.example_env)
                  [Examples.page_hello] "world") [(0%nat, 50, 788)]).
  reflexivity.
Defined.

(** Witness of [find_text_in_pdf_empty]. *)
Lemma find_text_in_pdf_empty_witness :
  SimpleRun.find_text_in_pdf (E := MoreExamples.example_env)
    [Examples.page_hello; Examples.page_foobar] "" = Some [(0%nat, 50, 800); (1%nat, 50, 800)].
Proof.
  apply (find_text_in_pdf_empty (E := MoreExamples.example_env)
           [Examples.page_hello; Examples.page_foobar]).
  repeat constructor; eexists; reflexivity.
Defined.

(** Witness of [sample_report_counters]: of the two sampled records one
    is in the document. *)
Lemma sample_report_counters_witness :
  let fs0 := fs (Examples.world_of [Examples.page_hello]
                   [Examples.note 1996532479 "hello"; Examples.note (-256) "quux"]) in
  ∃ r, SimpleRun.found_highlights r = 1%nat ∧ SimpleRun.total_highlights r = 2%nat ∧
       (0 <= SimpleRun.success_rate r <= 100)%Q.
Proof.
  intros fs0.
  destruct (sample_report_counters (E := MoreExamples.example_env) fs0 MoreExamples.simple
              None 10 (Some (MoonHighlighterSimple.default_output_path Examples.pdf))
              (SimpleRun.mkReport 2 1 1)
              (<[MoonHighlighterSimple.default_output_path Examples.pdf :=
                   PdfFile [Examples.page_hello] []]> fs0))
    as (reader & annots & highlights & _ & _ & _ & _ & _ & _ & Hrate).
  - vm_compute. reflexivity.
  - exists (SimpleRun.mkReport 2 1 1). split; [reflexivity|]. split; [reflexivity|exact Hrate].
Defined.

(** Witness of [sample_is_prefix]: the limit 1 on two records. *)
Lemma sample_is_prefix_witness :
  let w := Examples.world_of [Examples.page_hello]
             [Examples.note 1996532479 "hello"; Examples.note (-256) "quux"] in
  ∃ sample, SimpleRun.get_sample_highlights (fs w) MoreExamples.simple 1 = Some sample ∧
            sample = take 1 (get_highlights_from_db w Examples.self).
Proof.
  intros w.
  destruct (sample_is_prefix w Examples.self MoreExamples.simple 1)
    as (sample & Hs & _ & Hpre).
  - reflexivity.
  - reflexivity.
  - lia.
  - exists sample. split; [exact Hs|]. apply Hpre. lia.
Defined.

(** Witness of [sample_run_copies]. *)
Lemma sample_run_copies_witness :
  let fs0 := fs (Examples.world_of [Examples.page_hello] [Examples.note 1996532479 "hello"]) in
  let out := MoonHighlighterSimple.default_output_path Examples.pdf in
  <[out := PdfFile [Examples.page_hello] []]> fs0 !! Examples.pdf = fs0 !! Examples.pdf.
Proof.
  intros fs0 out.
  destruct (sample_run_copies (E := MoreExamples.example_env) fs0 MoreExamples.simple 10
              (<[out := PdfFile [Examples.page_hello] []]> fs0) (Some out)
              (Some (SimpleRun.mkReport 1 1 0))) as (Hin & _ & _).
  - left. vm_compute. reflexivity.
  - exact Hin.
Defined.

(** Witness of [simple_main_exit]: on the command line of the examples
    the output is written, a copy of the input, and the exit code is 0;
    without the required options the exit code is 2 and no file is
    touched. *)
Lemma simple_main_exit_witness :
  let fs0 := fs (Examples.world_of [Examples.page_hello] [Examples.note 1996532479 "hello"]) in
  SimpleRun.main (E := MoreExamples.example_env) (PL := MoreExamples.example_paths)
    (AP := MoreExamples.simple_argparse) MoreExamples.argv fs0 =
    (0, <[MoonHighlighterSimple.default_output_path Examples.pdf :=
            PdfFile [Examples.page_hello] []]> fs0) ∧
  SimpleRun.main (E := MoreExamples.example_env) (PL := MoreExamples.example_paths)
    (AP := MoreExamples.simple_argparse) [] fs0 = (2, fs0).
Proof.
  intros fs0. split.
  - destruct (simple_main_exit (E := MoreExamples.example_env)
                (PL := MoreExamples.example_paths) (AP := MoreExamples.simple_argparse)
                MoreExamples.argv fs0) as (_ & _ & _ & _ & Hparsed).
    destruct (Hparsed MoreExamples.simple_args eq_refl) as (code & fs' & Hmain & Hcases).
    rewrite Hmain.
    assert (Hzero : (SimpleRun.main (E := MoreExamples.example_env)
                       (PL := MoreExamples.example_paths)
                       (AP := MoreExamples.simple_argparse) MoreExamples.argv fs0).1 = 0)
      by reflexivity.
    rewrite Hmain in Hzero. simpl in Hzero. subst code.
    destruct Hcases as [(_ & _ & ->)|[Hcode _]]; [reflexivity|discriminate Hcode].
  - apply (simple_main_exit (E := MoreExamples.example_env)
             (PL := MoreExamples.example_paths) (AP := MoreExamples.simple_argparse) [] fs0).
    reflexivity.
Defined.
